(** * TatraPay+ client and payment callback route: a shallow embedding

    The development follows [src/lib/tatrapay.ts] (token cache, request
    shaping, status helpers) and [src/app/api/payment/callback/route.ts]
    (the return-URL handler).

    Conventions of the embedding:
    - a JavaScript string is the list of its UTF-16 code units;
    - a JavaScript [number] holding an integer (epoch milliseconds, an
      amount in cents, an HTTP status) is a [Z]; the quotient
      [amount / 100] is the binary64 quotient, a primitive [float];
      a decimal the gateway reports and the code only passes on is the
      rational it denotes;
    - [async] functions are computations over an explicit [World]: the
      module-level token slot, the wall clock, the history of [fetch]
      calls, the console and the counter behind [crypto.randomUUID];
    - [throw] is the [Throw] result of the computation. *)

From Stdlib Require Import ZArith NArith QArith List String Ascii Bool Lia.
From Stdlib Require Import DecimalString.
From Stdlib Require Import PrimFloat Uint63 FloatOps.
Import ListNotations.

Local Close Scope Q_scope.
Local Open Scope Z_scope.
Local Open Scope list_scope.

Set Implicit Arguments.

(* ================================================================== *)
(** ** JavaScript strings *)
(* ================================================================== *)

Module JS.

(** A string value: its UTF-16 code units, in order. *)
Definition jsstring : Type := list N.

(** An ASCII literal of the source as a string value. *)
Definition lit (s : string) : jsstring :=
  map N_of_ascii (list_ascii_of_string s).

(** [a === b] on strings. *)
Fixpoint eqb (a b : jsstring) : bool :=
  match a, b with
  | [], [] => true
  | x :: a', y :: b' => N.eqb x y && eqb a' b'
  | _, _ => false
  end.

(** Truthiness of a string: every string but the empty one. *)
Definition truthy (s : jsstring) : bool :=
  match s with [] => false | _ :: _ => true end.

(** Truthiness of an optional string property ([undefined] is falsy). *)
Definition truthy_opt (o : option jsstring) : bool :=
  match o with Some s => truthy s | None => false end.

(** [a || b] on strings. *)
Definition or_else (a b : jsstring) : jsstring :=
  if truthy a then a else b.

(** [o || b] where [o] may be [undefined]. *)
Definition opt_or_else (o : option jsstring) (b : jsstring) : jsstring :=
  match o with Some a => or_else a b | None => b end.

(** [s.substring(0, n)]. *)
Definition substring0 (n : nat) (s : jsstring) : jsstring := firstn n s.

(** ECMAScript [WhiteSpace] and [LineTerminator] code units: the class
    matched by [\s] and removed by [String.prototype.trim]. *)
Definition isWhiteSpace (c : N) : bool :=
  ((9 <=? c) && (c <=? 13) || (c =? 32) || (c =? 160) || (c =? 5760)
   || (8192 <=? c) && (c <=? 8202)
   || (c =? 8232) || (c =? 8233) || (c =? 8239) || (c =? 8287)
   || (c =? 12288) || (c =? 65279))%N.

Fixpoint dropWhile (p : N -> bool) (s : jsstring) : jsstring :=
  match s with
  | [] => []
  | c :: s' => if p c then dropWhile p s' else s
  end.

(** [s.trim()]. *)
Definition trim (s : jsstring) : jsstring :=
  rev (dropWhile isWhiteSpace (rev (dropWhile isWhiteSpace s))).

(** [s.replace(/\s/g, '')]. *)
Definition remove_whitespace (s : jsstring) : jsstring :=
  filter (fun c => negb (isWhiteSpace c)) s.

(** [s.split(sep)[0]] for a one-unit separator: the part before its
    first occurrence (the whole string when it does not occur). *)
Fixpoint before_first (sep : N) (s : jsstring) : jsstring :=
  match s with
  | [] => []
  | c :: s' => if N.eqb c sep then [] else c :: before_first sep s'
  end.

(** Decimal rendering of an integer, as a template literal does. *)
Definition of_Z (z : Z) : jsstring :=
  lit (NilEmpty.string_of_int (Z.to_int z)).

(** [arr.includes(s)] on an array of strings. *)
Definition includes (arr : list jsstring) (s : jsstring) : bool :=
  existsb (eqb s) arr.

Fixpoint startsWith (prefix s : jsstring) : bool :=
  match prefix, s with
  | [], _ => true
  | x :: prefix', y :: s' => N.eqb x y && startsWith prefix' s'
  | _ :: _, [] => false
  end.

(** [s.includes(part)] on strings. *)
Fixpoint contains (part s : jsstring) : bool :=
  startsWith part s ||
  match s with
  | [] => false
  | _ :: s' => contains part s'
  end.

End JS.

Import JS.

Declare Scope js_scope.
Delimit Scope js_scope with js.
Notation "'$' s" := (JS.lit s%string) (at level 1, s at level 0, only parsing) : js_scope.
Local Open Scope js_scope.

(** The JavaScript number that holds the integer [z]; exact for
    [|z| <= 2^53], the integers a number holds without loss. *)
Definition number_of_Z (z : Z) : float :=
  match z with
  | Z0 => 0%float
  | Zpos p => PrimFloat.of_uint63 (Uint63.of_Z (Zpos p))
  | Zneg p => PrimFloat.opp (PrimFloat.of_uint63 (Uint63.of_Z (Zpos p)))
  end.

(* ================================================================== *)
(** ** Status helpers (tatrapay.ts, "Status Helpers") *)
(* ================================================================== *)

(** A status travels as the string the gateway sent
    ([response.status as TatraPayStatus] is an unchecked cast). *)
Definition TatraPayStatus : Type := jsstring.

Definition successCodes : list TatraPayStatus :=
  [ $"ACCC"; $"ACSC"; $"ACSP"; $"ACCP"; $"ACTC"; $"ACWC"; $"ACWP"; $"ACFC" ].

Definition failedCodes : list TatraPayStatus := [ $"RJCT"; $"CANC" ].

Definition pendingCodes : list TatraPayStatus :=
  [ $"RCVD"; $"PDNG"; $"PATC"; $"PART" ].

Definition isPaymentSuccessful (status : TatraPayStatus) : bool :=
  includes successCodes status.

Definition isPaymentFailed (status : TatraPayStatus) : bool :=
  includes failedCodes status.

Definition isPaymentPending (status : TatraPayStatus) : bool :=
  includes pendingCodes status.

Inductive InternalStatus : Type := pending | completed | failed.

Definition mapToInternalStatus (status : TatraPayStatus) : InternalStatus :=
  if isPaymentSuccessful status then completed
  else if isPaymentFailed status then failed
  else pending.

(* ================================================================== *)
(** ** Types of the client (tatrapay.ts, "Types") *)
(* ================================================================== *)

Inductive TatraPayMethod : Type := CARD_PAY | BANK_TRANSFER | QR_PAY | PAY_LATER.

(** The string a method is at run time. *)
Definition method_string (m : TatraPayMethod) : jsstring :=
  match m with
  | CARD_PAY => $"CARD_PAY"
  | BANK_TRANSFER => $"BANK_TRANSFER"
  | QR_PAY => $"QR_PAY"
  | PAY_LATER => $"PAY_LATER"
  end.

Definition method_eqb (a b : TatraPayMethod) : bool :=
  match a, b with
  | CARD_PAY, CARD_PAY | BANK_TRANSFER, BANK_TRANSFER
  | QR_PAY, QR_PAY | PAY_LATER, PAY_LATER => true
  | _, _ => false
  end.

Inductive Currency : Type := EUR | CZK.

Definition currency_string (c : Currency) : jsstring :=
  match c with EUR => $"EUR" | CZK => $"CZK" end.

Inductive Language : Type := sk | cs | en.

Record TatraPayCredentials : Type := {
  clientId : jsstring;
  clientSecret : jsstring;
  isSandbox : bool
}.

(** The JSON object of the token endpoint. *)
Record TokenData : Type := {
  td_access_token : jsstring;
  td_token_type : jsstring;
  td_expires_in : Z;
  td_scope : jsstring
}.

(** [TatraPayToken]: the token object spread, plus [expiresAt]. *)
Record TatraPayToken : Type := {
  access_token : jsstring;
  token_type : jsstring;
  expires_in : Z;
  scope : jsstring;
  expiresAt : Z
}.

Record TatraPayCustomer : Type := {
  firstName : jsstring;
  lastName : jsstring;
  email : jsstring;
  phone : option jsstring
}.

Record Amount : Type := {
  amount : Z;
  currency : Currency
}.

Record TatraPayCreatePaymentRequest : Type := {
  paymentMethod : TatraPayMethod;
  req_amount : Amount;
  merchantReference : jsstring;
  description : option jsstring;
  customer : option TatraPayCustomer;
  returnUrl : jsstring;
  notificationUrl : option jsstring;
  language : option Language;
  validityMinutes : option Z;
  customerIpAddress : jsstring
}.

Record BankTransferInfo : Type := {
  iban : jsstring;
  bic : jsstring;
  variableSymbol : jsstring;
  bti_amount : float;
  bti_currency : Currency
}.

(** The value of [new Date(ms).toISOString()], kept as the instant it
    renders. *)
Inductive ISOString : Type := toISOString (ms : Z).

Record TatraPayPaymentResponse : Type := {
  paymentId : jsstring;
  status : TatraPayStatus;
  redirectUrl : option jsstring;
  qrCodeData : option jsstring;
  bankTransferInfo : option BankTransferInfo;
  createdAt : ISOString;
  resp_expiresAt : option jsstring
}.

Record StatusAmount : Type := {
  sa_amount : Q;
  sa_currency : jsstring
}.

Record TatraPayStatusResponse : Type := {
  sr_paymentId : jsstring;
  sr_status : TatraPayStatus;
  sr_merchantReference : jsstring;
  sr_amount : StatusAmount;
  sr_paidAmount : option StatusAmount;
  sr_paymentMethod : jsstring;
  sr_createdAt : jsstring;
  sr_updatedAt : jsstring;
  sr_transactionId : option jsstring
}.

(* ------------------------------------------------------------------ *)
(** *** Wire schema of the gateway *)
(* ------------------------------------------------------------------ *)

Record BaseAmount : Type := {
  amountValue : Z;
  ba_currency : Currency
}.

Record UserData : Type := {
  ud_firstName : jsstring;
  ud_lastName : jsstring;
  ud_email : jsstring;
  ud_phone : option jsstring
}.

Record CardDetail : Type := { cardHolder : jsstring }.

(** [apiBody] of [createPayment]; an optional field is a property the
    code may or may not add. [bankTransfer = Some tt] is the empty
    object. *)
Record ApiBody : Type := {
  baseAmount : BaseAmount;
  ab_merchantReference : jsstring;
  ab_language : Language;
  paymentDescription : option jsstring;
  userData : option UserData;
  cardDetail : option CardDetail;
  bankTransfer : option unit
}.

Record BankTransferData : Type := {
  btd_iban : jsstring;
  btd_bic : jsstring;
  btd_variableSymbol : jsstring
}.

Record AvailableMethod : Type := {
  isAvailable : bool;
  am_paymentMethod : jsstring;
  reasonCodeMethodAvailability : option jsstring;
  reasonCodeMethodAvailabilityDescription : option jsstring
}.

(** Reply of [POST /v1/payments], as the type argument of [apiRequest]
    in [createPayment] declares it. *)
Record PaymentData : Type := {
  pd_paymentId : jsstring;
  tatraPayPlusUrl : option jsstring;
  bankTransferData : option BankTransferData;
  availablePaymentMethods : option (list AvailableMethod)
}.

(** Reply of [GET /v1/payments/{id}/status]. *)
Record StatusData : Type := {
  sd_paymentId : jsstring;
  sd_status : jsstring;
  sd_merchantReference : jsstring;
  instructedAmount : StatusAmount;
  sd_paidAmount : option StatusAmount;
  sd_paymentMethod : jsstring;
  sd_createdAt : jsstring;
  sd_updatedAt : jsstring;
  sd_transactionId : option jsstring
}.

(* ================================================================== *)
(** ** The world an [async] function runs in *)
(* ================================================================== *)

(** [process.env], the variables the code reads. *)
Record Env : Type := {
  TATRAPAY_CLIENT_ID : option jsstring;
  TATRAPAY_CLIENT_SECRET : option jsstring;
  TATRAPAY_SANDBOX : option jsstring;
  NEXT_PUBLIC_BASE_URL : option jsstring
}.

Inductive HttpMethod : Type := M_GET | M_POST | M_PUT | M_DELETE.

Definition http_method_string (m : HttpMethod) : jsstring :=
  match m with
  | M_GET => $"GET" | M_POST => $"POST" | M_PUT => $"PUT" | M_DELETE => $"DELETE"
  end.

(** Request bodies the client sends: a [URLSearchParams] form, or
    [JSON.stringify(apiBody)] kept as the object it serialises. *)
Inductive Body : Type :=
| BodyForm (params : list (jsstring * jsstring))
| BodyJson (b : ApiBody).

(** One call of [fetch(url, options)]. *)
Record FetchRequest : Type := {
  fr_url : jsstring;
  fr_method : HttpMethod;
  fr_headers : list (jsstring * jsstring);
  fr_body : option Body
}.

Record HttpResponse : Type := {
  http_status : Z;
  http_text : jsstring;
  latency : N
}.

(** [fetch] resolves with a response or rejects (network failure). *)
Inductive FetchOutcome : Type :=
| Responded (r : HttpResponse)
| Rejected (elapsed : N).

(** [response.ok]. *)
Definition ok (r : HttpResponse) : bool :=
  (200 <=? http_status r) && (http_status r <=? 299).

Inductive Level : Type := LOG | ERROR.

(** A [console.log] / [console.error] call: its message text (without
    the leading pictograph) and the string values printed with it. *)
Record ConsoleEntry : Type := {
  level : Level;
  message : string;
  printed : list jsstring
}.

Record World : Type := {
  env : Env;
  cachedToken : option TatraPayToken;   (* [let cachedToken] *)
  clock : Z;                            (* what [Date.now()] reads *)
  net : list FetchRequest;              (* [fetch] calls so far, oldest first *)
  console : list ConsoleEntry;
  uuids : nat                           (* [crypto.randomUUID] calls so far *)
}.

(** What lies outside the process: the network, and the platform
    functions whose results the code only passes along. A [JSON_parse_*]
    function is [JSON.parse] (or [response.json()]) read at the type the
    caller declares; it is [None] when the text is not JSON. *)
Record Platform : Type := {
  network : list FetchRequest -> Z -> FetchRequest -> FetchOutcome;
  JSON_parse_token : jsstring -> option TokenData;
  JSON_parse_payment : jsstring -> option PaymentData;
  JSON_parse_status : jsstring -> option StatusData;
  JSON_restringify : jsstring -> jsstring;   (* JSON.stringify(JSON.parse(text)) *)
  randomUUID : nat -> jsstring
}.

Inductive Exn : Type :=
| Error (msg : jsstring)          (* [new Error(msg)] *)
| TypeError_fetch                 (* [fetch] rejected *)
| SyntaxError_json.               (* [response.json()] on a non-JSON body *)

Inductive Result (A : Type) : Type :=
| Ok (a : A)
| Throw (e : Exn).
Arguments Throw {A} e.

Definition M (A : Type) : Type := World -> Result A * World.

Definition ret {A} (a : A) : M A := fun w => (Ok a, w).

Definition throw {A} (e : Exn) : M A := fun w => (Throw e, w).

Definition bind {A B} (c : M A) (k : A -> M B) : M B :=
  fun w =>
    match c w with
    | (Ok a, w') => k a w'
    | (Throw e, w') => (Throw e, w')
    end.

(** [try { c } catch (error) { h error }]. *)
Definition try_catch {A} (c : M A) (h : Exn -> M A) : M A :=
  fun w =>
    match c w with
    | (Ok a, w') => (Ok a, w')
    | (Throw e, w') => h e w'
    end.

Declare Scope m_scope.
Delimit Scope m_scope with m.
Notation "x <- c ;; k" := (bind c (fun x => k))
  (at level 100, c at next level, right associativity) : m_scope.
Notation "c ;;; k" := (bind c (fun _ => k))
  (at level 100, right associativity) : m_scope.
Local Open Scope m_scope.

Definition get_env : M Env := fun w => (Ok (env w), w).

Definition get_cachedToken : M (option TatraPayToken) :=
  fun w => (Ok (cachedToken w), w).

Definition set_cachedToken (t : option TatraPayToken) : M unit :=
  fun w => (Ok tt, {| env := env w; cachedToken := t; clock := clock w;
                      net := net w; console := console w; uuids := uuids w |}).

(** [Date.now()]. *)
Definition Date_now : M Z := fun w => (Ok (clock w), w).

Definition console_write (l : Level) (m : string) (vs : list jsstring) : M unit :=
  fun w => (Ok tt, {| env := env w; cachedToken := cachedToken w; clock := clock w;
                      net := net w;
                      console := console w ++ [{| level := l; message := m; printed := vs |}];
                      uuids := uuids w |}).

Definition console_log := console_write LOG.
Definition console_error := console_write ERROR.

(* ================================================================== *)
(** ** The client (tatrapay.ts) *)
(* ================================================================== *)

Record GatewayConfig : Type := {
  baseUrl : jsstring;
  tokenUrl : jsstring
}.

(** [TATRAPAY_CONFIG[key]]; [true] selects ['sandbox']. *)
Definition TATRAPAY_CONFIG (sandbox : bool) : GatewayConfig :=
  if sandbox then
    {| baseUrl := $"https://api.tatrabanka.sk/tatrapayplus/sandbox";
       tokenUrl := $"https://api.tatrabanka.sk/tatrapayplus/sandbox/auth/oauth/v2/token" |}
  else
    {| baseUrl := $"https://api.tatrabanka.sk/tatrapayplus/production";
       tokenUrl := $"https://api.tatrabanka.sk/tatrapayplus/production/auth/oauth/v2/token" |}.

Definition credentials_error : jsstring :=
  $"TatraPay credentials not configured. Set TATRAPAY_CLIENT_ID and TATRAPAY_CLIENT_SECRET.".

Definition getCredentials : M TatraPayCredentials :=
  e <- get_env ;;
  let isSandbox :=
    match TATRAPAY_SANDBOX e with
    | Some v => negb (JS.eqb v $"false")
    | None => true
    end in
  match TATRAPAY_CLIENT_ID e, TATRAPAY_CLIENT_SECRET e with
  | Some id, Some secret =>
      if negb (truthy id) || negb (truthy secret)
      then throw (Error credentials_error)
      else ret {| clientId := id; clientSecret := secret; isSandbox := isSandbox |}
  | _, _ => throw (Error credentials_error)
  end.

Definition getConfig : M GatewayConfig :=
  credentials <- getCredentials ;;
  ret (TATRAPAY_CONFIG (isSandbox credentials)).

Section Client.

Variable P : Platform.

(** [crypto.randomUUID()]: a fresh value per call. *)
Definition generateRequestId : M jsstring :=
  fun w => (Ok (randomUUID P (uuids w)),
            {| env := env w; cachedToken := cachedToken w; clock := clock w;
               net := net w; console := console w; uuids := S (uuids w) |}).

(** [await fetch(url, options)]: the call is recorded, time passes,
    and the outcome is the one the network gives. *)
Definition fetch (rq : FetchRequest) : M HttpResponse :=
  fun w =>
    let after (dt : N) :=
      {| env := env w; cachedToken := cachedToken w;
         clock := clock w + Z.of_N dt;
         net := net w ++ [rq]; console := console w; uuids := uuids w |} in
    match network P (net w) (clock w) rq with
    | Responded r => (Ok r, after (latency r))
    | Rejected dt => (Throw TypeError_fetch, after dt)
    end.

(** The request of the client-credentials exchange. *)
Definition token_request (config : GatewayConfig)
    (credentials : TatraPayCredentials) : FetchRequest :=
  {| fr_url := tokenUrl config;
     fr_method := M_POST;
     fr_headers := [($"Content-Type", $"application/x-www-form-urlencoded")];
     fr_body := Some (BodyForm
       [ ($"grant_type", $"client_credentials");
         ($"client_id", clientId credentials);
         ($"client_secret", clientSecret credentials);
         ($"scope", $"TATRAPAYPLUS") ]) |}.

(** The body of [getAccessToken] below its cache test: the
    client-credentials exchange. *)
Definition requestAccessToken : M jsstring :=
  credentials <- getCredentials ;;
  config <- getConfig ;;
  console_log "Requesting TatraPay access token..." [] ;;;
  response <- fetch (token_request config credentials) ;;
  if negb (ok response) then
    let errorText := http_text response in
    console_error "Token request failed:" [of_Z (http_status response); errorText] ;;;
    throw (Error ($"TatraPay authentication failed: " ++ of_Z (http_status response)))
  else
    match JSON_parse_token P (http_text response) with
    | None => throw SyntaxError_json
    | Some tokenData =>
        now <- Date_now ;;
        set_cachedToken (Some
          {| access_token := td_access_token tokenData;
             token_type := td_token_type tokenData;
             expires_in := td_expires_in tokenData;
             scope := td_scope tokenData;
             expiresAt := now + td_expires_in tokenData * 1000 |}) ;;;
        console_log "TatraPay token obtained, expires in"
          [of_Z (td_expires_in tokenData); $"seconds"] ;;;
        ret (td_access_token tokenData)
    end.

Definition getAccessToken : M jsstring :=
  cached <- get_cachedToken ;;
  now <- Date_now ;;
  match cached with
  | Some t =>
      if now <? expiresAt t - 60000
      then ret (access_token t)
      else requestAccessToken
  | None => requestAccessToken
  end.

(** [apiRequest<T>(method, endpoint, body?, customerIpAddress?,
    redirectUri?, preferredMethod?)]; [parse] is [JSON.parse] read at
    the type argument [T]. *)
Definition apiRequest {T : Type} (parse : jsstring -> option T)
    (method : HttpMethod) (endpoint : jsstring) (body : option ApiBody)
    (customerIpAddress redirectUri : option jsstring)
    (preferredMethod : option TatraPayMethod) : M T :=
  token <- getAccessToken ;;
  config <- getConfig ;;
  let url := baseUrl config ++ endpoint in
  requestId <- generateRequestId ;;
  let headers :=
    [ ($"Authorization", $"Bearer " ++ token);
      ($"Content-Type", $"application/json");
      ($"X-Request-ID", requestId) ]
    ++ match customerIpAddress with
       | Some ip => if truthy ip then [($"IP-Address", ip)] else []
       | None => []
       end
    ++ match redirectUri with
       | Some u => if truthy u then [($"Redirect-URI", u)] else []
       | None => []
       end
    ++ match preferredMethod with
       | Some m => [($"Preferred-Method", method_string m)]
       | None => []
       end in
  let options_body :=
    match body, method with
    | Some b, M_POST | Some b, M_PUT => Some (BodyJson b)
    | _, _ => None
    end in
  console_log "TatraPay" [http_method_string method; endpoint] ;;;
  response <- fetch {| fr_url := url; fr_method := method;
                       fr_headers := headers; fr_body := options_body |} ;;
  let responseText := http_text response in
  match parse responseText with
  | None =>
      console_error "Invalid JSON response:" [responseText] ;;;
      throw (Error ($"TatraPay returned invalid response: "
                    ++ substring0 200 responseText))
  | Some data =>
      if negb (ok response) then
        console_error "TatraPay API error:"
          [of_Z (http_status response); JSON_restringify P responseText] ;;;
        throw (Error ($"TatraPay API error: " ++ of_Z (http_status response)
                      ++ $" - " ++ JSON_restringify P responseText))
      else ret data
  end.

(** The class [[a-zA-Z0-9 .@_-]] of the card-holder pattern. *)
Definition isCardHolderChar (c : N) : bool :=
  ((97 <=? c) && (c <=? 122) || (65 <=? c) && (c <=? 90)
   || (48 <=? c) && (c <=? 57)
   || (c =? 32) || (c =? 46) || (c =? 64) || (c =? 95) || (c =? 45))%N.

(** [customerFullName] of [createPayment]. *)
Definition customerFullName (request : TatraPayCreatePaymentRequest) : jsstring :=
  match customer request with
  | Some c => substring0 45 (trim (firstName c ++ $" " ++ lastName c))
  | None => $"Customer"
  end.

(** [sanitizedCardHolder] of [createPayment]:
    [customerFullName.replace(/[^a-zA-Z0-9 .@_-]/g, '').substring(0, 45) || 'Customer']. *)
Definition sanitizedCardHolder (request : TatraPayCreatePaymentRequest) : jsstring :=
  or_else (substring0 45 (filter isCardHolderChar (customerFullName request)))
          $"Customer".

(** [apiBody] of [createPayment], once every conditional property has
    been added. *)
Definition apiBody (request : TatraPayCreatePaymentRequest) : ApiBody :=
  {| baseAmount := {| amountValue := amount (req_amount request);
                      ba_currency := currency (req_amount request) |};
     ab_merchantReference := remove_whitespace (merchantReference request);
     ab_language := match language request with Some l => l | None => sk end;
     paymentDescription :=
       match description request with
       | Some d => if truthy d then Some d else None
       | None => None
       end;
     userData :=
       match customer request with
       | Some c =>
           Some {| ud_firstName := firstName c; ud_lastName := lastName c;
                   ud_email := email c;
                   ud_phone := match phone c with
                               | Some p => if truthy p then Some p else None
                               | None => None
                               end |}
       | None => None
       end;
     cardDetail :=
       match paymentMethod request with
       | CARD_PAY => Some {| cardHolder := sanitizedCardHolder request |}
       | _ => None
       end;
     bankTransfer :=
       match paymentMethod request with
       | BANK_TRANSFER => Some tt
       | _ => None
       end |}.

(** [new Date().toISOString()]. *)
Definition new_Date_toISOString : M ISOString :=
  fun w => (Ok (toISOString (clock w)), w).

Definition createPayment (request : TatraPayCreatePaymentRequest)
    : M TatraPayPaymentResponse :=
  console_log "Creating TatraPay payment:"
    [ method_string (paymentMethod request);
      of_Z (amount (req_amount request));
      currency_string (currency (req_amount request));
      merchantReference request ] ;;;
  let baseRedirectUrl := before_first 63 (returnUrl request) in
  response <- apiRequest (JSON_parse_payment P) M_POST $"/v1/payments"
                (Some (apiBody request))
                (Some (customerIpAddress request)) (Some baseRedirectUrl)
                (Some (paymentMethod request)) ;;
  if method_eqb (paymentMethod request) CARD_PAY
     && negb (truthy_opt (tatraPayPlusUrl response))
  then
    let cardMethod :=
      match availablePaymentMethods response with
      | Some ms => find (fun m => JS.eqb (am_paymentMethod m) $"CARD_PAY") ms
      | None => None
      end in
    match cardMethod with
    | Some m =>
        if negb (isAvailable m) then
          throw (Error ($"TatraPay: "
                        ++ opt_or_else (reasonCodeMethodAvailabilityDescription m)
                                       $"Card payment not available"))
        else throw (Error $"TatraPay: No redirect URL returned for card payment")
    | None => throw (Error $"TatraPay: No redirect URL returned for card payment")
    end
  else
    console_log "Payment created:" [pd_paymentId response] ;;;
    createdAt <- new_Date_toISOString ;;
    ret {| paymentId := pd_paymentId response;
           status := $"RCVD";
           redirectUrl := tatraPayPlusUrl response;
           qrCodeData := None;
           bankTransferInfo :=
             match bankTransferData response with
             | Some d =>
                 Some {| iban := btd_iban d;
                         bic := btd_bic d;
                         variableSymbol := btd_variableSymbol d;
                         bti_amount := PrimFloat.div (number_of_Z (amount (req_amount request))) 100%float;
                         bti_currency := currency (req_amount request) |}
             | None => None
             end;
           createdAt := createdAt;
           resp_expiresAt := None |}.

Definition getPaymentStatus (paymentId : jsstring) : M TatraPayStatusResponse :=
  console_log "Fetching TatraPay payment status:" [paymentId] ;;;
  response <- apiRequest (JSON_parse_status P) M_GET
                ($"/v1/payments/" ++ paymentId ++ $"/status")
                None None None None ;;
  console_log "Payment status:" [sd_paymentId response; sd_status response] ;;;
  ret {| sr_paymentId := sd_paymentId response;
         sr_status := sd_status response;
         sr_merchantReference := sd_merchantReference response;
         sr_amount := {| sa_amount := sa_amount (instructedAmount response);
                         sa_currency := sa_currency (instructedAmount response) |};
         sr_paidAmount :=
           match sd_paidAmount response with
           | Some a => Some {| sa_amount := sa_amount a; sa_currency := sa_currency a |}
           | None => None
           end;
         sr_paymentMethod := sd_paymentMethod response;
         sr_createdAt := sd_createdAt response;
         sr_updatedAt := sd_updatedAt response;
         sr_transactionId := sd_transactionId response |}.

End Client.

(* ================================================================== *)
(** ** [URLSearchParams] (WHATWG URL, application/x-www-form-urlencoded) *)
(* ================================================================== *)

Module URLSearchParams.

Definition isHighSurrogate (c : N) : bool := ((55296 <=? c) && (c <=? 56319))%N.
Definition isLowSurrogate (c : N) : bool := ((56320 <=? c) && (c <=? 57343))%N.

(** The scalar values of a string; a lone surrogate becomes U+FFFD. *)
Fixpoint scalars (s : jsstring) : list N :=
  match s with
  | [] => []
  | c :: s' =>
      if isHighSurrogate c then
        match s' with
        | d :: s'' =>
            if isLowSurrogate d
            then (65536 + (c - 55296) * 1024 + (d - 56320))%N :: scalars s''
            else 65533%N :: scalars s'
        | [] => [65533%N]
        end
      else if isLowSurrogate c then 65533%N :: scalars s'
      else c :: scalars s'
  end.

(** UTF-8 bytes of one scalar value. *)
Definition utf8 (c : N) : list N :=
  (if c <? 128 then [c]
   else if c <? 2048 then [192 + c / 64; 128 + c mod 64]
   else if c <? 65536 then
     [224 + c / 4096; 128 + (c / 64) mod 64; 128 + c mod 64]
   else
     [240 + c / 262144; 128 + (c / 4096) mod 64;
      128 + (c / 64) mod 64; 128 + c mod 64])%N.

(** Code unit of an upper-case hexadecimal digit. *)
Definition hexDigit (d : N) : N := (if d <? 10 then 48 + d else 55 + d)%N.

(** Bytes the serializer leaves as they are: ASCII alphanumerics and
    [*], [-], [.], [_]. *)
Definition isUnreserved (b : N) : bool :=
  ((48 <=? b) && (b <=? 57) || (65 <=? b) && (b <=? 90)
   || (97 <=? b) && (b <=? 122)
   || (b =? 42) || (b =? 45) || (b =? 46) || (b =? 95))%N.

Definition encodeByte (b : N) : jsstring :=
  if isUnreserved b then [b]
  else if (b =? 32)%N then [43%N]
  else [37%N; hexDigit (b / 16); hexDigit (b mod 16)].

Definition encode (s : jsstring) : jsstring :=
  flat_map encodeByte (flat_map utf8 (scalars s)).

(** [params.toString()]. *)
Fixpoint toString (params : list (jsstring * jsstring)) : jsstring :=
  match params with
  | [] => []
  | [(k, v)] => encode k ++ [61%N] ++ encode v
  | (k, v) :: rest => encode k ++ [61%N] ++ encode v ++ [38%N] ++ toString rest
  end.

(** [params.get(name)]: the first value under [name], else [null]. *)
Fixpoint get (name : jsstring) (params : list (jsstring * jsstring))
    : option jsstring :=
  match params with
  | [] => None
  | (k, v) :: rest => if JS.eqb k name then Some v else get name rest
  end.

(** [params.set(name, value)]: the first pair under [name] takes the
    value and the later ones go; a new pair is appended otherwise. *)
Fixpoint set (name value : jsstring) (params : list (jsstring * jsstring))
    : list (jsstring * jsstring) :=
  match params with
  | [] => [(name, value)]
  | (k, v) :: rest =>
      if JS.eqb k name
      then (k, value) :: filter (fun kv => negb (JS.eqb (fst kv) name)) rest
      else (k, v) :: set name value rest
  end.

End URLSearchParams.

(* ================================================================== *)
(** ** The callback route (app/api/payment/callback/route.ts) *)
(* ================================================================== *)

(** The request, as far as the handler reads it: the query of
    [request.url]. *)
Record NextRequest : Type := {
  searchParams : list (jsstring * jsstring)
}.

(** [NextResponse.redirect(url)]. *)
Inductive NextResponse : Type := redirect (url : jsstring).

Inductive ResultStatus : Type := r_success | r_failed | r_pending | r_error.

Definition result_string (s : ResultStatus) : jsstring :=
  match s with
  | r_success => $"success"
  | r_failed => $"failed"
  | r_pending => $"pending"
  | r_error => $"error"
  end.

Definition redirectToResult (status : ResultStatus) (message : jsstring)
    (orderId : option jsstring) : M NextResponse :=
  e <- get_env ;;
  let baseUrl := opt_or_else (NEXT_PUBLIC_BASE_URL e) $"http://localhost:3000" in
  let params := [($"message", message)] in
  let params :=
    match orderId with
    | Some o => if truthy o then URLSearchParams.set $"orderId" o params else params
    | None => params
    end in
  let redirectUrl :=
    baseUrl ++ $"/payment/" ++ result_string status ++ $"?"
    ++ URLSearchParams.toString params in
  ret (redirect redirectUrl).

Definition YOUR_STORED_PAYMENT_ID : jsstring := $"YOUR_STORED_PAYMENT_ID".

Section Callback.

Variable P : Platform.

(** The payment id stored for an order. The route leaves this lookup
    to the integrator (the TODO above [const paymentId]); as shipped it
    binds the placeholder, see [shipped_lookup]. [None] is a missing
    id. *)
Variable storedPaymentId : jsstring -> option jsstring.

Definition GET (request : NextRequest) : M NextResponse :=
  try_catch
    (let orderId := URLSearchParams.get $"orderId" (searchParams request) in
     console_log "Payment callback received:"
       (match orderId with Some o => [o] | None => [] end) ;;;
     match orderId with
     | None => redirectToResult r_error $"Missing order ID" None
     | Some orderId =>
         if negb (truthy orderId)
         then redirectToResult r_error $"Missing order ID" None
         else
           match storedPaymentId orderId with
           | None =>
               console_error "No payment ID found for order:" [orderId] ;;;
               redirectToResult r_error $"Payment not found" None
           | Some paymentId =>
               if negb (truthy paymentId) || JS.eqb paymentId YOUR_STORED_PAYMENT_ID
               then
                 console_error "No payment ID found for order:" [orderId] ;;;
                 redirectToResult r_error $"Payment not found" None
               else
                 paymentStatus <- getPaymentStatus P paymentId ;;
                 console_log "TatraPay payment status:"
                   [sr_paymentId paymentStatus; sr_status paymentStatus] ;;;
                 if isPaymentSuccessful (sr_status paymentStatus) then
                   console_log "Payment successful" [] ;;;
                   redirectToResult r_success $"Payment successful" None
                 else if isPaymentFailed (sr_status paymentStatus) then
                   console_log "Payment failed:" [sr_status paymentStatus] ;;;
                   redirectToResult r_failed $"Payment was declined" (Some orderId)
                 else
                   console_log "Payment pending:" [sr_status paymentStatus] ;;;
                   redirectToResult r_pending $"Awaiting payment confirmation" None
           end
     end)
    (fun error =>
       console_error "Payment callback error:" [] ;;;
       redirectToResult r_error $"Error verifying payment" None).

End Callback.

(** The lookup of the route as shipped:
    [const paymentId = 'YOUR_STORED_PAYMENT_ID']. *)
Definition shipped_lookup : jsstring -> option jsstring :=
  fun _ => Some YOUR_STORED_PAYMENT_ID.

(* ================================================================== *)
(** ** The create route (app/api/payment/create/route.ts) *)
(* ================================================================== *)

Module CreateRoute.

(** [body.customer]. The handler tests [email] for presence; the other
    fields are as the interface declares them. *)
Record CustomerBody : Type := {
  cb_email : option jsstring;
  cb_firstName : jsstring;
  cb_lastName : jsstring;
  cb_phone : option jsstring
}.

(** [CreatePaymentRequestBody], as [request.json()] delivers it: a field
    the handler tests for presence may be missing, [paymentMethod] is
    the string that was posted. *)
Record CreatePaymentRequestBody : Type := {
  body_orderId : option jsstring;
  body_paymentMethod : option jsstring;
  body_amount : option Z;
  body_currency : Currency;
  body_customer : option CustomerBody;
  body_description : option jsstring;
  body_language : option Language
}.

(** The request, as far as the handler reads it: the posted document
    ([None] when it is not JSON) and four headers. *)
Record Request : Type := {
  json : option CreatePaymentRequestBody;
  x_forwarded_for : option jsstring;
  x_real_ip : option jsstring;
  host : option jsstring;
  x_forwarded_proto : option jsstring
}.

(** The object handed to [NextResponse.json]; a [None] is a property
    that is absent or [undefined]. *)
Record ResponseBody : Type := {
  success : bool;
  rb_paymentId : option jsstring;
  rb_redirectUrl : option jsstring;
  rb_bankTransfer : option BankTransferInfo;
  rb_error : option jsstring
}.

(** [NextResponse.json(body, { status })]; the status is 200 when none
    is given. *)
Record JsonResponse : Type := {
  json_body : ResponseBody;
  json_status : Z
}.

Definition failure (error : jsstring) (status : Z) : JsonResponse :=
  {| json_body := {| success := false; rb_paymentId := None;
                     rb_redirectUrl := None; rb_bankTransfer := None;
                     rb_error := Some error |};
     json_status := status |}.

(** [request.headers.get('x-forwarded-for')?.split(',')[0]?.trim()
     || request.headers.get('x-real-ip') || '127.0.0.1']. *)
Definition customerIpAddress_of (request : Request) : jsstring :=
  let forwarded :=
    match x_forwarded_for request with
    | Some v => trim (before_first 44 v)
    | None => []
    end in
  if truthy forwarded then forwarded
  else opt_or_else (x_real_ip request) $"127.0.0.1".

(** [`${protocol}://${host}`]. *)
Definition baseUrl_of (request : Request) : jsstring :=
  let host := opt_or_else (host request) $"localhost:3000" in
  let protocol := opt_or_else (x_forwarded_proto request) $"https" in
  protocol ++ $"://" ++ host.

Section Handler.

Variable P : Platform.

(** The [message] of an error the platform raised ([fetch] rejecting,
    [json()] on a body that is not JSON). *)
Variable platform_message : Exn -> jsstring.

(** [error instanceof Error ? error.message : '...']: every exception
    of this world is an [Error]. *)
Definition error_message (e : Exn) : jsstring :=
  match e with
  | Error msg => msg
  | _ => platform_message e
  end.

Definition POST (request : Request) : M JsonResponse :=
  try_catch
    (match json request with
     | None => throw SyntaxError_json
     | Some body =>
         match body_orderId body, body_paymentMethod body, body_amount body,
               body_customer body with
         | Some orderId, Some paymentMethod, Some amount, Some customer =>
             if negb (truthy orderId) || negb (truthy paymentMethod)
                || (amount =? 0) || negb (truthy_opt (cb_email customer))
             then ret (failure $"Missing required fields" 400)
             else if negb (includes [$"CARD_PAY"; $"BANK_TRANSFER"] paymentMethod)
             then ret (failure $"Invalid payment method" 400)
             else
               let method :=
                 if JS.eqb paymentMethod $"CARD_PAY" then CARD_PAY else BANK_TRANSFER in
               let customerIpAddress := customerIpAddress_of request in
               let baseUrl := baseUrl_of request in
               let returnUrl := baseUrl ++ $"/api/payment/callback?orderId=" ++ orderId in
               let notificationUrl := baseUrl ++ $"/api/payment/webhook" in
               console_log "Creating payment:"
                 [orderId; paymentMethod; of_Z amount;
                  currency_string (body_currency body); customerIpAddress] ;;;
               payment <- createPayment P
                 {| paymentMethod := method;
                    req_amount := {| amount := amount;
                                     currency := body_currency body |};
                    merchantReference := orderId;
                    description :=
                      Some (opt_or_else (body_description body) ($"Order " ++ orderId));
                    customer :=
                      Some {| firstName := cb_firstName customer;
                              lastName := cb_lastName customer;
                              email := match cb_email customer with
                                       | Some e => e
                                       | None => []
                                       end;
                              phone := cb_phone customer |};
                    returnUrl := returnUrl;
                    notificationUrl := Some notificationUrl;
                    language := Some (match body_language body with
                                      | Some l => l
                                      | None => sk
                                      end);
                    validityMinutes := None;
                    customerIpAddress := customerIpAddress |} ;;
               console_log "Payment created:" [paymentId payment] ;;;
               if method_eqb method CARD_PAY && truthy_opt (redirectUrl payment) then
                 ret {| json_body :=
                          {| success := true;
                             rb_paymentId := Some (paymentId payment);
                             rb_redirectUrl := redirectUrl payment;
                             rb_bankTransfer := None;
                             rb_error := None |};
                        json_status := 200 |}
               else if method_eqb method BANK_TRANSFER
                       && match bankTransferInfo payment with
                          | Some _ => true
                          | None => false
                          end then
                 ret {| json_body :=
                          {| success := true;
                             rb_paymentId := Some (paymentId payment);
                             rb_redirectUrl := None;
                             rb_bankTransfer := bankTransferInfo payment;
                             rb_error := None |};
                        json_status := 200 |}
               else
                 ret {| json_body :=
                          {| success := true;
                             rb_paymentId := Some (paymentId payment);
                             rb_redirectUrl := redirectUrl payment;
                             rb_bankTransfer := bankTransferInfo payment;
                             rb_error := None |};
                        json_status := 200 |}
         | _, _, _, _ => ret (failure $"Missing required fields" 400)
         end
     end)
    (fun error =>
       console_error "Payment creation error:" [] ;;;
       ret (failure (error_message error) 500)).

End Handler.

End CreateRoute.

(* ================================================================== *)
(** ** The webhook route (app/api/payment/webhook/route.ts) *)
(* ================================================================== *)

Module WebhookRoute.

Record WebhookPayload : Type := {
  wp_paymentId : jsstring;
  wp_status : jsstring;
  wp_merchantReference : jsstring;
  wp_transactionId : option jsstring
}.

(** The three documents the route answers with. *)
Inductive WebhookBody : Type :=
| received_true                    (* { received: true } *)
| error_body (error : jsstring)    (* { error: ... } *)
| status_body (status : jsstring). (* { status: ... } *)

Record WebhookResponse : Type := {
  wh_body : WebhookBody;
  wh_status : Z
}.

Section Handler.

Variable P : Platform.

(** [POST]; the argument is what [request.json()] delivers, [None] when
    the body is not JSON. *)
Definition POST (payload : option WebhookPayload) : M WebhookResponse :=
  try_catch
    (match payload with
     | None => throw SyntaxError_json
     | Some payload =>
         console_log "TatraPay webhook received:"
           [wp_paymentId payload; wp_status payload; wp_merchantReference payload] ;;;
         verifiedStatus <- getPaymentStatus P (wp_paymentId payload) ;;
         console_log "Verified payment status:" [sr_status verifiedStatus] ;;;
         (if isPaymentSuccessful (sr_status verifiedStatus) then
            console_log "Payment completed via webhook" []
          else if isPaymentFailed (sr_status verifiedStatus) then
            console_log "Payment failed via webhook" []
          else ret tt) ;;;
         ret {| wh_body := received_true; wh_status := 200 |}
     end)
    (fun error =>
       console_error "Webhook processing error:" [] ;;;
       ret {| wh_body := error_body $"Webhook processing failed"; wh_status := 500 |}).

End Handler.

Definition GET : M WebhookResponse :=
  ret {| wh_body := status_body $"Webhook endpoint active"; wh_status := 200 |}.

End WebhookRoute.

(* ================================================================== *)
(** ** Observations the statements use *)
(* ================================================================== *)

(** Every [fetch] a computation adds to the history satisfies [Q]
    (and it removes none). *)
Definition sends {A : Type} (Q : FetchRequest -> Prop) (c : M A) : Prop :=
  forall w, exists calls, net (snd (c w)) = net w ++ calls /\ Forall Q calls.

(** The request of the client-credentials exchange: a form body. *)
Definition isTokenCall (rq : FetchRequest) : Prop :=
  exists params, fr_body rq = Some (BodyForm params).

(** [createPayment] up to the reply of its [apiRequest]. *)
Definition createPayment_reply (P : Platform)
    (request : TatraPayCreatePaymentRequest) : M PaymentData :=
  console_log "Creating TatraPay payment:"
    [ method_string (paymentMethod request);
      of_Z (amount (req_amount request));
      currency_string (currency (req_amount request));
      merchantReference request ] ;;;
  apiRequest P (JSON_parse_payment P) M_POST $"/v1/payments"
    (Some (apiBody request))
    (Some (customerIpAddress request))
    (Some (before_first 63 (returnUrl request)))
    (Some (paymentMethod request)).

(** The object [createPayment] returns for the reply [response], when
    [new Date()] reads [now]. *)
Definition returned_response (request : TatraPayCreatePaymentRequest)
    (response : PaymentData) (now : Z) : TatraPayPaymentResponse :=
  {| paymentId := pd_paymentId response;
     status := $"RCVD";
     redirectUrl := tatraPayPlusUrl response;
     qrCodeData := None;
     bankTransferInfo :=
       match bankTransferData response with
       | Some d =>
           Some {| iban := btd_iban d;
                   bic := btd_bic d;
                   variableSymbol := btd_variableSymbol d;
                   bti_amount := PrimFloat.div (number_of_Z (amount (req_amount request))) 100%float;
                   bti_currency := currency (req_amount request) |}
       | None => None
       end;
     createdAt := toISOString now;
     resp_expiresAt := None |}.

(** The test [createPayment] makes on the reply of a card payment. *)
Definition lacks_redirect (request : TatraPayCreatePaymentRequest)
    (response : PaymentData) : bool :=
  method_eqb (paymentMethod request) CARD_PAY
  && negb (truthy_opt (tatraPayPlusUrl response)).

(** The request [apiRequest] hands to [fetch], for the configuration,
    the token and the request id it has obtained. *)
Definition api_fetch_request (config : GatewayConfig) (token requestId : jsstring)
    (method : HttpMethod) (endpoint : jsstring) (body : option ApiBody)
    (customerIpAddress redirectUri : option jsstring)
    (preferredMethod : option TatraPayMethod) : FetchRequest :=
  {| fr_url := baseUrl config ++ endpoint;
     fr_method := method;
     fr_headers :=
       [ ($"Authorization", $"Bearer " ++ token);
         ($"Content-Type", $"application/json");
         ($"X-Request-ID", requestId) ]
       ++ match customerIpAddress with
          | Some ip => if truthy ip then [($"IP-Address", ip)] else []
          | None => []
          end
       ++ match redirectUri with
          | Some u => if truthy u then [($"Redirect-URI", u)] else []
          | None => []
          end
       ++ match preferredMethod with
          | Some m => [($"Preferred-Method", method_string m)]
          | None => []
          end;
     fr_body := match body, method with
                | Some b, M_POST | Some b, M_PUT => Some (BodyJson b)
                | _, _ => None
                end |}.

(** The world once [apiRequest], entered in [w], has its answer: one
    request id drawn, the call recorded, time passed, the console lines
    [lines] written. *)
Definition after_api_call (w : World) (rq : FetchRequest) (elapsed : N)
    (lines : list ConsoleEntry) : World :=
  {| env := env w; cachedToken := cachedToken w;
     clock := clock w + Z.of_N elapsed;
     net := net w ++ [rq];
     console := console w ++ lines;
     uuids := S (uuids w) |}.

(** The value of a header of a request, if it has it. *)
Fixpoint header (name : jsstring) (headers : list (jsstring * jsstring))
    : option jsstring :=
  match headers with
  | [] => None
  | (k, v) :: rest => if JS.eqb k name then Some v else header name rest
  end.

(** The requests of a history that carry a JSON body. *)
Definition json_calls (calls : list FetchRequest) : list FetchRequest :=
  filter (fun rq => match fr_body rq with
                    | Some (BodyJson _) => true
                    | _ => false
                    end) calls.

(** The request the create route hands to [createPayment], for a body
    that passed its two checks. *)
Definition create_route_request (request : CreateRoute.Request)
    (body : CreateRoute.CreatePaymentRequestBody)
    (orderId postedMethod : jsstring) (cents : Z)
    (postedCustomer : CreateRoute.CustomerBody) : TatraPayCreatePaymentRequest :=
  {| paymentMethod :=
       if JS.eqb postedMethod $"CARD_PAY" then CARD_PAY else BANK_TRANSFER;
     req_amount := {| amount := cents;
                      currency := CreateRoute.body_currency body |};
     merchantReference := orderId;
     description :=
       Some (opt_or_else (CreateRoute.body_description body) ($"Order " ++ orderId));
     customer :=
       Some {| firstName := CreateRoute.cb_firstName postedCustomer;
               lastName := CreateRoute.cb_lastName postedCustomer;
               email := match CreateRoute.cb_email postedCustomer with
                        | Some e => e
                        | None => []
                        end;
               phone := CreateRoute.cb_phone postedCustomer |};
     returnUrl := CreateRoute.baseUrl_of request
                  ++ $"/api/payment/callback?orderId=" ++ orderId;
     notificationUrl := Some (CreateRoute.baseUrl_of request ++ $"/api/payment/webhook");
     language := Some (match CreateRoute.body_language body with
                       | Some l => l
                       | None => sk
                       end);
     validityMinutes := None;
     customerIpAddress := CreateRoute.customerIpAddress_of request |}.

(** The answer of the create route to a payment [createPayment]
    returned. *)
Definition create_route_response (method : TatraPayMethod)
    (payment : TatraPayPaymentResponse) : CreateRoute.JsonResponse :=
  {| CreateRoute.json_body :=
       if method_eqb method CARD_PAY && truthy_opt (redirectUrl payment) then
         {| CreateRoute.success := true;
            CreateRoute.rb_paymentId := Some (paymentId payment);
            CreateRoute.rb_redirectUrl := redirectUrl payment;
            CreateRoute.rb_bankTransfer := None;
            CreateRoute.rb_error := None |}
       else if method_eqb method BANK_TRANSFER
               && match bankTransferInfo payment with
                  | Some _ => true
                  | None => false
                  end then
         {| CreateRoute.success := true;
            CreateRoute.rb_paymentId := Some (paymentId payment);
            CreateRoute.rb_redirectUrl := None;
            CreateRoute.rb_bankTransfer := bankTransferInfo payment;
            CreateRoute.rb_error := None |}
       else
         {| CreateRoute.success := true;
            CreateRoute.rb_paymentId := Some (paymentId payment);
            CreateRoute.rb_redirectUrl := redirectUrl payment;
            CreateRoute.rb_bankTransfer := bankTransferInfo payment;
            CreateRoute.rb_error := None |};
     CreateRoute.json_status := 200 |}.

(** A posted body that passes the presence check of the create route,
    with the four values it found. *)
Definition complete_body (body : CreateRoute.CreatePaymentRequestBody)
    (orderId postedMethod : jsstring) (cents : Z)
    (postedCustomer : CreateRoute.CustomerBody) : Prop :=
  CreateRoute.body_orderId body = Some orderId /\ orderId <> []
  /\ CreateRoute.body_paymentMethod body = Some postedMethod /\ postedMethod <> []
  /\ CreateRoute.body_amount body = Some cents /\ cents <> 0
  /\ CreateRoute.body_customer body = Some postedCustomer
  /\ truthy_opt (CreateRoute.cb_email postedCustomer) = true.

(* ================================================================== *)
(** ** Sample deployments, for concrete runs *)
(* ================================================================== *)

Module Sample.

Definition environment : Env :=
  {| TATRAPAY_CLIENT_ID := Some $"client-1";
     TATRAPAY_CLIENT_SECRET := Some $"secret-1";
     TATRAPAY_SANDBOX := None;
     NEXT_PUBLIC_BASE_URL := Some $"https://shop.example" |}.

Definition token : TokenData :=
  {| td_access_token := $"tok-1"; td_token_type := $"Bearer";
     td_expires_in := 3600; td_scope := $"TATRAPAYPLUS" |}.

Definition card_reply : PaymentData :=
  {| pd_paymentId := $"pay-1";
     tatraPayPlusUrl := Some $"https://pay.example/redirect/pay-1";
     bankTransferData := None;
     availablePaymentMethods := None |}.

Definition transfer_reply : PaymentData :=
  {| pd_paymentId := $"pay-2";
     tatraPayPlusUrl := None;
     bankTransferData := Some {| btd_iban := $"SK3112000000198742637541";
                                 btd_bic := $"TATRSKBX";
                                 btd_variableSymbol := $"2024000123" |};
     availablePaymentMethods := None |}.

(** A reply that names the payment and nothing else. *)
Definition bare_reply : PaymentData :=
  {| pd_paymentId := $"pay-3"; tatraPayPlusUrl := None;
     bankTransferData := None; availablePaymentMethods := None |}.

Definition status_reply (code : jsstring) : StatusData :=
  {| sd_paymentId := $"pay-1"; sd_status := code;
     sd_merchantReference := $"ORDER-123";
     instructedAmount := {| sa_amount := 79%Q; sa_currency := $"EUR" |};
     sd_paidAmount := None; sd_paymentMethod := $"CARD_PAY";
     sd_createdAt := $"2024-01-01T10:00:00.000Z";
     sd_updatedAt := $"2024-01-01T10:05:00.000Z";
     sd_transactionId := None |}.

(** A gateway that answers the token exchange with [tokenOutcome],
    a POST with the text [paymentText] and a GET with [statusText].
    The texts stand for JSON documents. *)
Definition platform (tokenOutcome : FetchOutcome)
    (paymentText statusText : jsstring) : Platform :=
  {| network := fun _ _ rq =>
       match fr_body rq, fr_method rq with
       | Some (BodyForm _), _ => tokenOutcome
       | _, M_POST =>
           Responded {| http_status := 201; http_text := paymentText; latency := 250 |}
       | _, _ =>
           Responded {| http_status := 200; http_text := statusText; latency := 80 |}
       end;
     JSON_parse_token := fun s =>
       if JS.eqb s $"token.json" then Some token else None;
     JSON_parse_payment := fun s =>
       if JS.eqb s $"card.json" then Some card_reply
       else if JS.eqb s $"transfer.json" then Some transfer_reply
       else if JS.eqb s $"bare.json" then Some bare_reply
       else None;
     JSON_parse_status := fun s =>
       if JS.eqb s $"rjct.json" then Some (status_reply $"RJCT")
       else if JS.eqb s $"acsc.json" then Some (status_reply $"ACSC")
       else None;
     JSON_restringify := fun s => s;
     randomUUID := fun n => $"uuid-" ++ of_Z (Z.of_nat n) |}.

Definition token_ok : FetchOutcome :=
  Responded {| http_status := 200; http_text := $"token.json"; latency := 120 |}.

Definition token_denied : FetchOutcome :=
  Responded {| http_status := 401; http_text := $"invalid_client"; latency := 90 |}.

(** A process that has just started: no token yet. *)
Definition cold : World :=
  {| env := environment; cachedToken := None; clock := 1700000000000;
     net := []; console := []; uuids := 0 |}.

(** A process holding a token that is good for another hour. *)
Definition warm : World :=
  {| env := environment;
     cachedToken := Some {| access_token := $"tok-0"; token_type := $"Bearer";
                            expires_in := 3600; scope := $"TATRAPAYPLUS";
                            expiresAt := 1700003600000 |};
     clock := 1700000000000; net := []; console := []; uuids := 0 |}.

Definition credentials : TatraPayCredentials :=
  {| clientId := $"client-1"; clientSecret := $"secret-1"; isSandbox := true |}.

(** The reply to a refused creation, read at the type of a payment. *)
Definition error_reply : PaymentData :=
  {| pd_paymentId := []; tatraPayPlusUrl := None;
     bankTransferData := None; availablePaymentMethods := None |}.

(** A reply that accepts the payment but reports card payments as
    unavailable. *)
Definition unavailable_reply : PaymentData :=
  {| pd_paymentId := $"pay-4"; tatraPayPlusUrl := None;
     bankTransferData := None;
     availablePaymentMethods := Some
       [ {| isAvailable := true; am_paymentMethod := $"BANK_TRANSFER";
            reasonCodeMethodAvailability := None;
            reasonCodeMethodAvailabilityDescription := None |};
         {| isAvailable := false; am_paymentMethod := $"CARD_PAY";
            reasonCodeMethodAvailability := Some $"NO_AVAIL_PAY_METH";
            reasonCodeMethodAvailabilityDescription :=
              Some $"cardDetail was not provided" |} ] |}.

(** A token that lives thirty seconds. *)
Definition short_token : TokenData :=
  {| td_access_token := $"tok-30s"; td_token_type := $"Bearer";
     td_expires_in := 30; td_scope := $"TATRAPAYPLUS" |}.

(** A gateway that answers the token exchange with [tokenOutcome] and
    every other call with [apiOutcome]. *)
Definition gateway (tokenOutcome apiOutcome : FetchOutcome) : Platform :=
  {| network := fun _ _ rq =>
       match fr_body rq with
       | Some (BodyForm _) => tokenOutcome
       | _ => apiOutcome
       end;
     JSON_parse_token := fun s =>
       if JS.eqb s $"token.json" then Some token
       else if JS.eqb s $"short-token.json" then Some short_token
       else None;
     JSON_parse_payment := fun s =>
       if JS.eqb s $"card.json" then Some card_reply
       else if JS.eqb s $"transfer.json" then Some transfer_reply
       else if JS.eqb s $"bare.json" then Some bare_reply
       else if JS.eqb s $"unavailable.json" then Some unavailable_reply
       else if JS.eqb s $"error.json" then Some error_reply
       else None;
     JSON_parse_status := fun s =>
       if JS.eqb s $"rjct.json" then Some (status_reply $"RJCT")
       else if JS.eqb s $"acsc.json" then Some (status_reply $"ACSC")
       else if JS.eqb s $"init.json" then Some (status_reply $"INIT")
       else None;
     JSON_restringify := fun s => s;
     randomUUID := fun n => $"uuid-" ++ of_Z (Z.of_nat n) |}.

(** An answer of the gateway with the given status and document. *)
Definition answer (status : Z) (text : jsstring) : FetchOutcome :=
  Responded {| http_status := status; http_text := text; latency := 200 |}.

(** A body posted to the create route, and the request carrying it
    through two proxies. *)
Definition create_body : CreateRoute.CreatePaymentRequestBody :=
  {| CreateRoute.body_orderId := Some $"ORD 7";
     CreateRoute.body_paymentMethod := Some $"CARD_PAY";
     CreateRoute.body_amount := Some 7900;
     CreateRoute.body_currency := EUR;
     CreateRoute.body_customer := Some
       {| CreateRoute.cb_email := Some $"jan@example.com";
          CreateRoute.cb_firstName := $"Jan";
          CreateRoute.cb_lastName := $"Novak";
          CreateRoute.cb_phone := None |};
     CreateRoute.body_description := None;
     CreateRoute.body_language := None |}.

Definition create_request (body : CreateRoute.CreatePaymentRequestBody)
    : CreateRoute.Request :=
  {| CreateRoute.json := Some body;
     CreateRoute.x_forwarded_for := Some $" 203.0.113.9 , 10.0.0.1";
     CreateRoute.x_real_ip := Some $"198.51.100.4";
     CreateRoute.host := Some $"shop.example";
     CreateRoute.x_forwarded_proto := None |}.

(** The same body with an amount of zero, and with a method the client
    knows but the route does not accept. *)
Definition zero_amount_body : CreateRoute.CreatePaymentRequestBody :=
  {| CreateRoute.body_orderId := Some $"ORD 7";
     CreateRoute.body_paymentMethod := Some $"CARD_PAY";
     CreateRoute.body_amount := Some 0;
     CreateRoute.body_currency := EUR;
     CreateRoute.body_customer := CreateRoute.body_customer create_body;
     CreateRoute.body_description := None;
     CreateRoute.body_language := None |}.

Definition qr_body : CreateRoute.CreatePaymentRequestBody :=
  {| CreateRoute.body_orderId := Some $"ORD 7";
     CreateRoute.body_paymentMethod := Some $"QR_PAY";
     CreateRoute.body_amount := Some 7900;
     CreateRoute.body_currency := EUR;
     CreateRoute.body_customer := CreateRoute.body_customer create_body;
     CreateRoute.body_description := None;
     CreateRoute.body_language := None |}.

Definition create_customer : CreateRoute.CustomerBody :=
  {| CreateRoute.cb_email := Some $"jan@example.com";
     CreateRoute.cb_firstName := $"Jan";
     CreateRoute.cb_lastName := $"Novak";
     CreateRoute.cb_phone := None |}.

(** What the platform says when it throws. *)
Definition platform_message (e : Exn) : jsstring :=
  match e with
  | TypeError_fetch => $"fetch failed"
  | SyntaxError_json => $"Unexpected token"
  | Error msg => msg
  end.

(** A notification of the gateway. *)
Definition webhook_payload (status : jsstring) : WebhookRoute.WebhookPayload :=
  {| WebhookRoute.wp_paymentId := $"pay-1";
     WebhookRoute.wp_status := status;
     WebhookRoute.wp_merchantReference := $"ORDER-123";
     WebhookRoute.wp_transactionId := None |}.

(** A process started without the client secret, yet holding a token. *)
Definition unconfigured : World :=
  {| env := {| TATRAPAY_CLIENT_ID := Some $"client-1";
               TATRAPAY_CLIENT_SECRET := None;
               TATRAPAY_SANDBOX := None;
               NEXT_PUBLIC_BASE_URL := None |};
     cachedToken := Some {| access_token := $"tok-0"; token_type := $"Bearer";
                            expires_in := 3600; scope := $"TATRAPAYPLUS";
                            expiresAt := 1700003600000 |};
     clock := 1700000000000; net := []; console := []; uuids := 0 |}.

(** The name "J\u00E1n \u010Cierny!!" in code units. *)
Definition jan_cierny : jsstring :=
  [74; 225; 110; 32; 268; 105; 101; 114; 110; 121; 33; 33]%N.

Definition customer_jan : TatraPayCustomer :=
  {| firstName := [74; 225; 110]%N;
     lastName := [268; 105; 101; 114; 110; 121; 33; 33]%N;
     email := $"jan@example.com"; phone := None |}.

Definition card_request : TatraPayCreatePaymentRequest :=
  {| paymentMethod := CARD_PAY;
     req_amount := {| amount := 7900; currency := EUR |};
     merchantReference := $"ORDER 123 A";
     description := None;
     customer := Some customer_jan;
     returnUrl := $"https://shop.example/api/payment/callback?orderId=123";
     notificationUrl := None; language := None; validityMinutes := None;
     customerIpAddress := $"1.2.3.4" |}.

(** A customer whose full name has 52 code units, the first accented. *)
Definition customer_long : TatraPayCustomer :=
  {| firstName := [193%N];
     lastName := repeat 97%N 50;
     email := $"long@example.com"; phone := None |}.

Definition long_name_request : TatraPayCreatePaymentRequest :=
  {| paymentMethod := CARD_PAY;
     req_amount := {| amount := 7900; currency := EUR |};
     merchantReference := $"ORDER-125";
     description := None;
     customer := Some customer_long;
     returnUrl := $"https://shop.example/api/payment/callback?orderId=125";
     notificationUrl := None; language := None; validityMinutes := None;
     customerIpAddress := $"1.2.3.4" |}.

(** The browser comes back for order 123. *)
Definition callback_request : NextRequest :=
  {| searchParams := [($"orderId", $"123"); ($"paymentId", $"pay-1")] |}.

(** A request whose query has no [orderId]. *)
Definition bare_callback_request : NextRequest :=
  {| searchParams := [($"paymentId", $"pay-1")] |}.

(** An integrator's lookup: every order was paid through [pay-1]. *)
Definition stored_lookup : jsstring -> option jsstring :=
  fun _ => Some $"pay-1".

Definition transfer_request : TatraPayCreatePaymentRequest :=
  {| paymentMethod := BANK_TRANSFER;
     req_amount := {| amount := 10000; currency := EUR |};
     merchantReference := $"ORDER-124";
     description := None;
     customer := Some customer_jan;
     returnUrl := $"https://shop.example/api/payment/callback?orderId=124";
     notificationUrl := None; language := None; validityMinutes := None;
     customerIpAddress := $"1.2.3.4" |}.

End Sample.

(* ================================================================== *)
(** * Properties *)
(* ================================================================== *)

Unset Implicit Arguments.

Module JSFacts.

Lemma eqb_refl (a : jsstring) : JS.eqb a a = true.
Proof.
  induction a as [|x a IH]; simpl; [reflexivity|].
  now rewrite N.eqb_refl, IH.
Qed.

Lemma eqb_eq (a b : jsstring) : JS.eqb a b = true <-> a = b.
Proof.
  split.
  - revert b; induction a as [|x a IH]; intros [|y b]; simpl;
      try discriminate; [reflexivity|].
    intros H. apply andb_true_iff in H as [Hx Hab].
    apply N.eqb_eq in Hx. apply IH in Hab. now subst.
  - intros ->. apply eqb_refl.
Qed.

Lemma eqb_neq (a b : jsstring) : JS.eqb a b = false <-> a <> b.
Proof.
  rewrite <- eqb_eq. destruct (JS.eqb a b); split; congruence.
Qed.

Lemma includes_In (arr : list jsstring) (s : jsstring) :
  includes arr s = true <-> In s arr.
Proof.
  unfold includes. rewrite existsb_exists. split.
  - intros [x [Hin Hx]]. apply eqb_eq in Hx. now subst.
  - intros Hin. exists s. split; [assumption | apply eqb_refl].
Qed.

Lemma includes_not_In (arr : list jsstring) (s : jsstring) :
  includes arr s = false <-> ~ In s arr.
Proof.
  rewrite <- includes_In. destruct (includes arr s); split; congruence.
Qed.

End JSFacts.

(* ------------------------------------------------------------------ *)
(** ** Status classification *)
(* ------------------------------------------------------------------ *)

(** C6. Every status of the success set is successful, is not failed and
    maps to [completed]; every status outside the success set and
    outside {RJCT, CANC}, recognised or not, maps to [pending].
    [mapToInternalStatus] is a total function. *)
Theorem status_classification (s : TatraPayStatus) :
  (In s successCodes ->
     isPaymentSuccessful s = true /\ isPaymentFailed s = false
     /\ mapToInternalStatus s = completed)
  /\ (~ In s successCodes -> ~ In s failedCodes ->
        mapToInternalStatus s = pending).
Proof.
  split.
  - intros Hin.
    assert (Hs : isPaymentSuccessful s = true)
      by (apply JSFacts.includes_In; exact Hin).
    unfold mapToInternalStatus. rewrite Hs.
    repeat split.
    simpl in Hin.
    repeat (destruct Hin as [<- | Hin]; [reflexivity|]).
    contradiction.
  - intros Hns Hnf.
    apply JSFacts.includes_not_In in Hns, Hnf.
    unfold mapToInternalStatus, isPaymentSuccessful, isPaymentFailed.
    now rewrite Hns, Hnf.
Qed.

Lemma status_classification_witness :
  (isPaymentSuccessful $"ACSC" = true /\ isPaymentFailed $"ACSC" = false
   /\ mapToInternalStatus $"ACSC" = completed)
  /\ mapToInternalStatus $"AUTH_DONE" = pending.
Proof.
  split.
  - apply (proj1 (status_classification $"ACSC")).
    apply JSFacts.includes_In. reflexivity.
  - apply (proj2 (status_classification $"AUTH_DONE"));
      apply JSFacts.includes_not_In; reflexivity.
Defined.

(* ------------------------------------------------------------------ *)
(** ** Credentials and configuration *)
(* ------------------------------------------------------------------ *)

Lemma getCredentials_world (w : World) : snd (getCredentials w) = w.
Proof.
  unfold getCredentials, bind, get_env, throw, ret.
  destruct (TATRAPAY_CLIENT_ID (env w)) as [id|]; [|reflexivity].
  destruct (TATRAPAY_CLIENT_SECRET (env w)) as [sec|]; [|reflexivity].
  destruct (negb (truthy id) || negb (truthy sec)); reflexivity.
Qed.

Lemma getCredentials_run (w : World) :
  getCredentials w = (fst (getCredentials w), w).
Proof.
  rewrite <- (getCredentials_world w) at 3.
  apply surjective_pairing.
Qed.

Lemma getConfig_run (w : World) :
  getConfig w =
  (match fst (getCredentials w) with
   | Ok c => Ok (TATRAPAY_CONFIG (isSandbox c))
   | Throw e => Throw e
   end, w).
Proof.
  unfold getConfig, bind. rewrite getCredentials_run.
  destruct (fst (getCredentials w)); reflexivity.
Qed.

(* ------------------------------------------------------------------ *)
(** ** The token cache *)
(* ------------------------------------------------------------------ *)

Section TokenCache.

Variable P : Platform.

(** A run of the exchange: what [requestAccessToken] does once the
    credentials are there, by the outcome of the one [fetch]. *)
Lemma requestAccessToken_run (w : World) (creds : TatraPayCredentials) :
  fst (getCredentials w) = Ok creds ->
  let rq := token_request (TATRAPAY_CONFIG (isSandbox creds)) creds in
  let logged := console w ++
    [{| level := LOG; message := "Requesting TatraPay access token...";
        printed := [] |}] in
  requestAccessToken P w =
  match network P (net w) (clock w) rq with
  | Rejected dt =>
      (Throw TypeError_fetch,
       {| env := env w; cachedToken := cachedToken w;
          clock := clock w + Z.of_N dt; net := net w ++ [rq];
          console := logged; uuids := uuids w |})
  | Responded r =>
      if ok r then
        match JSON_parse_token P (http_text r) with
        | None =>
            (Throw SyntaxError_json,
             {| env := env w; cachedToken := cachedToken w;
                clock := clock w + Z.of_N (latency r); net := net w ++ [rq];
                console := logged; uuids := uuids w |})
        | Some td =>
            (Ok (td_access_token td),
             {| env := env w;
                cachedToken := Some
                  {| access_token := td_access_token td;
                     token_type := td_token_type td;
                     expires_in := td_expires_in td;
                     scope := td_scope td;
                     expiresAt := clock w + Z.of_N (latency r)
                                  + td_expires_in td * 1000 |};
                clock := clock w + Z.of_N (latency r); net := net w ++ [rq];
                console := logged ++
                  [{| level := LOG;
                      message := "TatraPay token obtained, expires in";
                      printed := [of_Z (td_expires_in td); $"seconds"] |}];
                uuids := uuids w |})
        end
      else
        (Throw (Error ($"TatraPay authentication failed: " ++ of_Z (http_status r))),
         {| env := env w; cachedToken := cachedToken w;
            clock := clock w + Z.of_N (latency r); net := net w ++ [rq];
            console := logged ++
              [{| level := ERROR; message := "Token request failed:";
                  printed := [of_Z (http_status r); http_text r] |}];
            uuids := uuids w |})
  end.
Proof.
  intros Hc rq logged.
  unfold requestAccessToken, bind.
  rewrite getCredentials_run, Hc, getConfig_run, Hc.
  unfold console_log, console_write, fetch; cbn [net clock env cachedToken console uuids].
  fold rq. fold logged.
  destruct (network P (net w) (clock w) rq) as [r | dt]; [|reflexivity].
  destruct (ok r); cbn [negb]; [|reflexivity].
  destruct (JSON_parse_token P (http_text r)) as [td|]; reflexivity.
Qed.

(** Without credentials nothing is sent. *)
Lemma requestAccessToken_unconfigured (w : World) (e : Exn) :
  fst (getCredentials w) = Throw e ->
  requestAccessToken P w = (Throw e, w).
Proof.
  intros Hc. unfold requestAccessToken, bind.
  now rewrite getCredentials_run, Hc.
Qed.

Lemma getAccessToken_fresh (w : World) (t : TatraPayToken) :
  cachedToken w = Some t -> clock w < expiresAt t - 60000 ->
  getAccessToken P w = (Ok (access_token t), w).
Proof.
  intros Hc Hlt. unfold getAccessToken, bind, get_cachedToken, Date_now, ret.
  rewrite Hc. apply Z.ltb_lt in Hlt. now rewrite Hlt.
Qed.

Lemma getAccessToken_stale (w : World) :
  (forall t, cachedToken w = Some t -> expiresAt t - 60000 <= clock w) ->
  getAccessToken P w = requestAccessToken P w.
Proof.
  intros Hst. unfold getAccessToken, bind, get_cachedToken, Date_now.
  destruct (cachedToken w) as [t|]; [|reflexivity].
  specialize (Hst t eq_refl). apply Z.ltb_ge in Hst. now rewrite Hst.
Qed.

End TokenCache.

(** C5. A cached token used strictly before its expiry minus 60000 ms is
    returned as it is, and the world (network history included) is left
    untouched. Otherwise, with credentials configured, exactly one
    request goes out, to the token endpoint; when the endpoint answers a
    success status with a JSON token object, the token is stored with
    [expiresAt = now + expires_in * 1000], [now] read after the answer,
    and the new access token is returned; a later call made while the
    slot still holds it and the clock is before that expiry minus
    60000 ms returns it again and sends nothing. *)
Theorem getAccessToken_cache_contract (P : Platform) (w : World) :
  (forall t, cachedToken w = Some t -> clock w < expiresAt t - 60000 ->
     getAccessToken P w = (Ok (access_token t), w))
  /\
  (forall creds,
     (forall t, cachedToken w = Some t -> expiresAt t - 60000 <= clock w) ->
     fst (getCredentials w) = Ok creds ->
     let rq := token_request (TATRAPAY_CONFIG (isSandbox creds)) creds in
     net (snd (getAccessToken P w)) = net w ++ [rq]
     /\ fr_url rq = tokenUrl (TATRAPAY_CONFIG (isSandbox creds)))
  /\
  (forall creds r td,
     (forall t, cachedToken w = Some t -> expiresAt t - 60000 <= clock w) ->
     fst (getCredentials w) = Ok creds ->
     network P (net w) (clock w)
       (token_request (TATRAPAY_CONFIG (isSandbox creds)) creds) = Responded r ->
     ok r = true ->
     JSON_parse_token P (http_text r) = Some td ->
     let w' := snd (getAccessToken P w) in
     fst (getAccessToken P w) = Ok (td_access_token td)
     /\ clock w' = clock w + Z.of_N (latency r)
     /\ cachedToken w' =
        Some {| access_token := td_access_token td;
                token_type := td_token_type td;
                expires_in := td_expires_in td;
                scope := td_scope td;
                expiresAt := clock w' + td_expires_in td * 1000 |}
     /\ (forall w2, cachedToken w2 = cachedToken w' ->
           clock w2 < clock w' + td_expires_in td * 1000 - 60000 ->
           getAccessToken P w2 = (Ok (td_access_token td), w2))).
Proof.
  split; [|split].
  - intros t Hc Hlt. now apply getAccessToken_fresh.
  - intros creds Hst Hcr rq. split; [|reflexivity].
    rewrite (getAccessToken_stale P w Hst).
    rewrite (requestAccessToken_run P w creds Hcr). fold rq.
    destruct (network P (net w) (clock w) rq) as [r | dt]; [|reflexivity].
    destruct (ok r); [|reflexivity].
    destruct (JSON_parse_token P (http_text r)); reflexivity.
  - intros creds r td Hst Hcr Hnet Hok Hparse w'. subst w'.
    rewrite (getAccessToken_stale P w Hst).
    rewrite (requestAccessToken_run P w creds Hcr), Hnet, Hok, Hparse.
    cbn [fst snd net clock cachedToken]. repeat split.
    intros w2 Hslot Hclk.
    apply (getAccessToken_fresh P w2 _ Hslot). exact Hclk.
Qed.

Lemma getAccessToken_cache_contract_witness :
  getAccessToken (Sample.platform Sample.token_ok [] []) Sample.warm
  = (Ok $"tok-0", Sample.warm)
  /\ fst (getAccessToken (Sample.platform Sample.token_ok [] []) Sample.cold)
     = Ok $"tok-1"
  /\ List.length (net (snd (getAccessToken (Sample.platform Sample.token_ok [] [])
                              Sample.cold))) = 1%nat
  /\ option_map expiresAt
       (cachedToken (snd (getAccessToken (Sample.platform Sample.token_ok [] [])
                            Sample.cold)))
     = Some 1700003600120.
Proof.
  pose proof (getAccessToken_cache_contract
                (Sample.platform Sample.token_ok [] []) Sample.warm) as [Hwarm _].
  pose proof (getAccessToken_cache_contract
                (Sample.platform Sample.token_ok [] []) Sample.cold)
    as (_ & Hone & Hcold).
  split.
  - apply (Hwarm _ eq_refl). reflexivity.
  - destruct (Hcold Sample.credentials
                {| http_status := 200; http_text := $"token.json"; latency := 120 |}
                Sample.token) as (Hres & Hclk & Hcache & _).
    + intros t Ht. discriminate Ht.
    + reflexivity.
    + reflexivity.
    + reflexivity.
    + reflexivity.
    + split; [exact Hres|]. split.
      * destruct (Hone Sample.credentials) as [Hnet _].
        -- intros t Ht. discriminate Ht.
        -- reflexivity.
        -- rewrite Hnet. reflexivity.
      * rewrite Hcache, Hclk. reflexivity.
Defined.

(** C7, as the code has it. When the token endpoint answers a
    non-success status, [getAccessToken] throws an [Error] whose message
    is "TatraPay authentication failed: " followed by the status code;
    the body of the answer goes to [console.error] and is not part of
    the error; the cache keeps what it held. *)
Theorem getAccessToken_authentication_failure
    (P : Platform) (w : World) (creds : TatraPayCredentials) (r : HttpResponse) :
  (forall t, cachedToken w = Some t -> expiresAt t - 60000 <= clock w) ->
  fst (getCredentials w) = Ok creds ->
  network P (net w) (clock w)
    (token_request (TATRAPAY_CONFIG (isSandbox creds)) creds) = Responded r ->
  ok r = false ->
  let w' := snd (getAccessToken P w) in
  fst (getAccessToken P w)
  = Throw (Error ($"TatraPay authentication failed: " ++ of_Z (http_status r)))
  /\ In {| level := ERROR; message := "Token request failed:";
           printed := [of_Z (http_status r); http_text r] |} (console w')
  /\ cachedToken w' = cachedToken w.
Proof.
  intros Hst Hcr Hnet Hok w'. subst w'.
  rewrite (getAccessToken_stale P w Hst).
  rewrite (requestAccessToken_run P w creds Hcr), Hnet, Hok.
  cbn [fst snd console cachedToken]. repeat split.
  apply in_or_app. right. left. reflexivity.
Qed.

Lemma getAccessToken_authentication_failure_witness :
  fst (getAccessToken (Sample.platform Sample.token_denied [] []) Sample.cold)
  = Throw (Error $"TatraPay authentication failed: 401").
Proof.
  refine (proj1 (@getAccessToken_authentication_failure
            (Sample.platform Sample.token_denied [] []) Sample.cold
            Sample.credentials
            {| http_status := 401; http_text := $"invalid_client"; latency := 90 |}
            _ _ _ _)).
  - intros t Ht. discriminate Ht.
  - reflexivity.
  - reflexivity.
  - reflexivity.
Defined.

(** Counterexample to C7 as stated: on a 401 answer whose body is
    "invalid_client", the error thrown is "TatraPay authentication
    failed: 401", in which the body does not occur. *)
Lemma auth_error_omits_body :
  fst (getAccessToken (Sample.platform Sample.token_denied [] []) Sample.cold)
  = Throw (Error $"TatraPay authentication failed: 401")
  /\ JS.contains $"invalid_client" $"TatraPay authentication failed: 401" = false.
Proof. split; reflexivity. Qed.

(* ------------------------------------------------------------------ *)
(** ** What a computation sends *)
(* ------------------------------------------------------------------ *)

Section Sends.

Variable Q : FetchRequest -> Prop.

Lemma sends_silent {A} (c : M A) :
  (forall w, net (snd (c w)) = net w) -> sends Q c.
Proof.
  intros H w. exists []. rewrite app_nil_r. split; [apply H | constructor].
Qed.

Lemma sends_ret {A} (a : A) : sends Q (ret a).
Proof. apply sends_silent. reflexivity. Qed.

Lemma sends_throw {A} (e : Exn) : sends Q (@throw A e).
Proof. apply sends_silent. reflexivity. Qed.

Lemma sends_bind {A B} (c : M A) (k : A -> M B) :
  sends Q c -> (forall a, sends Q (k a)) -> sends Q (bind c k).
Proof.
  intros Hc Hk w. unfold bind.
  destruct (Hc w) as (l1 & E1 & F1).
  destruct (c w) as [[a | e] w1]; cbn [snd] in *.
  - destruct (Hk a w1) as (l2 & E2 & F2).
    exists (l1 ++ l2). rewrite E2, E1, app_assoc.
    split; [reflexivity | now apply Forall_app].
  - exists l1. split; assumption.
Qed.

Lemma sends_try_catch {A} (c : M A) (h : Exn -> M A) :
  sends Q c -> (forall e, sends Q (h e)) -> sends Q (try_catch c h).
Proof.
  intros Hc Hh w. unfold try_catch.
  destruct (Hc w) as (l1 & E1 & F1).
  destruct (c w) as [[a | e] w1]; cbn [snd] in *.
  - exists l1. split; assumption.
  - destruct (Hh e w1) as (l2 & E2 & F2).
    exists (l1 ++ l2). rewrite E2, E1, app_assoc.
    split; [reflexivity | now apply Forall_app].
Qed.

Lemma sends_console (l : Level) (m : string) (vs : list jsstring) :
  sends Q (console_write l m vs).
Proof. apply sends_silent. reflexivity. Qed.

Lemma sends_fetch (P : Platform) (rq : FetchRequest) :
  Q rq -> sends Q (fetch P rq).
Proof.
  intros Hq w. exists [rq]. unfold fetch.
  destruct (network P (net w) (clock w) rq); cbn [snd net];
    (split; [reflexivity | now constructor]).
Qed.

Lemma sends_getCredentials : sends Q getCredentials.
Proof. apply sends_silent. intros w. now rewrite getCredentials_world. Qed.

Lemma sends_getConfig : sends Q getConfig.
Proof. apply sends_silent. intros w. now rewrite getConfig_run. Qed.

End Sends.

Lemma sends_weaken {A} (Q Q' : FetchRequest -> Prop) (c : M A) :
  (forall rq, Q rq -> Q' rq) -> sends Q c -> sends Q' c.
Proof.
  intros HQ Hc w. destruct (Hc w) as (l & E & F).
  exists l. split; [exact E|]. eapply Forall_impl; eassumption.
Qed.

(** Structural steps of a [sends] proof; what is left are the
    conditions on the requests handed to [fetch]. *)
Ltac sends_step :=
  first
    [ apply sends_ret
    | apply sends_throw
    | apply sends_console
    | apply sends_getCredentials
    | apply sends_getConfig
    | apply sends_fetch
    | apply sends_silent; reflexivity
    | apply sends_bind; [| intros ?]
    | apply sends_try_catch; [| intros ?]
    | match goal with
      | |- sends _ (if ?b then _ else _) => destruct b
      | |- sends _ (match ?x with _ => _ end) => destruct x
      | |- sends _ (let _ := _ in _) => cbv zeta
      end ].

Section ClientSends.

Variable P : Platform.

Lemma sends_requestAccessToken : sends isTokenCall (requestAccessToken P).
Proof.
  unfold requestAccessToken. repeat sends_step.
  eexists. reflexivity.
Qed.

Lemma sends_getAccessToken : sends isTokenCall (getAccessToken P).
Proof.
  unfold getAccessToken.
  do 2 sends_step. sends_step.
  destruct a as [t|]; [destruct (a0 <? expiresAt t - 60000)|];
    first [apply sends_ret | apply sends_requestAccessToken].
Qed.

(** The requests of [apiRequest]: at most the token exchange, then the
    call itself, with the method, the endpoint and the body given. *)
Lemma sends_apiRequest {T} (parse : jsstring -> option T) (m : HttpMethod)
    (ep : jsstring) (body : option ApiBody) (ip ru : option jsstring)
    (pm : option TatraPayMethod) :
  sends (fun rq => isTokenCall rq
                   \/ (fr_method rq = m
                       /\ (exists base, fr_url rq = base ++ ep)
                       /\ forall b, fr_body rq = Some (BodyJson b) -> body = Some b))
        (apiRequest P parse m ep body ip ru pm).
Proof.
  unfold apiRequest.
  apply sends_bind.
  { eapply sends_weaken; [| apply sends_getAccessToken]. intros rq H. now left. }
  intros token.
  apply sends_bind; [apply sends_getConfig|]. intros config.
  apply sends_bind; [apply sends_silent; reflexivity|]. intros requestId.
  apply sends_bind; [apply sends_console|]. intros _.
  apply sends_bind.
  - apply sends_fetch. right. cbn [fr_method fr_url fr_body].
    split; [reflexivity|]. split; [eexists; reflexivity|].
    intros b Hb. destruct body as [b'|]; [|discriminate].
    destruct m; try discriminate; now inversion Hb.
  - intros response.
    destruct (parse (http_text response)); [destruct (negb (ok response))|];
      repeat sends_step.
Qed.

(** A reply of [apiRequest] comes from a request that was sent. *)
Lemma apiRequest_Ok_sent {T} (parse : jsstring -> option T) (m : HttpMethod)
    (ep : jsstring) (body : option ApiBody) (ip ru : option jsstring)
    (pm : option TatraPayMethod) (w w' : World) (d : T) :
  apiRequest P parse m ep body ip ru pm w = (Ok d, w') ->
  exists rq token config,
    In rq (net w')
    /\ fr_method rq = m
    /\ fr_url rq = baseUrl config ++ ep
    /\ In ($"Authorization", $"Bearer " ++ token) (fr_headers rq)
    /\ fr_body rq = match body, m with
                    | Some b, M_POST | Some b, M_PUT => Some (BodyJson b)
                    | _, _ => None
                    end.
Proof.
  unfold apiRequest, bind.
  destruct (getAccessToken P w) as [[token | e] w1]; [|discriminate].
  rewrite getConfig_run.
  destruct (fst (getCredentials w1)) as [creds | e]; [|discriminate].
  unfold generateRequestId, console_log, console_write, fetch;
    cbn [net clock env cachedToken console uuids].
  match goal with
  | |- context [network P (net w1) (clock w1) ?r] =>
      set (rq := r); destruct (network P (net w1) (clock w1) rq) as [resp | dt]
  end; [|discriminate].
  destruct (parse (http_text resp)) as [data|]; [|discriminate].
  destruct (negb (ok resp)); [discriminate|].
  unfold ret. intros H. inversion H; subst; clear H.
  exists rq, token, (TATRAPAY_CONFIG (isSandbox creds)).
  cbn [net]. split; [apply in_or_app; right; left; reflexivity|].
  subst rq; cbn [fr_method fr_url fr_headers fr_body].
  repeat split. left. reflexivity.
Qed.

End ClientSends.

(* ------------------------------------------------------------------ *)
(** ** [createPayment] by the reply of the gateway *)
(* ------------------------------------------------------------------ *)

Section CreatePayment.

Variable P : Platform.

(** A failed [apiRequest] is the failure of [createPayment]. *)
Lemma createPayment_reply_Throw (r : TatraPayCreatePaymentRequest)
    (w w1 : World) (e : Exn) :
  createPayment_reply P r w = (Throw e, w1) ->
  createPayment P r w = (Throw e, w1).
Proof.
  unfold createPayment, createPayment_reply, bind, console_log, console_write.
  match goal with
  | |- context [apiRequest P ?a ?b ?c ?d ?e ?f ?g ?h] =>
      destruct (apiRequest P a b c d e f g h) as [[x | e'] w2]
  end; intros H; inversion H; subst; reflexivity.
Qed.

(** A reply without the redirect URL of a card payment is an error. *)
Lemma createPayment_lacks_redirect (r : TatraPayCreatePaymentRequest)
    (w w1 : World) (d : PaymentData) :
  createPayment_reply P r w = (Ok d, w1) ->
  lacks_redirect r d = true ->
  exists msg, createPayment P r w = (Throw (Error msg), w1)
              /\ JS.startsWith $"TatraPay: " msg = true.
Proof.
  unfold createPayment, createPayment_reply, lacks_redirect, bind,
    console_log, console_write.
  match goal with
  | |- context [apiRequest P ?a ?b ?c ?d ?e ?f ?g ?h] =>
      destruct (apiRequest P a b c d e f g h) as [[x | e'] w2]
  end; intros H; inversion H; subst. intros ->.
  destruct (availablePaymentMethods d) as [ms|]; [|eexists; split; reflexivity].
  destruct (find _ ms) as [m|]; [|eexists; split; reflexivity].
  destruct (negb (isAvailable m)); eexists; split; reflexivity.
Qed.

(** Any other reply is returned as a success. *)
Lemma createPayment_accepted (r : TatraPayCreatePaymentRequest)
    (w w1 : World) (d : PaymentData) :
  createPayment_reply P r w = (Ok d, w1) ->
  lacks_redirect r d = false ->
  exists w', createPayment P r w = (Ok (returned_response r d (clock w')), w')
             /\ clock w' = clock w1 /\ net w' = net w1
             /\ cachedToken w' = cachedToken w1.
Proof.
  unfold createPayment, createPayment_reply, lacks_redirect, bind,
    console_log, console_write.
  match goal with
  | |- context [apiRequest P ?a ?b ?c ?d ?e ?f ?g ?h] =>
      destruct (apiRequest P a b c d e f g h) as [[x | e'] w2]
  end; intros H; inversion H; subst. intros ->.
  unfold new_Date_toISOString, ret.
  eexists. split; [reflexivity|]. repeat split.
Qed.

(** What a successful [createPayment] returned, and from which reply. *)
Lemma createPayment_Ok_inv (r : TatraPayCreatePaymentRequest)
    (w w' : World) (resp : TatraPayPaymentResponse) :
  createPayment P r w = (Ok resp, w') ->
  exists d w1,
    createPayment_reply P r w = (Ok d, w1)
    /\ lacks_redirect r d = false
    /\ resp = returned_response r d (clock w')
    /\ clock w' = clock w1 /\ net w' = net w1.
Proof.
  intros H.
  destruct (createPayment_reply P r w) as [[d | e] w1] eqn:E.
  - destruct (lacks_redirect r d) eqn:L.
    + destruct (createPayment_lacks_redirect r w w1 d E L) as [msg [Hm _]].
      rewrite Hm in H. discriminate.
    + destruct (createPayment_accepted r w w1 d E L) as (w2 & H2 & Hc & Hn & _).
      rewrite H2 in H. inversion H; subst.
      exists d, w1. repeat split; assumption.
  - rewrite (createPayment_reply_Throw r w w1 e E) in H. discriminate.
Qed.

Lemma sends_createPayment (r : TatraPayCreatePaymentRequest) :
  sends (fun rq => forall b, fr_body rq = Some (BodyJson b) -> b = apiBody r)
        (createPayment P r).
Proof.
  unfold createPayment.
  apply sends_bind; [apply sends_console|]. intros _.
  apply sends_bind.
  - eapply sends_weaken; [| apply sends_apiRequest].
    intros rq [[ps Hps] | (_ & _ & Hb)] b Hrq.
    + rewrite Hps in Hrq. discriminate.
    + specialize (Hb b Hrq). now inversion Hb.
  - intros response.
    destruct (method_eqb (paymentMethod r) CARD_PAY
              && negb (truthy_opt (tatraPayPlusUrl response))).
    + destruct (availablePaymentMethods response) as [ms|]; [|apply sends_throw].
      destruct (find _ ms) as [m|]; [|apply sends_throw].
      destruct (negb (isAvailable m)); apply sends_throw.
    + repeat sends_step.
Qed.

(** A successful [createPayment] has sent its body to [/v1/payments]. *)
Lemma createPayment_Ok_sent (r : TatraPayCreatePaymentRequest)
    (w w' : World) (resp : TatraPayPaymentResponse) :
  createPayment P r w = (Ok resp, w') ->
  exists rq config,
    In rq (net w') /\ fr_method rq = M_POST
    /\ fr_url rq = baseUrl config ++ $"/v1/payments"
    /\ fr_body rq = Some (BodyJson (apiBody r)).
Proof.
  intros H. destruct (createPayment_Ok_inv r w w' resp H) as (d & w1 & E & _ & _ & _ & Hn).
  unfold createPayment_reply, bind, console_log, console_write in E.
  apply apiRequest_Ok_sent in E.
  destruct E as (rq & token & config & Hin & Hm & Hu & _ & Hb).
  exists rq, config. rewrite Hn. repeat split; assumption.
Qed.

End CreatePayment.

(* ------------------------------------------------------------------ *)
(** ** The response of [createPayment] *)
(* ------------------------------------------------------------------ *)

(** C1, as the code has it. A successful [createPayment] for CARD_PAY
    carries a non-empty redirect URL, and a gateway reply without one
    makes [createPayment] throw. For BANK_TRANSFER no such test is made:
    the gateway reply is returned as a success, with transfer
    instructions exactly when the reply contained [bankTransferData]. *)
Theorem createPayment_method_payload (P : Platform)
    (r : TatraPayCreatePaymentRequest) (w : World) :
  (forall resp w',
     createPayment P r w = (Ok resp, w') -> paymentMethod r = CARD_PAY ->
     exists u, redirectUrl resp = Some u /\ u <> [])
  /\ (forall d w1,
        createPayment_reply P r w = (Ok d, w1) -> paymentMethod r = CARD_PAY ->
        truthy_opt (tatraPayPlusUrl d) = false ->
        exists msg, createPayment P r w = (Throw (Error msg), w1)
                    /\ JS.startsWith $"TatraPay: " msg = true)
  /\ (forall d w1,
        createPayment_reply P r w = (Ok d, w1) ->
        paymentMethod r = BANK_TRANSFER ->
        exists resp w',
          createPayment P r w = (Ok resp, w')
          /\ (bankTransferInfo resp = None <-> bankTransferData d = None)).
Proof.
  repeat split.
  - intros resp w' H Hm.
    destruct (createPayment_Ok_inv P r w w' resp H) as (d & w1 & _ & L & -> & _).
    unfold lacks_redirect in L. rewrite Hm in L. cbn in L.
    apply negb_false_iff in L. cbn [returned_response redirectUrl].
    destruct (tatraPayPlusUrl d) as [u|]; [|discriminate].
    exists u. split; [reflexivity|]. intros ->. discriminate.
  - intros d w1 E Hm Hu.
    apply (createPayment_lacks_redirect P r w w1 d E).
    unfold lacks_redirect. now rewrite Hm, Hu.
  - intros d w1 E Hm.
    destruct (createPayment_accepted P r w w1 d E) as (w' & H & _).
    { unfold lacks_redirect. now rewrite Hm. }
    exists (returned_response r d (clock w')), w'. split; [exact H|].
    cbn [returned_response bankTransferInfo].
    destruct (bankTransferData d); split; intros; congruence.
Qed.

Lemma createPayment_method_payload_witness :
  (exists u,
     redirectUrl (returned_response Sample.card_request Sample.card_reply
                    1700000000370) = Some u /\ u <> [])
  /\ (exists msg,
        fst (createPayment (Sample.platform Sample.token_ok $"bare.json" [])
               Sample.card_request Sample.cold) = Throw (Error msg))
  /\ exists resp w',
       createPayment (Sample.platform Sample.token_ok $"transfer.json" [])
         Sample.transfer_request Sample.cold = (Ok resp, w')
       /\ (bankTransferInfo resp = None
           <-> bankTransferData Sample.transfer_reply = None).
Proof.
  split.
  - pose proof (createPayment_method_payload
                  (Sample.platform Sample.token_ok $"card.json" [])
                  Sample.card_request Sample.cold) as (H & _ & _).
    refine (H _ (snd (createPayment
                        (Sample.platform Sample.token_ok $"card.json" [])
                        Sample.card_request Sample.cold)) _ _);
      vm_compute; reflexivity.
  - split.
    { pose proof (createPayment_method_payload
                    (Sample.platform Sample.token_ok $"bare.json" [])
                    Sample.card_request Sample.cold) as (_ & H & _).
      destruct (H Sample.bare_reply
                  (snd (createPayment_reply
                          (Sample.platform Sample.token_ok $"bare.json" [])
                          Sample.card_request Sample.cold)))
        as (msg & Hmsg & _); [vm_compute; reflexivity | reflexivity
                             | reflexivity |].
      exists msg. rewrite Hmsg. reflexivity. }
    pose proof (createPayment_method_payload
                  (Sample.platform Sample.token_ok $"transfer.json" [])
                  Sample.transfer_request Sample.cold) as (_ & _ & H).
    refine (H Sample.transfer_reply
              (snd (createPayment_reply
                      (Sample.platform Sample.token_ok $"transfer.json" [])
                      Sample.transfer_request Sample.cold)) _ _);
      vm_compute; reflexivity.
Defined.

(** Counterexample to C1 as stated: a BANK_TRANSFER payment whose
    gateway reply has no [bankTransferData] is returned as a success
    without transfer instructions. *)
Lemma bank_transfer_without_instructions :
  paymentMethod Sample.transfer_request = BANK_TRANSFER
  /\ exists resp,
       fst (createPayment (Sample.platform Sample.token_ok $"bare.json" [])
              Sample.transfer_request Sample.cold) = Ok resp
       /\ bankTransferInfo resp = None.
Proof.
  split; [reflexivity|].
  eexists. split; vm_compute; reflexivity.
Qed.

(** C2, as the code has it. The amount of [bankTransferInfo] is not
    read from the gateway reply and is not in minor units: it is the
    amount of the request, given in cents (an integer a number holds
    without loss), divided by 100 in binary64 arithmetic, with the
    currency of the request; the account details beside it are those of
    the reply. *)
Theorem bankTransferInfo_amount (P : Platform)
    (r : TatraPayCreatePaymentRequest) (w w' : World)
    (resp : TatraPayPaymentResponse) (b : BankTransferInfo) :
  - 2 ^ 53 <= amount (req_amount r) <= 2 ^ 53 ->
  createPayment P r w = (Ok resp, w') ->
  bankTransferInfo resp = Some b ->
  bti_amount b = PrimFloat.div (number_of_Z (amount (req_amount r))) 100%float
  /\ bti_currency b = currency (req_amount r)
  /\ exists data w1 d,
       createPayment_reply P r w = (Ok data, w1)
       /\ bankTransferData data = Some d
       /\ iban b = btd_iban d /\ bic b = btd_bic d
       /\ variableSymbol b = btd_variableSymbol d.
Proof.
  intros _ H Hb.
  destruct (createPayment_Ok_inv P r w w' resp H) as (data & w1 & E & _ & -> & _).
  cbn [returned_response bankTransferInfo] in Hb.
  destruct (bankTransferData data) as [d|] eqn:Ed; [|discriminate].
  inversion Hb; subst; clear Hb. cbn [bti_amount bti_currency iban bic variableSymbol].
  split; [reflexivity|]. split; [reflexivity|].
  exists data, w1, d. repeat split; assumption.
Qed.

Lemma bankTransferInfo_amount_witness :
  exists b,
    bankTransferInfo (returned_response Sample.transfer_request
                        Sample.transfer_reply 1700000000370) = Some b
    /\ bti_amount b = 100%float
    /\ bti_currency b = EUR.
Proof.
  eexists. split; [reflexivity|].
  destruct (bankTransferInfo_amount
              (Sample.platform Sample.token_ok $"transfer.json" [])
              Sample.transfer_request Sample.cold
              (snd (createPayment
                      (Sample.platform Sample.token_ok $"transfer.json" [])
                      Sample.transfer_request Sample.cold))
              (returned_response Sample.transfer_request
                 Sample.transfer_reply 1700000000370)
              _ ltac:(cbn; lia) ltac:(vm_compute; reflexivity) ltac:(reflexivity))
    as (Ha & Hc & _).
  split; [rewrite Ha; reflexivity | rewrite Hc; reflexivity].
Defined.

(** Counterexample to C2 as stated: for a request of 10000 cents the
    reported bank-transfer amount is the number 100, not the minor-unit
    value 10000. *)
Lemma bank_transfer_amount_not_minor_units :
  amount (req_amount Sample.transfer_request) = 10000
  /\ exists resp b,
       fst (createPayment (Sample.platform Sample.token_ok $"transfer.json" [])
              Sample.transfer_request Sample.cold) = Ok resp
       /\ bankTransferInfo resp = Some b
       /\ bti_amount b = 100%float
       /\ PrimFloat.eqb (bti_amount b) (number_of_Z 10000) = false
       /\ bti_amount b <> number_of_Z 10000.
Proof.
  split; [reflexivity|].
  eexists. eexists. split; [vm_compute; reflexivity|].
  split; [reflexivity|]. split; [reflexivity|]. split; [reflexivity|].
  intros H. apply (f_equal Prim2SF) in H. vm_compute in H. discriminate H.
Qed.

(** The quotient is the binary64 one: 7 cents give a number that times
    100 is not 7, and is told apart from it by [===]. *)
Remark transfer_amount_is_binary64 :
  PrimFloat.eqb
    (PrimFloat.mul (PrimFloat.div (number_of_Z 7) 100%float) 100%float)
    (number_of_Z 7) = false.
Proof. reflexivity. Qed.

(** C10. A successful [createPayment] returns the constant status
    ['RCVD'] and a [createdAt] rendered from the clock as it stands at
    the return, whatever the gateway replied. *)
Theorem createPayment_status_createdAt (P : Platform)
    (r : TatraPayCreatePaymentRequest) (w w' : World)
    (resp : TatraPayPaymentResponse) :
  createPayment P r w = (Ok resp, w') ->
  status resp = $"RCVD" /\ createdAt resp = toISOString (clock w').
Proof.
  intros H.
  destruct (createPayment_Ok_inv P r w w' resp H) as (d & w1 & _ & _ & -> & _).
  split; reflexivity.
Qed.

Lemma createPayment_status_createdAt_witness :
  status (returned_response Sample.card_request Sample.card_reply 1700000000370)
  = $"RCVD"
  /\ createdAt (returned_response Sample.card_request Sample.card_reply
                  1700000000370)
     = toISOString 1700000000370.
Proof.
  pose proof (@createPayment_status_createdAt
                (Sample.platform Sample.token_ok $"card.json" [])
                Sample.card_request Sample.cold
                (snd (createPayment
                        (Sample.platform Sample.token_ok $"card.json" [])
                        Sample.card_request Sample.cold))
                (returned_response Sample.card_request Sample.card_reply
                   1700000000370)
                ltac:(vm_compute; reflexivity)) as [Hs Hc].
  split; [exact Hs|]. rewrite Hc. vm_compute. reflexivity.
Defined.

(* ------------------------------------------------------------------ *)
(** ** Request shaping *)
(* ------------------------------------------------------------------ *)

Lemma filter_length_bound {A} (p : A -> bool) (l : list A) (n : nat) :
  (List.length l <= n)%nat -> (List.length (filter p l) <= n)%nat.
Proof.
  revert n. induction l as [|x l IH]; intros n H; cbn in *; [lia|].
  destruct n as [|n]; [lia|].
  destruct (p x); cbn; [apply le_n_S | apply Nat.le_le_succ_r];
    apply IH; lia.
Qed.

Lemma customerFullName_length (r : TatraPayCreatePaymentRequest) :
  (List.length (customerFullName r) <= 45)%nat.
Proof.
  unfold customerFullName, substring0.
  destruct (customer r) as [c|].
  - apply firstn_le_length.
  - cbn. lia.
Qed.

Lemma or_else_Forall (p : N -> Prop) (a b : jsstring) :
  Forall p a -> Forall p b -> Forall p (or_else a b).
Proof. intros Ha Hb. unfold or_else. now destruct (truthy a). Qed.

Lemma Forall_filter_true {A} (p : A -> bool) (l : list A) :
  Forall (fun x => p x = true) (filter p l).
Proof.
  apply Forall_forall. intros x Hx. now apply filter_In in Hx.
Qed.

(** C4. For a CARD_PAY payment every JSON body [createPayment] sends
    has [cardDetail.cardHolder] equal to [sanitizedCardHolder], and a
    successful call has sent such a body. That name is the customer's
    "first last", trimmed of outer whitespace, cut to 45 code units and
    then stripped of every unit outside [[A-Za-z0-9 .@_-]]; it is the
    literal "Customer" when nothing is left or no customer is given. It
    has at most 45 units, all of the allowed class. For the full name
    J-a-acute-n C-caron-ierny!! it is "Jn ierny". *)
Theorem cardHolder_transmitted (P : Platform)
    (r : TatraPayCreatePaymentRequest) (w : World) :
  paymentMethod r = CARD_PAY ->
  (exists calls,
      net (snd (createPayment P r w)) = net w ++ calls
      /\ Forall (fun rq => forall b, fr_body rq = Some (BodyJson b) ->
                   cardDetail b = Some {| cardHolder := sanitizedCardHolder r |})
                calls)
  /\ (forall resp w', createPayment P r w = (Ok resp, w') ->
        exists rq b, In rq (net w') /\ fr_body rq = Some (BodyJson b)
                     /\ cardDetail b = Some {| cardHolder := sanitizedCardHolder r |})
  /\ sanitizedCardHolder r =
       match customer r with
       | Some c =>
           let kept := filter isCardHolderChar
                         (substring0 45 (trim (firstName c ++ $" " ++ lastName c))) in
           if truthy kept then kept else $"Customer"
       | None => $"Customer"
       end
  /\ Forall (fun c => isCardHolderChar c = true) (sanitizedCardHolder r)
  /\ (List.length (sanitizedCardHolder r) <= 45)%nat
  /\ (forall c, customer r = Some c ->
        firstName c ++ $" " ++ lastName c = Sample.jan_cierny ->
        sanitizedCardHolder r = $"Jn ierny").
Proof.
  intros Hm.
  assert (Hbody : cardDetail (apiBody r)
                  = Some {| cardHolder := sanitizedCardHolder r |})
    by (unfold apiBody; cbn [cardDetail]; now rewrite Hm).
  assert (Hcut : substring0 45 (filter isCardHolderChar (customerFullName r))
                 = filter isCardHolderChar (customerFullName r)).
  { unfold substring0 at 1. apply firstn_all2.
    apply filter_length_bound, customerFullName_length. }
  split; [|split; [|split; [|split; [|split]]]].
  - destruct (sends_createPayment P r w) as (calls & E & F).
    exists calls. split; [exact E|].
    eapply Forall_impl; [|exact F]. cbv beta.
    intros rq Hrq b Hb. rewrite (Hrq b Hb). exact Hbody.
  - intros resp w' H.
    destruct (createPayment_Ok_sent P r w w' resp H) as (rq & cfg & Hin & _ & _ & Hb).
    exists rq, (apiBody r). repeat split; assumption.
  - unfold sanitizedCardHolder. rewrite Hcut.
    unfold customerFullName, or_else.
    destruct (customer r) as [c|]; reflexivity.
  - unfold sanitizedCardHolder. rewrite Hcut.
    apply or_else_Forall; [apply Forall_filter_true|].
    repeat constructor.
  - unfold sanitizedCardHolder, or_else.
    destruct (truthy _); [apply firstn_le_length | cbn; lia].
  - intros c Hc Hname.
    unfold sanitizedCardHolder, customerFullName. rewrite Hc, Hname.
    reflexivity.
Qed.

Lemma cardHolder_transmitted_witness :
  sanitizedCardHolder Sample.card_request = $"Jn ierny"
  /\ exists rq b,
       In rq (net (snd (createPayment
                          (Sample.platform Sample.token_ok $"card.json" [])
                          Sample.card_request Sample.cold)))
       /\ fr_body rq = Some (BodyJson b)
       /\ cardDetail b
          = Some {| cardHolder := sanitizedCardHolder Sample.card_request |}.
Proof.
  pose proof (cardHolder_transmitted
                (Sample.platform Sample.token_ok $"card.json" [])
                Sample.card_request Sample.cold eq_refl)
    as (_ & Hsent & _ & _ & _ & Hjan).
  split.
  - apply (Hjan Sample.customer_jan); reflexivity.
  - apply (Hsent (returned_response Sample.card_request Sample.card_reply
                    1700000000370)
                 (snd (createPayment
                         (Sample.platform Sample.token_ok $"card.json" [])
                         Sample.card_request Sample.cold))).
    vm_compute. reflexivity.
Defined.

(** The cut to 45 units comes before the filter: a 52-unit name whose
    first unit is dropped by the filter leaves 44 units, the first of
    them the space that followed it. *)
Remark cardHolder_cut_before_filter :
  sanitizedCardHolder Sample.long_name_request = 32%N :: repeat 97%N 43.
Proof. reflexivity. Qed.

(** C8. Every JSON body [createPayment] sends has the caller's
    [merchantReference] with all whitespace removed, and a successful
    call has sent such a body; no whitespace is left in it; "ORDER 123 A"
    goes out as "ORDER123A". *)
Theorem merchantReference_transmitted (P : Platform)
    (r : TatraPayCreatePaymentRequest) (w : World) :
  (exists calls,
      net (snd (createPayment P r w)) = net w ++ calls
      /\ Forall (fun rq => forall b, fr_body rq = Some (BodyJson b) ->
                   ab_merchantReference b = remove_whitespace (merchantReference r))
                calls)
  /\ (forall resp w', createPayment P r w = (Ok resp, w') ->
        exists rq b, In rq (net w') /\ fr_method rq = M_POST
                     /\ fr_body rq = Some (BodyJson b)
                     /\ ab_merchantReference b
                        = remove_whitespace (merchantReference r))
  /\ Forall (fun c => isWhiteSpace c = false)
            (remove_whitespace (merchantReference r))
  /\ (merchantReference r = $"ORDER 123 A" ->
      remove_whitespace (merchantReference r) = $"ORDER123A").
Proof.
  split; [|split; [|split]].
  - destruct (sends_createPayment P r w) as (calls & E & F).
    exists calls. split; [exact E|].
    eapply Forall_impl; [|exact F]. cbv beta.
    intros rq Hrq b Hb. now rewrite (Hrq b Hb).
  - intros resp w' H.
    destruct (createPayment_Ok_sent P r w w' resp H)
      as (rq & cfg & Hin & Hmeth & _ & Hb).
    exists rq, (apiBody r). repeat split; assumption.
  - unfold remove_whitespace. apply Forall_forall. intros c Hc.
    apply filter_In in Hc. now apply negb_true_iff.
  - intros ->. reflexivity.
Qed.

Lemma merchantReference_transmitted_witness :
  remove_whitespace (merchantReference Sample.card_request) = $"ORDER123A"
  /\ exists rq b,
       In rq (net (snd (createPayment
                          (Sample.platform Sample.token_ok $"card.json" [])
                          Sample.card_request Sample.cold)))
       /\ fr_method rq = M_POST
       /\ fr_body rq = Some (BodyJson b)
       /\ ab_merchantReference b = $"ORDER123A".
Proof.
  pose proof (merchantReference_transmitted
                (Sample.platform Sample.token_ok $"card.json" [])
                Sample.card_request Sample.cold)
    as (_ & Hsent & _ & Hex).
  split; [apply Hex; reflexivity|].
  destruct (Hsent (returned_response Sample.card_request Sample.card_reply
                     1700000000370)
                  (snd (createPayment
                          (Sample.platform Sample.token_ok $"card.json" [])
                          Sample.card_request Sample.cold)))
    as (rq & b & Hin & Hm & Hb & Href).
  - vm_compute. reflexivity.
  - exists rq, b. rewrite Href. repeat split; assumption.
Defined.

(* ------------------------------------------------------------------ *)
(** ** The callback route *)
(* ------------------------------------------------------------------ *)

(** [process.env] stays as it is through every computation of the
    client. *)
Lemma env_bind {A B} (c : M A) (k : A -> M B) :
  (forall w, env (snd (c w)) = env w) ->
  (forall a w, env (snd (k a w)) = env w) ->
  forall w, env (snd (bind c k w)) = env w.
Proof.
  intros Hc Hk w. unfold bind. specialize (Hc w).
  destruct (c w) as [[a | e] w1]; cbn [snd] in *; [|exact Hc].
  now rewrite Hk.
Qed.

Lemma env_requestAccessToken (P : Platform) (w : World) :
  env (snd (requestAccessToken P w)) = env w.
Proof.
  revert w. unfold requestAccessToken.
  apply env_bind; [intros w; now rewrite getCredentials_world|]. intros creds.
  apply env_bind; [intros w; now rewrite getConfig_run|]. intros config.
  apply env_bind; [reflexivity|]. intros _.
  apply env_bind.
  - intros w. unfold fetch. now destruct (network P _ _ _).
  - intros response w.
    destruct (negb (ok response)); [reflexivity|].
    destruct (JSON_parse_token P (http_text response)); reflexivity.
Qed.

Lemma env_getAccessToken (P : Platform) (w : World) :
  env (snd (getAccessToken P w)) = env w.
Proof.
  unfold getAccessToken, bind, get_cachedToken, Date_now.
  destruct (cachedToken w) as [t|]; [destruct (clock w <? expiresAt t - 60000)|];
    first [reflexivity | apply env_requestAccessToken].
Qed.

Lemma env_apiRequest (P : Platform) {T} (parse : jsstring -> option T)
    (m : HttpMethod) (ep : jsstring) (body : option ApiBody)
    (ip ru : option jsstring) (pm : option TatraPayMethod) (w : World) :
  env (snd (apiRequest P parse m ep body ip ru pm w)) = env w.
Proof.
  revert w. unfold apiRequest.
  apply env_bind; [apply env_getAccessToken|]. intros token.
  apply env_bind; [intros w; now rewrite getConfig_run|]. intros config.
  apply env_bind; [reflexivity|]. intros requestId.
  apply env_bind; [reflexivity|]. intros _.
  apply env_bind.
  - intros w. unfold fetch. now destruct (network P _ _ _).
  - intros response w.
    destruct (parse (http_text response)); [|reflexivity].
    destruct (negb (ok response)); reflexivity.
Qed.

Lemma env_getPaymentStatus (P : Platform) (paymentId : jsstring) (w : World) :
  env (snd (getPaymentStatus P paymentId w)) = env w.
Proof.
  revert w. unfold getPaymentStatus.
  apply env_bind; [reflexivity|]. intros _.
  apply env_bind; [apply env_apiRequest|]. intros response.
  apply env_bind; [reflexivity|]. intros _. reflexivity.
Qed.

Lemma redirectToResult_run (s : ResultStatus) (message : jsstring)
    (orderId : option jsstring) (w : World) :
  redirectToResult s message orderId w =
  (Ok (redirect
         (opt_or_else (NEXT_PUBLIC_BASE_URL (env w)) $"http://localhost:3000"
          ++ $"/payment/" ++ result_string s ++ $"?"
          ++ URLSearchParams.toString
               (match orderId with
                | Some o =>
                    if truthy o
                    then URLSearchParams.set $"orderId" o [($"message", message)]
                    else [($"message", message)]
                | None => [($"message", message)]
                end))), w).
Proof. reflexivity. Qed.

(** C9. A callback request whose query has no [orderId] (or an empty
    one) is answered with a redirect to the error page, message "Missing
    order ID"; nothing is fetched, the token slot is left as it was and
    no request id is drawn. *)
Theorem callback_missing_orderId (P : Platform)
    (storedPaymentId : jsstring -> option jsstring)
    (request : NextRequest) (w : World) :
  truthy_opt (URLSearchParams.get $"orderId" (searchParams request)) = false ->
  let w' := snd (GET P storedPaymentId request w) in
  fst (GET P storedPaymentId request w)
  = Ok (redirect
          (opt_or_else (NEXT_PUBLIC_BASE_URL (env w)) $"http://localhost:3000"
           ++ $"/payment/error?message=Missing+order+ID"))
  /\ net w' = net w
  /\ cachedToken w' = cachedToken w
  /\ uuids w' = uuids w.
Proof.
  intros Hno w'. subst w'.
  unfold GET, try_catch, bind, console_log, console_write.
  destruct (URLSearchParams.get $"orderId" (searchParams request)) as [o|].
  - cbn [truthy_opt] in Hno. rewrite Hno. cbn [negb].
    rewrite redirectToResult_run. cbn [fst snd net cachedToken uuids env].
    repeat split.
  - rewrite redirectToResult_run. cbn [fst snd net cachedToken uuids env].
    repeat split.
Qed.

Lemma callback_missing_orderId_witness :
  fst (GET (Sample.platform Sample.token_ok [] $"rjct.json")
         Sample.stored_lookup Sample.bare_callback_request Sample.cold)
  = Ok (redirect $"https://shop.example/payment/error?message=Missing+order+ID")
  /\ net (snd (GET (Sample.platform Sample.token_ok [] $"rjct.json")
                 Sample.stored_lookup Sample.bare_callback_request Sample.cold))
     = [].
Proof.
  pose proof (callback_missing_orderId
                (Sample.platform Sample.token_ok [] $"rjct.json")
                Sample.stored_lookup Sample.bare_callback_request Sample.cold
                eq_refl) as (Hres & Hnet & _).
  split; [exact Hres | exact Hnet].
Defined.

(** C3, as the code has it. As shipped the handler binds the
    placeholder where the stored payment id belongs, and its guard on
    the placeholder answers before any status is fetched. Invoked with
    an order id, whatever status the gateway holds for the payment
    (RJCT included), it answers with a redirect to the error page,
    message "Payment not found"; it sends nothing, leaves the token
    slot as it was, and its answer is not a redirect to the failed
    page. *)
Theorem callback_rjct_as_shipped (P : Platform) (request : NextRequest)
    (w : World) (orderId : jsstring) :
  URLSearchParams.get $"orderId" (searchParams request) = Some orderId ->
  orderId <> [] ->
  let base := opt_or_else (NEXT_PUBLIC_BASE_URL (env w)) $"http://localhost:3000" in
  fst (GET P shipped_lookup request w)
  = Ok (redirect (base ++ $"/payment/error?message=Payment+not+found"))
  /\ net (snd (GET P shipped_lookup request w)) = net w
  /\ cachedToken (snd (GET P shipped_lookup request w)) = cachedToken w
  /\ (forall query,
        fst (GET P shipped_lookup request w)
        <> Ok (redirect (base ++ $"/payment/failed?" ++ query))).
Proof.
  intros Hget Ho base.
  assert (Hres : fst (GET P shipped_lookup request w)
                 = Ok (redirect (base ++ $"/payment/error?message=Payment+not+found"))).
  { unfold GET, try_catch, bind, shipped_lookup, console_log, console_write.
    rewrite Hget. destruct orderId as [|c o]; [congruence|]. reflexivity. }
  split; [exact Hres|]. split; [|split].
  - unfold GET, try_catch, bind, shipped_lookup, console_log, console_write.
    rewrite Hget. destruct orderId as [|c o]; [congruence|]. reflexivity.
  - unfold GET, try_catch, bind, shipped_lookup, console_log, console_write.
    rewrite Hget. destruct orderId as [|c o]; [congruence|]. reflexivity.
  - intros query Hq. rewrite Hres in Hq.
    inversion Hq as [Hurl]. apply app_inv_head in Hurl.
    cbv in Hurl. discriminate Hurl.
Qed.

Lemma callback_rjct_as_shipped_witness :
  fst (GET (Sample.platform Sample.token_ok [] $"rjct.json")
         shipped_lookup Sample.callback_request Sample.cold)
  = Ok (redirect $"https://shop.example/payment/error?message=Payment+not+found")
  /\ net (snd (GET (Sample.platform Sample.token_ok [] $"rjct.json")
                 shipped_lookup Sample.callback_request Sample.cold)) = [].
Proof.
  destruct (callback_rjct_as_shipped
              (Sample.platform Sample.token_ok [] $"rjct.json")
              Sample.callback_request Sample.cold $"123" eq_refl)
    as (Hres & Hnet & _).
  - intros E. discriminate E.
  - split; [exact Hres | exact Hnet].
Defined.

(** Counterexample to C3 as stated: the gateway resolves the status of
    the payment to RJCT when asked, yet the handler, invoked with order
    id 123, redirects to the error page and not to the failed page with
    the order id. *)
Lemma callback_rjct_not_failed_page :
  (exists st,
     fst (getPaymentStatus (Sample.platform Sample.token_ok [] $"rjct.json")
            YOUR_STORED_PAYMENT_ID Sample.cold) = Ok st
     /\ sr_status st = $"RJCT")
  /\ fst (GET (Sample.platform Sample.token_ok [] $"rjct.json")
            shipped_lookup Sample.callback_request Sample.cold)
     = Ok (redirect $"https://shop.example/payment/error?message=Payment+not+found")
  /\ fst (GET (Sample.platform Sample.token_ok [] $"rjct.json")
            shipped_lookup Sample.callback_request Sample.cold)
     <> Ok (redirect
              $"https://shop.example/payment/failed?message=Payment+was+declined&orderId=123").
Proof.
  split; [eexists; split; vm_compute; reflexivity|].
  split; [reflexivity|].
  intros H. vm_compute in H. discriminate H.
Qed.

(** The route as shipped binds the placeholder for the stored payment
    id, so with an order id present it stops at "Payment not found"
    before any status is fetched. *)
Remark callback_shipped_lookup (P : Platform) (request : NextRequest)
    (w : World) (orderId : jsstring) :
  URLSearchParams.get $"orderId" (searchParams request) = Some orderId ->
  orderId <> [] ->
  fst (GET P shipped_lookup request w)
  = Ok (redirect
          (opt_or_else (NEXT_PUBLIC_BASE_URL (env w)) $"http://localhost:3000"
           ++ $"/payment/error?message=Payment+not+found"))
  /\ net (snd (GET P shipped_lookup request w)) = net w.
Proof.
  intros Hget Ho.
  unfold GET, try_catch, bind, shipped_lookup, console_log, console_write.
  rewrite Hget. destruct orderId as [|c o]; [congruence|].
  cbn [truthy negb]. split; reflexivity.
Qed.

(* ================================================================== *)
(** * Further properties of the client and the routes *)
(* ================================================================== *)

(* ------------------------------------------------------------------ *)
(** ** Runs of [getAccessToken] and [apiRequest] *)
(* ------------------------------------------------------------------ *)

(** The credentials are a function of [process.env]. *)
Lemma getCredentials_env (w1 w : World) :
  env w1 = env w -> fst (getCredentials w1) = fst (getCredentials w).
Proof.
  intros E. unfold getCredentials, bind, get_env. rewrite E.
  destruct (TATRAPAY_CLIENT_ID (env w)) as [id|]; [|reflexivity].
  destruct (TATRAPAY_CLIENT_SECRET (env w)) as [sec|]; [|reflexivity].
  destruct (negb (truthy id) || negb (truthy sec)); reflexivity.
Qed.

Lemma getCredentials_missing (w : World) :
  truthy_opt (TATRAPAY_CLIENT_ID (env w)) = false
  \/ truthy_opt (TATRAPAY_CLIENT_SECRET (env w)) = false ->
  fst (getCredentials w) = Throw (Error credentials_error).
Proof.
  unfold getCredentials, bind, get_env, truthy_opt. cbn [fst].
  destruct (TATRAPAY_CLIENT_ID (env w)) as [id|]; [|reflexivity].
  destruct (TATRAPAY_CLIENT_SECRET (env w)) as [sec|]; [|reflexivity].
  intros [H | H]; rewrite H; cbn; [reflexivity|].
  now rewrite orb_true_r.
Qed.

Section Runs.

Variable P : Platform.

(** [getAccessToken] either answers from the slot, or is the exchange. *)
Lemma getAccessToken_cases (w : World) :
  (exists t, cachedToken w = Some t /\ clock w < expiresAt t - 60000
             /\ getAccessToken P w = (Ok (access_token t), w))
  \/ ((forall t, cachedToken w = Some t -> expiresAt t - 60000 <= clock w)
      /\ getAccessToken P w = requestAccessToken P w).
Proof.
  destruct (cachedToken w) as [t|] eqn:E.
  - destruct (Z.ltb_spec (clock w) (expiresAt t - 60000)) as [Hlt | Hge].
    + left. exists t. repeat split; [exact Hlt|].
      now apply getAccessToken_fresh.
    + right. assert (Hst : forall t', cachedToken w = Some t' ->
                                      expiresAt t' - 60000 <= clock w).
      { intros t' Ht'. rewrite E in Ht'. now inversion Ht'; subst. }
      rewrite E in Hst. split; [exact Hst|].
      apply getAccessToken_stale. now rewrite E.
  - right. split; [intros t Ht; discriminate Ht|].
    apply getAccessToken_stale. intros t Ht. rewrite E in Ht. discriminate Ht.
Qed.

(** [apiRequest] once the token is there: by the credentials and by the
    outcome of its one [fetch]. *)
Lemma apiRequest_run {T} (parse : jsstring -> option T) (m : HttpMethod)
    (ep : jsstring) (body : option ApiBody) (ip ru : option jsstring)
    (pm : option TatraPayMethod) (w w1 : World) (token : jsstring) :
  getAccessToken P w = (Ok token, w1) ->
  apiRequest P parse m ep body ip ru pm w =
  match fst (getCredentials w1) with
  | Throw e => (Throw e, w1)
  | Ok creds =>
      let rq := api_fetch_request (TATRAPAY_CONFIG (isSandbox creds)) token
                  (randomUUID P (uuids w1)) m ep body ip ru pm in
      let sent := {| level := LOG; message := "TatraPay";
                     printed := [http_method_string m; ep] |} in
      match network P (net w1) (clock w1) rq with
      | Rejected dt => (Throw TypeError_fetch, after_api_call w1 rq dt [sent])
      | Responded r =>
          match parse (http_text r) with
          | None =>
              (Throw (Error ($"TatraPay returned invalid response: "
                             ++ substring0 200 (http_text r))),
               after_api_call w1 rq (latency r)
                 [sent; {| level := ERROR; message := "Invalid JSON response:";
                           printed := [http_text r] |}])
          | Some data =>
              if ok r then (Ok data, after_api_call w1 rq (latency r) [sent])
              else
                (Throw (Error ($"TatraPay API error: " ++ of_Z (http_status r)
                               ++ $" - " ++ JSON_restringify P (http_text r))),
                 after_api_call w1 rq (latency r)
                   [sent; {| level := ERROR; message := "TatraPay API error:";
                             printed := [of_Z (http_status r);
                                         JSON_restringify P (http_text r)] |}])
          end
      end
  end.
Proof.
  intros Htok. unfold apiRequest, bind. rewrite Htok, getConfig_run.
  destruct (fst (getCredentials w1)) as [creds | e]; [|reflexivity].
  unfold generateRequestId, console_log, console_write, fetch, after_api_call;
    cbn [net clock env cachedToken console uuids].
  fold (api_fetch_request (TATRAPAY_CONFIG (isSandbox creds)) token
          (randomUUID P (uuids w1)) m ep body ip ru pm).
  destruct (network P (net w1) (clock w1) _) as [r | dt]; [|reflexivity].
  destruct (parse (http_text r)) as [data|].
  - destruct (ok r); cbn [negb]; [reflexivity|].
    unfold throw. cbn. rewrite <- app_assoc. reflexivity.
  - unfold throw. cbn. rewrite <- app_assoc. reflexivity.
Qed.

Lemma apiRequest_no_token {T} (parse : jsstring -> option T) (m : HttpMethod)
    (ep : jsstring) (body : option ApiBody) (ip ru : option jsstring)
    (pm : option TatraPayMethod) (w w1 : World) (e : Exn) :
  getAccessToken P w = (Throw e, w1) ->
  apiRequest P parse m ep body ip ru pm w = (Throw e, w1).
Proof. intros H. unfold apiRequest, bind. now rewrite H. Qed.

End Runs.

(* ------------------------------------------------------------------ *)
(** ** The token slot *)
(* ------------------------------------------------------------------ *)

(** X1. A call of [getAccessToken] that throws (credentials missing,
    [fetch] rejected, a non-success answer, a body that is not JSON)
    leaves the token slot exactly as it found it. *)
Theorem getAccessToken_failure_keeps_slot (P : Platform) (w : World) (e : Exn) :
  fst (getAccessToken P w) = Throw e ->
  cachedToken (snd (getAccessToken P w)) = cachedToken w.
Proof.
  intros H.
  destruct (getAccessToken_cases P w) as [(t & _ & _ & E) | (Hst & E)].
  - now rewrite E.
  - rewrite E in *.
    destruct (fst (getCredentials w)) as [creds | e'] eqn:Hc.
    + rewrite (requestAccessToken_run P w creds Hc) in *.
      destruct (network P (net w) (clock w) _) as [r | dt]; [|reflexivity].
      destruct (ok r); [|reflexivity].
      destruct (JSON_parse_token P (http_text r)); [discriminate H | reflexivity].
    + now rewrite (requestAccessToken_unconfigured P w e' Hc).
Qed.

Lemma getAccessToken_failure_keeps_slot_witness :
  cachedToken (snd (getAccessToken (Sample.platform Sample.token_denied [] [])
                      Sample.cold)) = None.
Proof.
  apply (getAccessToken_failure_keeps_slot
           (Sample.platform Sample.token_denied [] []) Sample.cold
           (Error $"TatraPay authentication failed: 401")).
  reflexivity.
Defined.

(** X2. The token [getAccessToken] returns is the [access_token] of the
    token the slot holds when it returns. *)
Theorem getAccessToken_returns_slot (P : Platform) (w : World) (token : jsstring) :
  fst (getAccessToken P w) = Ok token ->
  exists t, cachedToken (snd (getAccessToken P w)) = Some t
            /\ access_token t = token.
Proof.
  intros H.
  destruct (getAccessToken_cases P w) as [(t & Hc & _ & E) | (Hst & E)].
  - rewrite E in *. cbn [fst snd] in *. exists t. split; [exact Hc|].
    now inversion H.
  - rewrite E in *.
    destruct (fst (getCredentials w)) as [creds | e'] eqn:Hc.
    + rewrite (requestAccessToken_run P w creds Hc) in *.
      destruct (network P (net w) (clock w) _) as [r | dt]; [|discriminate H].
      destruct (ok r); [|discriminate H].
      destruct (JSON_parse_token P (http_text r)) as [td|]; [|discriminate H].
      cbn [fst snd cachedToken] in *. eexists. split; [reflexivity|].
      cbn [access_token]. now inversion H.
    + rewrite (requestAccessToken_unconfigured P w e' Hc) in H. discriminate H.
Qed.

Lemma getAccessToken_returns_slot_witness :
  exists t,
    cachedToken (snd (getAccessToken (Sample.platform Sample.token_ok [] [])
                        Sample.cold)) = Some t
    /\ access_token t = $"tok-1".
Proof.
  apply (getAccessToken_returns_slot
           (Sample.platform Sample.token_ok [] []) Sample.cold $"tok-1").
  reflexivity.
Defined.

Lemma apiRequest_unconfigured (P : Platform) (w : World) :
  truthy_opt (TATRAPAY_CLIENT_ID (env w)) = false
  \/ truthy_opt (TATRAPAY_CLIENT_SECRET (env w)) = false ->
  forall T (parse : jsstring -> option T) m ep body ip ru pm,
    apiRequest P parse m ep body ip ru pm w
    = (Throw (Error credentials_error), w).
Proof.
  intros Hmiss T parse m ep body ip ru pm.
  assert (Hc : fst (getCredentials w) = Throw (Error credentials_error))
    by now apply getCredentials_missing.
  destruct (getAccessToken_cases P w) as [(t & _ & _ & E) | (_ & E)].
  - rewrite (apiRequest_run P parse m ep body ip ru pm w w _ E), Hc.
    reflexivity.
  - apply apiRequest_no_token. rewrite E.
    now apply requestAccessToken_unconfigured.
Qed.

(** X3. While the client id or the client secret is missing or empty,
    every [apiRequest] throws the configuration error and leaves the
    world as it was: nothing is sent, whether or not the slot still
    holds a usable token; so do [createPayment] (after its console
    line) and [getPaymentStatus]. *)
Theorem unconfigured_client_sends_nothing (P : Platform) (w : World) :
  truthy_opt (TATRAPAY_CLIENT_ID (env w)) = false
  \/ truthy_opt (TATRAPAY_CLIENT_SECRET (env w)) = false ->
  (forall T (parse : jsstring -> option T) m ep body ip ru pm,
     apiRequest P parse m ep body ip ru pm w
     = (Throw (Error credentials_error), w))
  /\ (forall r, fst (createPayment P r w) = Throw (Error credentials_error)
                /\ net (snd (createPayment P r w)) = net w)
  /\ (forall id, fst (getPaymentStatus P id w) = Throw (Error credentials_error)
                 /\ net (snd (getPaymentStatus P id w)) = net w).
Proof.
  intros Hmiss.
  split; [intros; now apply apiRequest_unconfigured|]. split.
  - intros r. unfold createPayment, bind, console_log, console_write.
    rewrite apiRequest_unconfigured by exact Hmiss. split; reflexivity.
  - intros id. unfold getPaymentStatus, bind, console_log, console_write.
    rewrite apiRequest_unconfigured by exact Hmiss. split; reflexivity.
Qed.

Lemma unconfigured_client_sends_nothing_witness :
  fst (getPaymentStatus (Sample.platform Sample.token_ok [] $"acsc.json")
         $"pay-1" Sample.unconfigured) = Throw (Error credentials_error)
  /\ net (snd (getPaymentStatus (Sample.platform Sample.token_ok [] $"acsc.json")
                 $"pay-1" Sample.unconfigured)) = [].
Proof.
  pose proof (unconfigured_client_sends_nothing
                (Sample.platform Sample.token_ok [] $"acsc.json")
                Sample.unconfigured (or_intror eq_refl)) as (_ & _ & H).
  exact (H $"pay-1").
Defined.

(* ------------------------------------------------------------------ *)
(** ** What [apiRequest] sends and how it fails *)
(* ------------------------------------------------------------------ *)

Lemma getAccessToken_net (P : Platform) (w : World) (creds : TatraPayCredentials) :
  fst (getCredentials w) = Ok creds ->
  exists toks,
    net (snd (getAccessToken P w)) = net w ++ toks
    /\ (toks = [] \/ toks = [token_request (TATRAPAY_CONFIG (isSandbox creds)) creds]).
Proof.
  intros Hc.
  destruct (getAccessToken_cases P w) as [(t & _ & _ & E) | (_ & E)]; rewrite E.
  - exists []. rewrite app_nil_r. split; [reflexivity | now left].
  - exists [token_request (TATRAPAY_CONFIG (isSandbox creds)) creds].
    split; [|now right].
    rewrite (requestAccessToken_run P w creds Hc).
    destruct (network P (net w) (clock w) _) as [r | dt]; [|reflexivity].
    destruct (ok r); [|reflexivity].
    destruct (JSON_parse_token P (http_text r)); reflexivity.
Qed.

Lemma isSandbox_env (w : World) (creds : TatraPayCredentials) :
  fst (getCredentials w) = Ok creds ->
  (isSandbox creds = false <-> TATRAPAY_SANDBOX (env w) = Some $"false").
Proof.
  unfold getCredentials, bind, get_env. cbn [fst].
  destruct (TATRAPAY_CLIENT_ID (env w)) as [id|]; [|discriminate].
  destruct (TATRAPAY_CLIENT_SECRET (env w)) as [sec|]; [|discriminate].
  destruct (negb (truthy id) || negb (truthy sec)); [discriminate|].
  unfold ret. cbn [fst]. intros H. inversion H; subst; clear H. cbn [isSandbox].
  destruct (TATRAPAY_SANDBOX (env w)) as [v|].
  - rewrite negb_false_iff, JSFacts.eqb_eq. split; congruence.
  - split; discriminate.
Qed.

(** The requests of [apiRequest] when credentials are configured. *)
Lemma apiRequest_calls (P : Platform) {T} (parse : jsstring -> option T)
    (m : HttpMethod) (ep : jsstring) (body : option ApiBody)
    (ip ru : option jsstring) (pm : option TatraPayMethod)
    (w : World) (creds : TatraPayCredentials) :
  fst (getCredentials w) = Ok creds ->
  let cfg := TATRAPAY_CONFIG (isSandbox creds) in
  (exists toks apis,
     net (snd (apiRequest P parse m ep body ip ru pm w)) = net w ++ toks ++ apis
     /\ (toks = [] \/ toks = [token_request cfg creds])
     /\ (apis = [] \/ exists token id,
                        apis = [api_fetch_request cfg token id m ep body ip ru pm]))
  /\ (isSandbox creds = false <-> TATRAPAY_SANDBOX (env w) = Some $"false")
  /\ cfg = TATRAPAY_CONFIG
             (match TATRAPAY_SANDBOX (env w) with
              | Some v => negb (JS.eqb v $"false")
              | None => true
              end).
Proof.
  intros Hc cfg. split; [|split; [now apply isSandbox_env|]].
  - destruct (getAccessToken_net P w creds Hc) as (toks & Hn & Htoks).
    exists toks.
    destruct (getAccessToken P w) as [[token | e] w1] eqn:E; cbn [snd] in Hn.
    + assert (Hc1 : fst (getCredentials w1) = Ok creds).
      { rewrite <- Hc. apply getCredentials_env.
        change w1 with (snd (Ok token, w1)). rewrite <- E.
        apply env_getAccessToken. }
      rewrite (apiRequest_run P parse m ep body ip ru pm w w1 token E), Hc1.
      cbv zeta.
      exists [api_fetch_request cfg token (randomUUID P (uuids w1)) m ep body ip ru pm].
      split; [|split; [exact Htoks | right; eauto]].
      fold cfg. rewrite app_assoc, <- Hn.
      destruct (network P (net w1) (clock w1) _) as [r | dt]; [|reflexivity].
      destruct (parse (http_text r)); [destruct (ok r)|]; reflexivity.
    + rewrite (apiRequest_no_token P parse m ep body ip ru pm w w1 e E).
      exists []. rewrite app_nil_r. cbn [snd]. repeat split; auto.
  - subst cfg. f_equal.
    unfold getCredentials, bind, get_env in Hc. cbn [fst] in Hc.
    destruct (TATRAPAY_CLIENT_ID (env w)) as [id|]; [|discriminate].
    destruct (TATRAPAY_CLIENT_SECRET (env w)) as [sec|]; [|discriminate].
    destruct (negb (truthy id) || negb (truthy sec)); [discriminate|].
    unfold ret in Hc. cbn [fst] in Hc. now inversion Hc.
Qed.

(** X4. With credentials configured, [apiRequest] extends the history by
    at most the token exchange followed by at most one call of its own,
    built from the arguments; nothing is sent twice. Both go to the
    production gateway exactly when TATRAPAY_SANDBOX is the string
    "false", and to the sandbox otherwise. *)
Theorem apiRequest_trace (P : Platform) {T} (parse : jsstring -> option T)
    (m : HttpMethod) (ep : jsstring) (body : option ApiBody)
    (ip ru : option jsstring) (pm : option TatraPayMethod)
    (w : World) (creds : TatraPayCredentials) :
  fst (getCredentials w) = Ok creds ->
  let cfg := TATRAPAY_CONFIG (isSandbox creds) in
  (exists toks apis,
     net (snd (apiRequest P parse m ep body ip ru pm w)) = net w ++ toks ++ apis
     /\ (toks = [] \/ toks = [token_request cfg creds])
     /\ (apis = [] \/ exists token id,
                        apis = [api_fetch_request cfg token id m ep body ip ru pm]))
  /\ (isSandbox creds = false <-> TATRAPAY_SANDBOX (env w) = Some $"false")
  /\ cfg = TATRAPAY_CONFIG
             (match TATRAPAY_SANDBOX (env w) with
              | Some v => negb (JS.eqb v $"false")
              | None => true
              end).
Proof. exact (apiRequest_calls P parse m ep body ip ru pm w creds). Qed.

Lemma apiRequest_trace_witness :
  exists toks apis,
    net (snd (apiRequest (Sample.platform Sample.token_ok [] $"acsc.json")
                (JSON_parse_status (Sample.platform Sample.token_ok [] $"acsc.json"))
                M_GET $"/v1/payments/pay-1/status" None None None None
                Sample.cold))
    = net Sample.cold ++ toks ++ apis
    /\ (List.length toks <= 1)%nat /\ (List.length apis <= 1)%nat.
Proof.
  destruct (apiRequest_trace (Sample.platform Sample.token_ok [] $"acsc.json")
              (JSON_parse_status (Sample.platform Sample.token_ok [] $"acsc.json"))
              M_GET $"/v1/payments/pay-1/status" None None None None
              Sample.cold Sample.credentials eq_refl)
    as ((toks & apis & Hn & Ht & Ha) & _).
  exists toks, apis. split; [exact Hn|]. split.
  - destruct Ht as [-> | ->]; cbn; lia.
  - destruct Ha as [-> | (token & id & ->)]; cbn; lia.
Defined.

(** X5. A reply whose body is not JSON makes [apiRequest] throw, whatever
    the HTTP status, success included; the message quotes at most the
    first 200 code units of the body. *)
Theorem apiRequest_invalid_body (P : Platform) {T} (parse : jsstring -> option T)
    (m : HttpMethod) (ep : jsstring) (body : option ApiBody)
    (ip ru : option jsstring) (pm : option TatraPayMethod)
    (w w1 : World) (token : jsstring) (creds : TatraPayCredentials)
    (r : HttpResponse) :
  getAccessToken P w = (Ok token, w1) ->
  fst (getCredentials w1) = Ok creds ->
  network P (net w1) (clock w1)
    (api_fetch_request (TATRAPAY_CONFIG (isSandbox creds)) token
       (randomUUID P (uuids w1)) m ep body ip ru pm) = Responded r ->
  parse (http_text r) = None ->
  exists msg,
    fst (apiRequest P parse m ep body ip ru pm w) = Throw (Error msg)
    /\ msg = $"TatraPay returned invalid response: " ++ firstn 200 (http_text r)
    /\ (List.length msg <= 236)%nat.
Proof.
  intros Htok Hc Hnet Hparse.
  rewrite (apiRequest_run P parse m ep body ip ru pm w w1 token Htok), Hc.
  cbv zeta. rewrite Hnet, Hparse. cbn [fst].
  eexists. split; [reflexivity|]. split; [reflexivity|].
  rewrite length_app. pose proof (firstn_le_length 200 (http_text r)).
  change (List.length $"TatraPay returned invalid response: ") with 36%nat.
  unfold substring0. lia.
Qed.

Lemma apiRequest_invalid_body_witness :
  exists msg,
    fst (apiRequest (Sample.platform Sample.token_ok $"<html>Bad Gateway</html>" [])
           (JSON_parse_payment
              (Sample.platform Sample.token_ok $"<html>Bad Gateway</html>" []))
           M_POST $"/v1/payments" (Some (apiBody Sample.card_request))
           None None None Sample.cold) = Throw (Error msg)
    /\ msg = $"TatraPay returned invalid response: <html>Bad Gateway</html>".
Proof.
  destruct (apiRequest_invalid_body
              (Sample.platform Sample.token_ok $"<html>Bad Gateway</html>" [])
              (JSON_parse_payment
                 (Sample.platform Sample.token_ok $"<html>Bad Gateway</html>" []))
              M_POST $"/v1/payments" (Some (apiBody Sample.card_request))
              None None None Sample.cold
              (snd (getAccessToken
                      (Sample.platform Sample.token_ok $"<html>Bad Gateway</html>" [])
                      Sample.cold))
              $"tok-1" Sample.credentials
              {| http_status := 201; http_text := $"<html>Bad Gateway</html>";
                 latency := 250 |})
    as (msg & Hres & Hmsg & _);
    [reflexivity | reflexivity | reflexivity | reflexivity |].
  exists msg. split; [exact Hres|]. rewrite Hmsg. reflexivity.
Defined.

(** X6. A reply whose body is JSON is returned as the result exactly
    when its status lies in 200..299; any other status makes
    [apiRequest] throw an error naming the status and the body. *)
Theorem apiRequest_json_reply (P : Platform) {T} (parse : jsstring -> option T)
    (m : HttpMethod) (ep : jsstring) (body : option ApiBody)
    (ip ru : option jsstring) (pm : option TatraPayMethod)
    (w w1 : World) (token : jsstring) (creds : TatraPayCredentials)
    (r : HttpResponse) (data : T) :
  getAccessToken P w = (Ok token, w1) ->
  fst (getCredentials w1) = Ok creds ->
  network P (net w1) (clock w1)
    (api_fetch_request (TATRAPAY_CONFIG (isSandbox creds)) token
       (randomUUID P (uuids w1)) m ep body ip ru pm) = Responded r ->
  parse (http_text r) = Some data ->
  (200 <= http_status r <= 299 ->
     fst (apiRequest P parse m ep body ip ru pm w) = Ok data)
  /\ (~ 200 <= http_status r <= 299 ->
        fst (apiRequest P parse m ep body ip ru pm w)
        = Throw (Error ($"TatraPay API error: " ++ of_Z (http_status r)
                        ++ $" - " ++ JSON_restringify P (http_text r)))).
Proof.
  intros Htok Hc Hnet Hparse.
  rewrite (apiRequest_run P parse m ep body ip ru pm w w1 token Htok), Hc.
  cbv zeta. rewrite Hnet, Hparse. unfold ok.
  split; intros Hs.
  - destruct Hs as [H1 H2]. apply Z.leb_le in H1, H2. now rewrite H1, H2.
  - destruct (200 <=? http_status r) eqn:H1;
      [destruct (http_status r <=? 299) eqn:H2|]; cbn [andb fst]; try reflexivity.
    apply Z.leb_le in H1, H2. lia.
Qed.

Lemma apiRequest_json_reply_witness :
  fst (apiRequest (Sample.gateway Sample.token_ok (Sample.answer 422 $"error.json"))
         (JSON_parse_payment
            (Sample.gateway Sample.token_ok (Sample.answer 422 $"error.json")))
         M_POST $"/v1/payments" (Some (apiBody Sample.card_request))
         None None None Sample.cold)
  = Throw (Error $"TatraPay API error: 422 - error.json").
Proof.
  destruct (apiRequest_json_reply
              (Sample.gateway Sample.token_ok (Sample.answer 422 $"error.json"))
              (JSON_parse_payment
                 (Sample.gateway Sample.token_ok (Sample.answer 422 $"error.json")))
              M_POST $"/v1/payments" (Some (apiBody Sample.card_request))
              None None None Sample.cold
              (snd (getAccessToken
                      (Sample.gateway Sample.token_ok (Sample.answer 422 $"error.json"))
                      Sample.cold))
              $"tok-1" Sample.credentials
              {| http_status := 422; http_text := $"error.json"; latency := 200 |}
              Sample.error_reply)
    as [_ Herr]; [reflexivity | reflexivity | reflexivity | reflexivity |].
  rewrite Herr; [reflexivity|]. cbn. lia.
Defined.

(* ------------------------------------------------------------------ *)
(** ** The creation request *)
(* ------------------------------------------------------------------ *)

Lemma before_first_absent (sep : N) (s : jsstring) : ~ In sep (before_first sep s).
Proof.
  induction s as [|c s IH]; cbn; [tauto|].
  destruct (N.eqb_spec c sep) as [-> | Hne]; cbn; [tauto|].
  intros [H | H]; [congruence | now apply IH].
Qed.

Lemma before_first_prefix (sep : N) (s : jsstring) :
  exists rest, s = before_first sep s ++ rest.
Proof.
  induction s as [|c s [rest IH]]; cbn; [now exists []|].
  destruct (N.eqb c sep).
  - now exists (c :: s).
  - exists rest. cbn. now rewrite <- IH.
Qed.

(** The history of [createPayment] is the history of its [apiRequest]. *)
Lemma createPayment_net (P : Platform) (r : TatraPayCreatePaymentRequest)
    (w : World) :
  net (snd (createPayment P r w)) = net (snd (createPayment_reply P r w)).
Proof.
  destruct (createPayment_reply P r w) as [[d | e] w1] eqn:E.
  - destruct (lacks_redirect r d) eqn:L.
    + destruct (createPayment_lacks_redirect P r w w1 d E L) as (msg & H & _).
      now rewrite H.
    + destruct (createPayment_accepted P r w w1 d E L) as (w' & H & _ & Hn & _).
      now rewrite H.
  - now rewrite (createPayment_reply_Throw P r w w1 e E).
Qed.

(** The requests of [createPayment] when credentials are configured. *)
Lemma createPayment_calls (P : Platform) (r : TatraPayCreatePaymentRequest)
    (w : World) (creds : TatraPayCredentials) :
  fst (getCredentials w) = Ok creds ->
  let cfg := TATRAPAY_CONFIG (isSandbox creds) in
  let base := before_first 63 (returnUrl r) in
  exists toks apis,
    net (snd (createPayment P r w)) = net w ++ toks ++ apis
    /\ (toks = [] \/ toks = [token_request cfg creds])
    /\ (List.length apis <= 1)%nat
    /\ (forall rq, In rq apis ->
          fr_method rq = M_POST
          /\ fr_url rq = baseUrl cfg ++ $"/v1/payments"
          /\ fr_body rq = Some (BodyJson (apiBody r))
          /\ (exists token,
                header $"Authorization" (fr_headers rq) = Some ($"Bearer " ++ token))
          /\ header $"Preferred-Method" (fr_headers rq)
             = Some (method_string (paymentMethod r))
          /\ header $"IP-Address" (fr_headers rq)
             = (if truthy (customerIpAddress r)
                then Some (customerIpAddress r) else None)
          /\ header $"Redirect-URI" (fr_headers rq)
             = (if truthy base then Some base else None))
    /\ ~ In 63%N base
    /\ (exists query, returnUrl r = base ++ query).
Proof.
  intros Hc cfg base.
  rewrite createPayment_net.
  unfold createPayment_reply, bind, console_log, console_write.
  match goal with
  | |- context [apiRequest P ?ps ?m ?ep ?b ?ip ?ru ?pm ?w0] =>
      destruct (apiRequest_calls P ps m ep b ip ru pm w0 creds
                  (eq_trans (getCredentials_env w0 w eq_refl) Hc))
        as ((toks & apis & Hn & Ht & Ha) & _)
  end.
  exists toks, apis. cbn [net] in Hn.
  split; [exact Hn|]. split; [exact Ht|].
  split; [destruct Ha as [-> | (token & id & ->)]; cbn; lia|].
  split; [|split; [apply before_first_absent | apply before_first_prefix]].
  intros rq Hin.
  destruct Ha as [-> | (token & id & ->)]; [destruct Hin|].
  destruct Hin as [<- | []].
  unfold api_fetch_request; cbn [fr_method fr_url fr_body fr_headers].
  fold base. fold cfg.
  repeat split.
  - exists token. reflexivity.
  - destruct (truthy (customerIpAddress r)), (truthy base); reflexivity.
  - destruct (truthy (customerIpAddress r)), (truthy base); reflexivity.
  - destruct (truthy (customerIpAddress r)), (truthy base); reflexivity.
Qed.

(** X7. With credentials configured, [createPayment] sends at most the
    token exchange and then at most one creation request, never a
    second one. The creation request is a POST to [/v1/payments] of the
    selected gateway with [apiBody] as its body, a bearer
    [Authorization], [Preferred-Method] set to the method,
    [IP-Address] set to the caller's address when that is not empty, and
    [Redirect-URI] set to the return URL cut before its first question
    mark (so it contains none) when that is not empty. *)
Theorem createPayment_request (P : Platform) (r : TatraPayCreatePaymentRequest)
    (w : World) (creds : TatraPayCredentials) :
  fst (getCredentials w) = Ok creds ->
  let cfg := TATRAPAY_CONFIG (isSandbox creds) in
  let base := before_first 63 (returnUrl r) in
  exists toks apis,
    net (snd (createPayment P r w)) = net w ++ toks ++ apis
    /\ (toks = [] \/ toks = [token_request cfg creds])
    /\ (List.length apis <= 1)%nat
    /\ (forall rq, In rq apis ->
          fr_method rq = M_POST
          /\ fr_url rq = baseUrl cfg ++ $"/v1/payments"
          /\ fr_body rq = Some (BodyJson (apiBody r))
          /\ (exists token,
                header $"Authorization" (fr_headers rq) = Some ($"Bearer " ++ token))
          /\ header $"Preferred-Method" (fr_headers rq)
             = Some (method_string (paymentMethod r))
          /\ header $"IP-Address" (fr_headers rq)
             = (if truthy (customerIpAddress r)
                then Some (customerIpAddress r) else None)
          /\ header $"Redirect-URI" (fr_headers rq)
             = (if truthy base then Some base else None))
    /\ ~ In 63%N base
    /\ (exists query, returnUrl r = base ++ query).
Proof. exact (createPayment_calls P r w creds). Qed.

Lemma createPayment_request_witness :
  exists toks apis,
    net (snd (createPayment (Sample.platform Sample.token_ok $"card.json" [])
                Sample.card_request Sample.cold)) = toks ++ apis
    /\ (List.length apis <= 1)%nat
    /\ forall rq, In rq apis ->
         header $"Redirect-URI" (fr_headers rq)
         = Some $"https://shop.example/api/payment/callback".
Proof.
  destruct (createPayment_request
              (Sample.platform Sample.token_ok $"card.json" [])
              Sample.card_request Sample.cold Sample.credentials eq_refl)
    as (toks & apis & Hn & _ & Hlen & Hrq & _).
  exists toks, apis. split; [exact Hn|]. split; [exact Hlen|].
  intros rq Hin.
  destruct (Hrq rq Hin) as (_ & _ & _ & _ & _ & _ & Hred).
  rewrite Hred. reflexivity.
Defined.

(** X8. What [createPayment] puts into the body: the amount and the
    currency of the request as they are; the language, [sk] when none is
    given; a description only when it is not empty; the customer block
    exactly when a customer is given, with the phone number only when it
    is not empty; [cardDetail] exactly for CARD_PAY and the empty
    [bankTransfer] object exactly for BANK_TRANSFER, never both. *)
Theorem apiBody_fields (r : TatraPayCreatePaymentRequest) :
  amountValue (baseAmount (apiBody r)) = amount (req_amount r)
  /\ ba_currency (baseAmount (apiBody r)) = currency (req_amount r)
  /\ (language r = None -> ab_language (apiBody r) = sk)
  /\ (forall d, paymentDescription (apiBody r) = Some d
                <-> description r = Some d /\ d <> [])
  /\ (userData (apiBody r) = None <-> customer r = None)
  /\ (forall u p, userData (apiBody r) = Some u ->
        (ud_phone u = Some p <->
         exists c, customer r = Some c /\ phone c = Some p /\ p <> []))
  /\ (cardDetail (apiBody r) <> None <-> paymentMethod r = CARD_PAY)
  /\ (bankTransfer (apiBody r) <> None <-> paymentMethod r = BANK_TRANSFER)
  /\ ~ (cardDetail (apiBody r) <> None /\ bankTransfer (apiBody r) <> None).
Proof.
  unfold apiBody; cbn [baseAmount amountValue ba_currency ab_language
                       paymentDescription userData cardDetail bankTransfer].
  split; [reflexivity|]. split; [reflexivity|].
  split; [now intros ->|].
  split.
  { intros d. destruct (description r) as [[|c d']|]; cbn [truthy].
    - split; [discriminate | intros [H Hne]; inversion H; subst; congruence].
    - split.
      + intros H. inversion H; subst. split; [reflexivity | discriminate].
      + intros [H _]. exact H.
    - split; [discriminate | intros [H _]; discriminate]. }
  split.
  { destruct (customer r); split; congruence. }
  split.
  { intros u p Hu. destruct (customer r) as [c|]; [|discriminate].
    inversion Hu; subst; clear Hu. cbn [ud_phone].
    destruct (phone c) as [[|x p']|] eqn:Ep; cbn [truthy].
    - split; [discriminate|].
      intros (c' & Hc' & Hp & Hne). inversion Hc'; subst. congruence.
    - split.
      + intros H. inversion H; subst. exists c.
        split; [reflexivity|]. split; [exact Ep | discriminate].
      + intros (c' & Hc' & Hp & _). inversion Hc'; subst. congruence.
    - split; [discriminate|].
      intros (c' & Hc' & Hp & _). inversion Hc'; subst. congruence. }
  destruct (paymentMethod r); repeat split; try congruence; try discriminate;
    intros [H1 H2]; congruence.
Qed.

Lemma apiBody_fields_witness :
  ab_language (apiBody Sample.card_request) = sk
  /\ cardDetail (apiBody Sample.card_request) <> None.
Proof.
  pose proof (apiBody_fields Sample.card_request)
    as (_ & _ & Hl & _ & _ & _ & Hc & _).
  split; [apply Hl; reflexivity | apply Hc; reflexivity].
Defined.

(** X9. The error of a card payment without redirect URL. When the reply
    lists payment methods and the first entry for CARD_PAY is marked
    unavailable, the message is "TatraPay: " followed by the reason text
    of that entry, or by "Card payment not available" when the text is
    missing or empty; in every other case it is "TatraPay: No redirect
    URL returned for card payment". *)
Theorem createPayment_card_unavailable (P : Platform)
    (r : TatraPayCreatePaymentRequest) (w w1 : World) (d : PaymentData) :
  createPayment_reply P r w = (Ok d, w1) ->
  paymentMethod r = CARD_PAY ->
  truthy_opt (tatraPayPlusUrl d) = false ->
  createPayment P r w =
  (Throw (Error
     (match match availablePaymentMethods d with
            | Some ms => find (fun m => JS.eqb (am_paymentMethod m) $"CARD_PAY") ms
            | None => None
            end with
      | Some m =>
          if isAvailable m
          then $"TatraPay: No redirect URL returned for card payment"
          else $"TatraPay: "
               ++ opt_or_else (reasonCodeMethodAvailabilityDescription m)
                    $"Card payment not available"
      | None => $"TatraPay: No redirect URL returned for card payment"
      end)), w1).
Proof.
  unfold createPayment, createPayment_reply, bind, console_log, console_write.
  match goal with
  | |- context [apiRequest P ?a ?b ?c ?d ?e ?f ?g ?h] =>
      destruct (apiRequest P a b c d e f g h) as [[x | e'] w2]
  end; intros H; inversion H; subst; clear H.
  intros -> ->. cbn [method_eqb andb negb].
  destruct (availablePaymentMethods d) as [ms|]; [|reflexivity].
  destruct (find _ ms) as [m|]; [|reflexivity].
  destruct (isAvailable m); reflexivity.
Qed.

Lemma createPayment_card_unavailable_witness :
  fst (createPayment
         (Sample.gateway Sample.token_ok (Sample.answer 201 $"unavailable.json"))
         Sample.card_request Sample.cold)
  = Throw (Error $"TatraPay: cardDetail was not provided").
Proof.
  rewrite (createPayment_card_unavailable
             (Sample.gateway Sample.token_ok (Sample.answer 201 $"unavailable.json"))
             Sample.card_request Sample.cold
             (snd (createPayment_reply
                     (Sample.gateway Sample.token_ok
                        (Sample.answer 201 $"unavailable.json"))
                     Sample.card_request Sample.cold))
             Sample.unavailable_reply);
    reflexivity.
Defined.

(* ------------------------------------------------------------------ *)
(** ** The status query *)
(* ------------------------------------------------------------------ *)

(** The answer behind a result of [apiRequest]: the token obtained, and
    the reply the network gave to the request built with it. *)
Lemma apiRequest_Ok_answer (P : Platform) {T} (parse : jsstring -> option T)
    (m : HttpMethod) (ep : jsstring) (body : option ApiBody)
    (ip ru : option jsstring) (pm : option TatraPayMethod)
    (w w' : World) (d : T) :
  apiRequest P parse m ep body ip ru pm w = (Ok d, w') ->
  exists token w1 creds r,
    getAccessToken P w = (Ok token, w1)
    /\ fst (getCredentials w1) = Ok creds
    /\ network P (net w1) (clock w1)
         (api_fetch_request (TATRAPAY_CONFIG (isSandbox creds)) token
            (randomUUID P (uuids w1)) m ep body ip ru pm) = Responded r
    /\ ok r = true
    /\ parse (http_text r) = Some d.
Proof.
  intros H.
  destruct (getAccessToken P w) as [[token | e] w1] eqn:E.
  - rewrite (apiRequest_run P parse m ep body ip ru pm w w1 token E) in H.
    destruct (fst (getCredentials w1)) as [creds | e] eqn:Hc; [|discriminate H].
    cbv zeta in H.
    destruct (network P (net w1) (clock w1) _) as [r | dt] eqn:Hn;
      [|discriminate H].
    destruct (parse (http_text r)) as [data|] eqn:Hp; [|discriminate H].
    destruct (ok r) eqn:Hok; [|discriminate H].
    inversion H; subst; clear H.
    exists token, w1, creds, r. repeat split; assumption.
  - rewrite (apiRequest_no_token P parse m ep body ip ru pm w w1 e E) in H.
    discriminate H.
Qed.

(** X10. With credentials configured, [getPaymentStatus] sends at most
    the token exchange and then at most one request: a GET, without
    body, of [/v1/payments/<paymentId>/status] on the selected gateway
    (the id is spliced in as it is), with the three headers
    [Authorization], [Content-Type] and [X-Request-ID] and no others. A
    result is the relabelled body of the answer the network gave to
    that very request: the answer has a status in 200..299, its body
    parses, and the fields of the result are those of the parsed body,
    the status being the string the gateway sent, whatever it is, and
    the amount the instructed amount. *)
Theorem getPaymentStatus_request (P : Platform) (id : jsstring) (w : World)
    (creds : TatraPayCredentials) :
  fst (getCredentials w) = Ok creds ->
  let cfg := TATRAPAY_CONFIG (isSandbox creds) in
  let w0 := snd (console_log "Fetching TatraPay payment status:" [id] w) in
  (exists toks apis,
     net (snd (getPaymentStatus P id w)) = net w ++ toks ++ apis
     /\ (toks = [] \/ toks = [token_request cfg creds])
     /\ (List.length apis <= 1)%nat
     /\ (forall rq, In rq apis ->
           fr_method rq = M_GET
           /\ fr_url rq = baseUrl cfg ++ $"/v1/payments/" ++ id ++ $"/status"
           /\ fr_body rq = None
           /\ map fst (fr_headers rq)
              = [$"Authorization"; $"Content-Type"; $"X-Request-ID"]))
  /\ (forall st, fst (getPaymentStatus P id w) = Ok st ->
        exists token w1 r d,
          getAccessToken P w0 = (Ok token, w1)
          /\ network P (net w1) (clock w1)
               (api_fetch_request cfg token (randomUUID P (uuids w1)) M_GET
                  ($"/v1/payments/" ++ id ++ $"/status") None None None None)
             = Responded r
          /\ 200 <= http_status r <= 299
          /\ JSON_parse_status P (http_text r) = Some d
          /\ st = {| sr_paymentId := sd_paymentId d;
                     sr_status := sd_status d;
                     sr_merchantReference := sd_merchantReference d;
                     sr_amount := instructedAmount d;
                     sr_paidAmount := sd_paidAmount d;
                     sr_paymentMethod := sd_paymentMethod d;
                     sr_createdAt := sd_createdAt d;
                     sr_updatedAt := sd_updatedAt d;
                     sr_transactionId := sd_transactionId d |}).
Proof.
  intros Hc cfg w0. subst w0.
  unfold getPaymentStatus, bind, console_log, console_write. cbn [snd].
  match goal with
  | |- context [apiRequest P ?ps ?m ?ep ?b ?ip ?ru ?pm ?w0] =>
      destruct (apiRequest_calls P ps m ep b ip ru pm w0 creds
                  (eq_trans (getCredentials_env w0 w eq_refl) Hc))
        as ((toks & apis & Hn & Ht & Ha) & _);
      pose proof (apiRequest_Ok_answer P ps m ep b ip ru pm w0) as Hinv;
      pose proof (env_getAccessToken P w0) as Henv;
      destruct (apiRequest P ps m ep b ip ru pm w0) as [[d | e] w1]
  end; cbn [net snd fst env] in *.
  - split.
    + exists toks, apis. split; [exact Hn|]. split; [exact Ht|].
      split; [destruct Ha as [-> | (token & rid & ->)]; cbn; lia|].
      intros rq Hin.
      destruct Ha as [-> | (token & rid & ->)]; [destruct Hin|].
      destruct Hin as [<- | []]. repeat split.
    + intros st Hst. inversion Hst; subst; clear Hst.
      destruct (Hinv w1 d eq_refl) as (token & w2 & creds' & r & Htok & Hc' & Hnet & Hok & Hp).
      assert (creds' = creds) as ->.
      { rewrite Htok in Henv. cbn [snd] in Henv.
        rewrite (getCredentials_env w2 w Henv), Hc in Hc'. now inversion Hc'. }
      exists token, w2, r, d. fold cfg in Hnet.
      split; [exact Htok|]. split; [exact Hnet|].
      split.
      { unfold ok in Hok. apply andb_true_iff in Hok as [H1 H2].
        apply Z.leb_le in H1, H2. split; assumption. }
      split; [exact Hp|].
      destruct (instructedAmount d); destruct (sd_paidAmount d) as [[]|];
        reflexivity.
  - split.
    + exists toks, apis. split; [exact Hn|]. split; [exact Ht|].
      split; [destruct Ha as [-> | (token & rid & ->)]; cbn; lia|].
      intros rq Hin.
      destruct Ha as [-> | (token & rid & ->)]; [destruct Hin|].
      destruct Hin as [<- | []]. repeat split.
    + intros st Hst. discriminate Hst.
Qed.

Lemma getPaymentStatus_request_witness :
  exists st,
    fst (getPaymentStatus (Sample.gateway Sample.token_ok
                             (Sample.answer 200 $"init.json"))
           $"pay-1" Sample.cold) = Ok st
    /\ sr_status st = $"INIT".
Proof.
  pose proof (getPaymentStatus_request
                (Sample.gateway Sample.token_ok (Sample.answer 200 $"init.json"))
                $"pay-1" Sample.cold Sample.credentials eq_refl) as [_ H].
  eexists. split; [vm_compute; reflexivity|].
  destruct (H _ ltac:(vm_compute; reflexivity))
    as (token & w1 & r & d & _ & _ & _ & _ & Hst).
  reflexivity.
Defined.

(* ------------------------------------------------------------------ *)
(** ** The three status classes *)
(* ------------------------------------------------------------------ *)

Lemma success_not_failed (s : TatraPayStatus) :
  isPaymentSuccessful s = true -> isPaymentFailed s = false.
Proof.
  intros H. apply JSFacts.includes_In in H. cbn in H.
  repeat (destruct H as [<- | H]; [reflexivity|]). contradiction.
Qed.

Lemma pending_not_success_nor_failed (s : TatraPayStatus) :
  isPaymentPending s = true ->
  isPaymentSuccessful s = false /\ isPaymentFailed s = false.
Proof.
  intros H. apply JSFacts.includes_In in H. cbn in H.
  repeat (destruct H as [<- | H]; [split; reflexivity|]). contradiction.
Qed.

(** X11. [mapToInternalStatus] answers [completed] exactly for the
    statuses [isPaymentSuccessful] accepts, [failed] exactly for those
    [isPaymentFailed] accepts, and [pending] exactly for those neither
    accepts. *)
Theorem mapToInternalStatus_exact (s : TatraPayStatus) :
  (mapToInternalStatus s = completed <-> isPaymentSuccessful s = true)
  /\ (mapToInternalStatus s = failed <-> isPaymentFailed s = true)
  /\ (mapToInternalStatus s = pending <->
      isPaymentSuccessful s = false /\ isPaymentFailed s = false).
Proof.
  unfold mapToInternalStatus.
  destruct (isPaymentSuccessful s) eqn:Hs.
  - rewrite (success_not_failed s Hs).
    repeat split; try congruence; try discriminate.
    intros [H _]. discriminate H.
  - destruct (isPaymentFailed s); repeat split; try congruence; try discriminate;
      intros [_ H]; discriminate H.
Qed.

(** X12. No status belongs to two of the classes success, failed and
    pending; a status [isPaymentPending] accepts maps to [pending], but
    a status that maps to [pending] need not be one of them: every
    string outside the three lists does. *)
Theorem status_classes_disjoint (s : TatraPayStatus) :
  (isPaymentSuccessful s = true ->
     isPaymentFailed s = false /\ isPaymentPending s = false)
  /\ (isPaymentFailed s = true ->
        isPaymentSuccessful s = false /\ isPaymentPending s = false)
  /\ (isPaymentPending s = true ->
        isPaymentSuccessful s = false /\ isPaymentFailed s = false
        /\ mapToInternalStatus s = pending)
  /\ (~ In s (successCodes ++ failedCodes ++ pendingCodes) ->
        isPaymentPending s = false /\ mapToInternalStatus s = pending).
Proof.
  split; [|split; [|split]].
  - intros H. split; [now apply success_not_failed|].
    destruct (isPaymentPending s) eqn:Hp; [|reflexivity].
    destruct (pending_not_success_nor_failed s Hp). congruence.
  - intros H. split.
    + destruct (isPaymentSuccessful s) eqn:Hs; [|reflexivity].
      pose proof (success_not_failed s Hs). congruence.
    + destruct (isPaymentPending s) eqn:Hp; [|reflexivity].
      destruct (pending_not_success_nor_failed s Hp). congruence.
  - intros H. destruct (pending_not_success_nor_failed s H) as [Hs Hf].
    repeat split; try assumption.
    unfold mapToInternalStatus. now rewrite Hs, Hf.
  - intros Hn.
    assert (Hs : isPaymentSuccessful s = false).
    { apply JSFacts.includes_not_In. intros Hin. apply Hn.
      apply in_or_app. now left. }
    assert (Hf : isPaymentFailed s = false).
    { apply JSFacts.includes_not_In. intros Hin. apply Hn.
      apply in_or_app. right. apply in_or_app. now left. }
    split.
    + apply JSFacts.includes_not_In. intros Hin. apply Hn.
      apply in_or_app. right. apply in_or_app. now right.
    + unfold mapToInternalStatus. now rewrite Hs, Hf.
Qed.

Lemma mapToInternalStatus_exact_witness :
  mapToInternalStatus $"CANC" = failed.
Proof.
  apply (proj2 (proj1 (proj2 (mapToInternalStatus_exact $"CANC")))).
  reflexivity.
Defined.

Lemma status_classes_disjoint_witness :
  (isPaymentSuccessful $"PDNG" = false /\ isPaymentFailed $"PDNG" = false
   /\ mapToInternalStatus $"PDNG" = pending)
  /\ (isPaymentPending $"INIT" = false /\ mapToInternalStatus $"INIT" = pending).
Proof.
  pose proof (status_classes_disjoint $"PDNG") as (_ & _ & Hp & _).
  pose proof (status_classes_disjoint $"INIT") as (_ & _ & _ & Hu).
  split; [apply Hp; reflexivity|].
  apply Hu. apply JSFacts.includes_not_In. reflexivity.
Defined.

(* ------------------------------------------------------------------ *)
(** ** The callback route, branch by branch *)
(* ------------------------------------------------------------------ *)

(** The answer of the callback handler in every case. *)
Lemma GET_run (P : Platform) (storedPaymentId : jsstring -> option jsstring)
    (request : NextRequest) (w : World) :
  fst (GET P storedPaymentId request w) =
  Ok (redirect
        (opt_or_else (NEXT_PUBLIC_BASE_URL (env w)) $"http://localhost:3000"
         ++ $"/payment/"
         ++ match URLSearchParams.get $"orderId" (searchParams request) with
            | None => $"error?message=Missing+order+ID"
            | Some orderId =>
                if negb (truthy orderId) then $"error?message=Missing+order+ID"
                else
                  match storedPaymentId orderId with
                  | None => $"error?message=Payment+not+found"
                  | Some paymentId =>
                      if negb (truthy paymentId)
                         || JS.eqb paymentId YOUR_STORED_PAYMENT_ID
                      then $"error?message=Payment+not+found"
                      else
                        match fst (getPaymentStatus P paymentId
                                     (snd (console_log "Payment callback received:"
                                             [orderId] w))) with
                        | Throw _ => $"error?message=Error+verifying+payment"
                        | Ok st =>
                            if isPaymentSuccessful (sr_status st)
                            then $"success?message=Payment+successful"
                            else if isPaymentFailed (sr_status st)
                            then $"failed?message=Payment+was+declined&orderId="
                                 ++ URLSearchParams.encode orderId
                            else $"pending?message=Awaiting+payment+confirmation"
                        end
                  end
            end)).
Proof.
  unfold GET, try_catch, bind, console_log, console_error, console_write.
  destruct (URLSearchParams.get $"orderId" (searchParams request)) as [o|];
    [|reflexivity].
  destruct o as [|c o]; [reflexivity|]. cbn [truthy negb snd].
  destruct (storedPaymentId (c :: o)) as [pid|]; [|reflexivity].
  destruct (negb (truthy pid) || JS.eqb pid YOUR_STORED_PAYMENT_ID);
    [reflexivity|].
  match goal with
  | |- context [getPaymentStatus P pid ?w0] =>
      pose proof (env_getPaymentStatus P pid w0) as Henv;
      destruct (getPaymentStatus P pid w0) as [[st | e] w1]
  end; cbn [snd env fst] in *.
  - destruct (isPaymentSuccessful (sr_status st));
      [|destruct (isPaymentFailed (sr_status st))];
      rewrite redirectToResult_run; cbn [fst env]; rewrite Henv; reflexivity.
  - rewrite redirectToResult_run. cbn [fst env]. rewrite Henv. reflexivity.
Qed.

(** X13. Every path through the callback handler ends in a redirect:
    whatever the request, the stored id and the gateway do, and also
    when the status query throws, the answer is a redirect to one of the
    four result pages under the configured base URL
    ([http://localhost:3000] when NEXT_PUBLIC_BASE_URL is unset or
    empty), with a [message] parameter first in the query; no exception
    of the client escapes the handler. ([NextResponse.redirect] is taken
    to accept the URL.) *)
Theorem callback_always_redirects (P : Platform)
    (storedPaymentId : jsstring -> option jsstring)
    (request : NextRequest) (w : World) :
  exists page rest,
    fst (GET P storedPaymentId request w)
    = Ok (redirect
            (opt_or_else (NEXT_PUBLIC_BASE_URL (env w)) $"http://localhost:3000"
             ++ $"/payment/" ++ result_string page ++ $"?message=" ++ rest)).
Proof.
  rewrite GET_run.
  destruct (URLSearchParams.get $"orderId" (searchParams request)) as [o|];
    [|exists r_error; eexists; reflexivity].
  destruct (negb (truthy o)); [exists r_error; eexists; reflexivity|].
  destruct (storedPaymentId o) as [pid|];
    [|exists r_error; eexists; reflexivity].
  destruct (negb (truthy pid) || JS.eqb pid YOUR_STORED_PAYMENT_ID);
    [exists r_error; eexists; reflexivity|].
  destruct (fst (getPaymentStatus P pid _)) as [st | e];
    [|exists r_error; eexists; reflexivity].
  destruct (isPaymentSuccessful (sr_status st));
    [exists r_success; eexists; reflexivity|].
  destruct (isPaymentFailed (sr_status st));
    [exists r_failed | exists r_pending]; eexists; reflexivity.
Qed.

(** X16. The callback route as shipped, with the placeholder bound for
    the stored payment id, never contacts the gateway: every request is
    answered with a redirect to the error page, and the history of
    requests and the token slot stay as they were. *)
Theorem callback_as_shipped (P : Platform) (request : NextRequest) (w : World) :
  (exists rest,
     fst (GET P shipped_lookup request w)
     = Ok (redirect
             (opt_or_else (NEXT_PUBLIC_BASE_URL (env w)) $"http://localhost:3000"
              ++ $"/payment/error?message=" ++ rest)))
  /\ net (snd (GET P shipped_lookup request w)) = net w
  /\ cachedToken (snd (GET P shipped_lookup request w)) = cachedToken w.
Proof.
  unfold GET, try_catch, bind, shipped_lookup, console_log, console_error,
    console_write.
  destruct (URLSearchParams.get $"orderId" (searchParams request)) as [o|].
  - destruct o as [|c o]; cbn [truthy negb].
    + split; [eexists; reflexivity | split; reflexivity].
    + split; [eexists; reflexivity | split; reflexivity].
  - split; [eexists; reflexivity | split; reflexivity].
Qed.

(* ------------------------------------------------------------------ *)
(** ** The create route *)
(* ------------------------------------------------------------------ *)

Section CreateRouteFacts.

Variable P : Platform.
Variable platform_message : Exn -> jsstring.

Lemma truthy_nonempty (s : jsstring) : s <> [] -> truthy s = true.
Proof. destruct s; [congruence | reflexivity]. Qed.

(** The route on a body that passed the presence check. *)
Lemma POST_complete (request : CreateRoute.Request)
    (body : CreateRoute.CreatePaymentRequestBody)
    (orderId postedMethod : jsstring) (cents : Z)
    (postedCustomer : CreateRoute.CustomerBody) (w : World) :
  CreateRoute.json request = Some body ->
  complete_body body orderId postedMethod cents postedCustomer ->
  CreateRoute.POST P platform_message request w =
  if negb (includes [$"CARD_PAY"; $"BANK_TRANSFER"] postedMethod)
  then (Ok (CreateRoute.failure $"Invalid payment method" 400), w)
  else
    let r := create_route_request request body orderId postedMethod cents
               postedCustomer in
    match createPayment P r
            (snd (console_log "Creating payment:"
                    [orderId; postedMethod; of_Z cents;
                     currency_string (CreateRoute.body_currency body);
                     CreateRoute.customerIpAddress_of request] w)) with
    | (Ok payment, w1) =>
        (Ok (create_route_response (paymentMethod r) payment),
         snd (console_log "Payment created:" [paymentId payment] w1))
    | (Throw e, w1) =>
        (Ok (CreateRoute.failure (CreateRoute.error_message platform_message e) 500),
         snd (console_error "Payment creation error:" [] w1))
    end.
Proof.
  intros Hj (Ho & Hone & Hm & Hmne & Ha & Hane & Hc & He).
  unfold CreateRoute.POST, try_catch, bind. rewrite Hj, Ho, Hm, Ha, Hc.
  rewrite (truthy_nonempty orderId Hone), (truthy_nonempty postedMethod Hmne), He.
  apply Z.eqb_neq in Hane. rewrite Hane. cbn [negb orb].
  destruct (negb (includes [$"CARD_PAY"; $"BANK_TRANSFER"] postedMethod));
    [reflexivity|].
  cbv zeta.
  unfold console_log at 1 3, console_write. cbn [snd].
  fold (create_route_request request body orderId postedMethod cents postedCustomer).
  match goal with
  | |- context [createPayment P ?r ?w0] =>
      destruct (createPayment P r w0) as [[payment | e] w1]
  end; [|reflexivity].
  unfold create_route_response, create_route_request; cbn [paymentMethod].
  unfold console_log, console_write, ret. cbn [snd].
  destruct (method_eqb _ CARD_PAY && truthy_opt (redirectUrl payment));
    [reflexivity|].
  destruct (method_eqb _ BANK_TRANSFER && _); reflexivity.
Qed.

End CreateRouteFacts.


Lemma or_else_nonempty (a b : jsstring) : b <> [] -> or_else a b <> [].
Proof. unfold or_else. destruct a; cbn; [auto | discriminate]. Qed.

Lemma opt_or_else_nonempty (o : option jsstring) (b : jsstring) :
  b <> [] -> opt_or_else o b <> [].
Proof. destruct o; cbn; [apply or_else_nonempty | auto]. Qed.


(** X17. The address the create route passes on as the customer's is
    never empty: it is the first comma-separated entry of
    [x-forwarded-for], trimmed, when that is not empty; otherwise
    [x-real-ip] when that is present and not empty; otherwise
    "127.0.0.1". *)
Theorem create_route_customer_ip (request : CreateRoute.Request) :
  CreateRoute.customerIpAddress_of request <> []
  /\ (forall v, CreateRoute.x_forwarded_for request = Some v ->
        trim (before_first 44 v) <> [] ->
        CreateRoute.customerIpAddress_of request = trim (before_first 44 v))
  /\ ((forall v, CreateRoute.x_forwarded_for request = Some v ->
         trim (before_first 44 v) = []) ->
      forall ip, CreateRoute.x_real_ip request = Some ip -> ip <> [] ->
        CreateRoute.customerIpAddress_of request = ip)
  /\ ((forall v, CreateRoute.x_forwarded_for request = Some v ->
         trim (before_first 44 v) = []) ->
      truthy_opt (CreateRoute.x_real_ip request) = false ->
      CreateRoute.customerIpAddress_of request = $"127.0.0.1").
Proof.
  unfold CreateRoute.customerIpAddress_of.
  split; [|split; [|split]].
  - destruct (CreateRoute.x_forwarded_for request) as [v|].
    + destruct (trim (before_first 44 v)) eqn:E; cbn [truthy].
      * apply opt_or_else_nonempty. discriminate.
      * discriminate.
    + cbn [truthy]. apply opt_or_else_nonempty. discriminate.
  - intros v -> Hne. now rewrite (truthy_nonempty _ Hne).
  - intros Hf ip Hip Hne.
    destruct (CreateRoute.x_forwarded_for request) as [v|].
    + rewrite (Hf v eq_refl). cbn [truthy]. rewrite Hip. cbn.
      unfold or_else. now rewrite (truthy_nonempty _ Hne).
    + cbn [truthy]. rewrite Hip. cbn.
      unfold or_else. now rewrite (truthy_nonempty _ Hne).
  - intros Hf Hr.
    assert (Hx : opt_or_else (CreateRoute.x_real_ip request) $"127.0.0.1"
                 = $"127.0.0.1").
    { destruct (CreateRoute.x_real_ip request) as [ip|]; [|reflexivity].
      cbn in *. unfold or_else. now rewrite Hr. }
    destruct (CreateRoute.x_forwarded_for request) as [v|].
    + rewrite (Hf v eq_refl). cbn [truthy]. exact Hx.
    + cbn [truthy]. exact Hx.
Qed.

Lemma create_route_customer_ip_witness :
  CreateRoute.customerIpAddress_of (Sample.create_request Sample.create_body)
  = $"203.0.113.9".
Proof.
  rewrite (proj1 (proj2 (create_route_customer_ip
                           (Sample.create_request Sample.create_body)))
             $" 203.0.113.9 , 10.0.0.1" eq_refl).
  - reflexivity.
  - intros E. discriminate E.
Defined.

Section CreateRouteProperties.

Variable P : Platform.
Variable platform_message : Exn -> jsstring.

(** X18. A posted body without order id, payment method, amount or
    customer e-mail (a missing field, an empty string, or the amount 0)
    is answered 400 "Missing required fields"; the world is left as it
    was: nothing is logged and nothing is sent. *)
Theorem create_route_incomplete_body (request : CreateRoute.Request)
    (body : CreateRoute.CreatePaymentRequestBody) (w : World) :
  CreateRoute.json request = Some body ->
  truthy_opt (CreateRoute.body_orderId body) = false
  \/ truthy_opt (CreateRoute.body_paymentMethod body) = false
  \/ CreateRoute.body_amount body = None
  \/ CreateRoute.body_amount body = Some 0
  \/ CreateRoute.body_customer body = None
  \/ (exists c, CreateRoute.body_customer body = Some c
                /\ truthy_opt (CreateRoute.cb_email c) = false) ->
  CreateRoute.POST P platform_message request w
  = (Ok (CreateRoute.failure $"Missing required fields" 400), w).
Proof.
  intros Hj H. unfold CreateRoute.POST, try_catch, bind. rewrite Hj.
  destruct (CreateRoute.body_orderId body) as [o|]; [|reflexivity].
  destruct (CreateRoute.body_paymentMethod body) as [m|]; [|reflexivity].
  destruct (CreateRoute.body_amount body) as [a|]; [|reflexivity].
  destruct (CreateRoute.body_customer body) as [c|]; [|reflexivity].
  cbn [truthy_opt] in H.
  assert (Hb : negb (truthy o) || negb (truthy m) || (a =? 0)
               || negb (truthy_opt (CreateRoute.cb_email c)) = true).
  { destruct H as [H | [H | [H | [H | [H | (c' & Hc & H)]]]]];
      try discriminate H.
    - now rewrite H.
    - rewrite H. cbn. now rewrite orb_true_r.
    - inversion H; subst. cbn. now rewrite !orb_true_r.
    - inversion Hc; subst. rewrite H. cbn. now rewrite !orb_true_r. }
  now rewrite Hb.
Qed.

(** X19. A complete body whose payment method is neither "CARD_PAY" nor
    "BANK_TRANSFER" (QR_PAY and PAY_LATER included) is answered 400
    "Invalid payment method"; the world is left as it was. *)
Theorem create_route_unsupported_method (request : CreateRoute.Request)
    (body : CreateRoute.CreatePaymentRequestBody)
    (orderId postedMethod : jsstring) (cents : Z)
    (postedCustomer : CreateRoute.CustomerBody) (w : World) :
  CreateRoute.json request = Some body ->
  complete_body body orderId postedMethod cents postedCustomer ->
  postedMethod <> $"CARD_PAY" -> postedMethod <> $"BANK_TRANSFER" ->
  CreateRoute.POST P platform_message request w
  = (Ok (CreateRoute.failure $"Invalid payment method" 400), w).
Proof.
  intros Hj Hc H1 H2.
  rewrite (POST_complete P platform_message request body orderId postedMethod
             cents postedCustomer w Hj Hc).
  apply JSFacts.eqb_neq in H1, H2. unfold includes. cbn [existsb].
  now rewrite H1, H2.
Qed.

(** X20. The create route never throws. It answers 200 with
    [success: true] and no error text, or 400 or 500 with
    [success: false], an error text and no payment id. *)
Theorem create_route_always_answers (request : CreateRoute.Request) (w : World) :
  exists resp,
    fst (CreateRoute.POST P platform_message request w) = Ok resp
    /\ ((CreateRoute.json_status resp = 200
         /\ CreateRoute.success (CreateRoute.json_body resp) = true
         /\ CreateRoute.rb_error (CreateRoute.json_body resp) = None)
        \/ ((CreateRoute.json_status resp = 400
             \/ CreateRoute.json_status resp = 500)
            /\ CreateRoute.success (CreateRoute.json_body resp) = false
            /\ CreateRoute.rb_paymentId (CreateRoute.json_body resp) = None
            /\ CreateRoute.rb_error (CreateRoute.json_body resp) <> None)).
Proof.
  unfold CreateRoute.POST, try_catch, bind.
  assert (Hfail : forall msg st, st = 400 \/ st = 500 ->
    exists resp, Ok (CreateRoute.failure msg st) = Ok resp
      /\ ((CreateRoute.json_status resp = 200
           /\ CreateRoute.success (CreateRoute.json_body resp) = true
           /\ CreateRoute.rb_error (CreateRoute.json_body resp) = None)
          \/ ((CreateRoute.json_status resp = 400
               \/ CreateRoute.json_status resp = 500)
              /\ CreateRoute.success (CreateRoute.json_body resp) = false
              /\ CreateRoute.rb_paymentId (CreateRoute.json_body resp) = None
              /\ CreateRoute.rb_error (CreateRoute.json_body resp) <> None))).
  { intros msg st Hst. eexists. split; [reflexivity|]. right.
    cbn. repeat split; try assumption. discriminate. }
  destruct (CreateRoute.json request) as [body|];
    [|apply Hfail; now right].
  destruct (CreateRoute.body_orderId body) as [o|]; [|apply Hfail; now left].
  destruct (CreateRoute.body_paymentMethod body) as [m|]; [|apply Hfail; now left].
  destruct (CreateRoute.body_amount body) as [a|]; [|apply Hfail; now left].
  destruct (CreateRoute.body_customer body) as [c|]; [|apply Hfail; now left].
  destruct (negb (truthy o) || negb (truthy m) || (a =? 0)
            || negb (truthy_opt (CreateRoute.cb_email c)));
    [apply Hfail; now left|].
  destruct (negb (includes [$"CARD_PAY"; $"BANK_TRANSFER"] m));
    [apply Hfail; now left|].
  cbv zeta. unfold console_log at 1, console_write.
  match goal with
  | |- context [createPayment P ?r ?w0] =>
      destruct (createPayment P r w0) as [[payment | e] w1]
  end; [|apply Hfail; now right].
  unfold console_log, console_write, ret.
  destruct (method_eqb _ CARD_PAY && truthy_opt (redirectUrl payment));
    [|destruct (method_eqb _ BANK_TRANSFER && _)];
    (eexists; split; [reflexivity|]; left; cbn; repeat split).
Qed.

(** X21. When [createPayment] throws, the create route answers 500 with
    the message of the exception as [error]: the text of a client
    [Error] (a gateway status and body included) reaches the caller as
    it is. A request whose body is not JSON is answered 500 too, and
    nothing is sent for it. *)
Theorem create_route_gateway_failure (request : CreateRoute.Request)
    (body : CreateRoute.CreatePaymentRequestBody)
    (orderId postedMethod : jsstring) (cents : Z)
    (postedCustomer : CreateRoute.CustomerBody) (w w1 : World) (e : Exn) :
  (CreateRoute.json request = Some body ->
   complete_body body orderId postedMethod cents postedCustomer ->
   includes [$"CARD_PAY"; $"BANK_TRANSFER"] postedMethod = true ->
   createPayment P
     (create_route_request request body orderId postedMethod cents postedCustomer)
     (snd (console_log "Creating payment:"
             [orderId; postedMethod; of_Z cents;
              currency_string (CreateRoute.body_currency body);
              CreateRoute.customerIpAddress_of request] w)) = (Throw e, w1) ->
   fst (CreateRoute.POST P platform_message request w)
   = Ok (CreateRoute.failure (CreateRoute.error_message platform_message e) 500)
   /\ (forall msg, e = Error msg ->
         CreateRoute.error_message platform_message e = msg))
  /\ (CreateRoute.json request = None ->
      fst (CreateRoute.POST P platform_message request w)
      = Ok (CreateRoute.failure (platform_message SyntaxError_json) 500)
      /\ net (snd (CreateRoute.POST P platform_message request w)) = net w).
Proof.
  split.
  - intros Hj Hc Hm Hthrow.
    rewrite (POST_complete P platform_message request body orderId postedMethod
               cents postedCustomer w Hj Hc), Hm.
    cbn [negb]. cbv zeta. rewrite Hthrow.
    split; [reflexivity|]. now intros msg ->.
  - intros Hj. unfold CreateRoute.POST, try_catch, bind. rewrite Hj.
    split; reflexivity.
Qed.

End CreateRouteProperties.

Lemma create_route_incomplete_body_witness :
  CreateRoute.POST (Sample.platform Sample.token_ok $"card.json" [])
    Sample.platform_message (Sample.create_request Sample.zero_amount_body)
    Sample.cold
  = (Ok (CreateRoute.failure $"Missing required fields" 400), Sample.cold).
Proof.
  apply (create_route_incomplete_body
           (Sample.platform Sample.token_ok $"card.json" [])
           Sample.platform_message
           (Sample.create_request Sample.zero_amount_body)
           Sample.zero_amount_body Sample.cold eq_refl).
  right. right. right. left. reflexivity.
Defined.

Lemma create_route_unsupported_method_witness :
  CreateRoute.POST (Sample.platform Sample.token_ok $"card.json" [])
    Sample.platform_message (Sample.create_request Sample.qr_body) Sample.cold
  = (Ok (CreateRoute.failure $"Invalid payment method" 400), Sample.cold).
Proof.
  apply (create_route_unsupported_method
           (Sample.platform Sample.token_ok $"card.json" [])
           Sample.platform_message (Sample.create_request Sample.qr_body)
           Sample.qr_body $"ORD 7" $"QR_PAY" 7900 Sample.create_customer
           Sample.cold eq_refl).
  - unfold complete_body. repeat split; try reflexivity; discriminate.
  - discriminate.
  - discriminate.
Defined.

Lemma create_route_gateway_failure_witness :
  fst (CreateRoute.POST
         (Sample.gateway Sample.token_ok (Sample.answer 422 $"error.json"))
         Sample.platform_message (Sample.create_request Sample.create_body)
         Sample.cold)
  = Ok (CreateRoute.failure $"TatraPay API error: 422 - error.json" 500).
Proof.
  destruct (create_route_gateway_failure
              (Sample.gateway Sample.token_ok (Sample.answer 422 $"error.json"))
              Sample.platform_message (Sample.create_request Sample.create_body)
              Sample.create_body $"ORD 7" $"CARD_PAY" 7900 Sample.create_customer
              Sample.cold
              (snd (createPayment
                      (Sample.gateway Sample.token_ok (Sample.answer 422 $"error.json"))
                      (create_route_request
                         (Sample.create_request Sample.create_body)
                         Sample.create_body $"ORD 7" $"CARD_PAY" 7900
                         Sample.create_customer)
                      (snd (console_log "Creating payment:"
                              [$"ORD 7"; $"CARD_PAY"; of_Z 7900;
                               currency_string EUR; $"203.0.113.9"]
                              Sample.cold))))
              (Error $"TatraPay API error: 422 - error.json"))
    as [H _].
  destruct H as [H _].
  - reflexivity.
  - unfold complete_body. repeat split; try reflexivity; discriminate.
  - reflexivity.
  - vm_compute. reflexivity.
  - exact H.
Defined.

Section CreateRouteTraffic.

Variable P : Platform.
Variable platform_message : Exn -> jsstring.


End CreateRouteTraffic.


Section CreateRouteSuccess.

Variable P : Platform.
Variable platform_message : Exn -> jsstring.

(** X23. When [createPayment] returns a payment, the create route
    answers 200 with [success: true] and the payment id. For "CARD_PAY"
    the answer has the non-empty redirect URL and no bank-transfer
    block. For "BANK_TRANSFER" its bank-transfer block is the one of the
    payment, and when the payment has none the answer is a success all
    the same, without it. *)
Theorem create_route_success (request : CreateRoute.Request)
    (body : CreateRoute.CreatePaymentRequestBody)
    (orderId postedMethod : jsstring) (cents : Z)
    (postedCustomer : CreateRoute.CustomerBody) (w w1 : World)
    (payment : TatraPayPaymentResponse) :
  CreateRoute.json request = Some body ->
  complete_body body orderId postedMethod cents postedCustomer ->
  includes [$"CARD_PAY"; $"BANK_TRANSFER"] postedMethod = true ->
  createPayment P
    (create_route_request request body orderId postedMethod cents postedCustomer)
    (snd (console_log "Creating payment:"
            [orderId; postedMethod; of_Z cents;
             currency_string (CreateRoute.body_currency body);
             CreateRoute.customerIpAddress_of request] w)) = (Ok payment, w1) ->
  exists resp,
    fst (CreateRoute.POST P platform_message request w) = Ok resp
    /\ CreateRoute.json_status resp = 200
    /\ CreateRoute.success (CreateRoute.json_body resp) = true
    /\ CreateRoute.rb_paymentId (CreateRoute.json_body resp)
       = Some (paymentId payment)
    /\ (postedMethod = $"CARD_PAY" ->
        (exists u, CreateRoute.rb_redirectUrl (CreateRoute.json_body resp) = Some u
                   /\ u <> [])
        /\ CreateRoute.rb_bankTransfer (CreateRoute.json_body resp) = None)
    /\ (postedMethod = $"BANK_TRANSFER" ->
        CreateRoute.rb_bankTransfer (CreateRoute.json_body resp)
        = bankTransferInfo payment).
Proof.
  intros Hj Hc Hm Hpay.
  rewrite (POST_complete P platform_message request body orderId postedMethod
             cents postedCustomer w Hj Hc), Hm.
  cbn [negb]. cbv zeta. rewrite Hpay. cbn [fst].
  eexists. split; [reflexivity|].
  split; [reflexivity|].
  unfold create_route_response; cbn [CreateRoute.json_body].
  split; [|split; [|split]].
  - destruct (method_eqb _ CARD_PAY && _); [|destruct (method_eqb _ BANK_TRANSFER && _)];
      reflexivity.
  - destruct (method_eqb _ CARD_PAY && _); [|destruct (method_eqb _ BANK_TRANSFER && _)];
      reflexivity.
  - intros ->.
    destruct (createPayment_Ok_inv P _ _ _ _ Hpay) as (d & w0 & _ & L & -> & _).
    unfold lacks_redirect, create_route_request in L; cbn [paymentMethod] in L.
    change (JS.eqb $"CARD_PAY" $"CARD_PAY") with true in L. cbn in L.
    apply negb_false_iff in L.
    unfold create_route_request; cbn [paymentMethod].
    change (JS.eqb $"CARD_PAY" $"CARD_PAY") with true.
    cbn [method_eqb andb returned_response redirectUrl]. rewrite L.
    cbn [CreateRoute.rb_redirectUrl CreateRoute.rb_bankTransfer].
    split; [|reflexivity].
    destruct (tatraPayPlusUrl d) as [u|]; [|discriminate L].
    exists u. split; [reflexivity|]. intros ->. discriminate L.
  - intros ->.
    unfold create_route_request; cbn [paymentMethod].
    change (JS.eqb $"BANK_TRANSFER" $"CARD_PAY") with false.
    cbn [method_eqb andb].
    destruct (bankTransferInfo payment); reflexivity.
Qed.

End CreateRouteSuccess.

Lemma create_route_success_witness :
  exists resp u,
    fst (CreateRoute.POST (Sample.platform Sample.token_ok $"card.json" [])
           Sample.platform_message (Sample.create_request Sample.create_body)
           Sample.cold) = Ok resp
    /\ CreateRoute.rb_redirectUrl (CreateRoute.json_body resp) = Some u
    /\ u <> [].
Proof.
  destruct (create_route_success
              (Sample.platform Sample.token_ok $"card.json" [])
              Sample.platform_message (Sample.create_request Sample.create_body)
              Sample.create_body $"ORD 7" $"CARD_PAY" 7900 Sample.create_customer
              Sample.cold
              (snd (createPayment
                      (Sample.platform Sample.token_ok $"card.json" [])
                      (create_route_request
                         (Sample.create_request Sample.create_body)
                         Sample.create_body $"ORD 7" $"CARD_PAY" 7900
                         Sample.create_customer)
                      (snd (console_log "Creating payment:"
                              [$"ORD 7"; $"CARD_PAY"; of_Z 7900;
                               currency_string EUR; $"203.0.113.9"]
                              Sample.cold))))
              (returned_response
                 (create_route_request
                    (Sample.create_request Sample.create_body)
                    Sample.create_body $"ORD 7" $"CARD_PAY" 7900
                    Sample.create_customer)
                 Sample.card_reply 1700000000370)
              eq_refl)
    as (resp & Hres & _ & _ & _ & Hcard & _).
  - unfold complete_body. repeat split; try reflexivity; discriminate.
  - reflexivity.
  - vm_compute. reflexivity.
  - destruct (Hcard eq_refl) as [(u & Hu & Hne) _].
    exists resp, u. repeat split; assumption.
Defined.

(* ------------------------------------------------------------------ *)
(** ** The webhook route *)
(* ------------------------------------------------------------------ *)

(** X24. The webhook handler never throws. A delivery whose body is not
    JSON is answered 500 and nothing is sent for it. Otherwise the
    handler queries the status of the delivered payment id and answers
    200 [{ received: true }] when the query resolves, whatever status
    was delivered and whatever status was verified, and 500 with the
    fixed text "Webhook processing failed" when it throws; it sends what
    that one status query sends. *)
Theorem webhook_outcome (P : Platform) (w : World) :
  (fst (WebhookRoute.POST P None w)
   = Ok {| WebhookRoute.wh_body := WebhookRoute.error_body $"Webhook processing failed";
           WebhookRoute.wh_status := 500 |}
   /\ net (snd (WebhookRoute.POST P None w)) = net w)
  /\ forall payload,
       let w0 := snd (console_log "TatraPay webhook received:"
                        [WebhookRoute.wp_paymentId payload;
                         WebhookRoute.wp_status payload;
                         WebhookRoute.wp_merchantReference payload] w) in
       net (snd (WebhookRoute.POST P (Some payload) w))
       = net (snd (getPaymentStatus P (WebhookRoute.wp_paymentId payload) w0))
       /\ (forall st, fst (getPaymentStatus P (WebhookRoute.wp_paymentId payload) w0)
                      = Ok st ->
             fst (WebhookRoute.POST P (Some payload) w)
             = Ok {| WebhookRoute.wh_body := WebhookRoute.received_true;
                     WebhookRoute.wh_status := 200 |})
       /\ (forall e, fst (getPaymentStatus P (WebhookRoute.wp_paymentId payload) w0)
                     = Throw e ->
             fst (WebhookRoute.POST P (Some payload) w)
             = Ok {| WebhookRoute.wh_body :=
                       WebhookRoute.error_body $"Webhook processing failed";
                     WebhookRoute.wh_status := 500 |}).
Proof.
  split; [split; reflexivity|].
  intros payload w0. subst w0.
  unfold WebhookRoute.POST, try_catch, bind, console_log, console_error,
    console_write, ret.
  cbn [snd].
  destruct (getPaymentStatus P (WebhookRoute.wp_paymentId payload) _)
    as [[st | e] w1]; cbn [fst snd].
  - destruct (isPaymentSuccessful (sr_status st));
      [|destruct (isPaymentFailed (sr_status st))];
      cbn [fst snd net];
      (split; [reflexivity|]; split; [reflexivity | discriminate]).
  - cbn [fst snd net].
    split; [reflexivity|]. split; [discriminate|reflexivity].
Qed.

Lemma webhook_outcome_witness :
  fst (WebhookRoute.POST
         (Sample.gateway Sample.token_ok (Sample.answer 200 $"rjct.json"))
         (Some (Sample.webhook_payload $"ACSC")) Sample.cold)
  = Ok {| WebhookRoute.wh_body := WebhookRoute.received_true;
          WebhookRoute.wh_status := 200 |}.
Proof.
  pose proof (webhook_outcome
                (Sample.gateway Sample.token_ok (Sample.answer 200 $"rjct.json"))
                Sample.cold) as [_ H].
  destruct (H (Sample.webhook_payload $"ACSC")) as (_ & Hok & _).
  eapply Hok. vm_compute. reflexivity.
Defined.

(* ------------------------------------------------------------------ *)
(** ** Tokens that live a minute or less *)
(* ------------------------------------------------------------------ *)

(** X25. A token issued with [expires_in] of 60 seconds or less is never
    served from the slot: once it is stored, every later call of
    [getAccessToken] made while the slot holds it goes through the
    exchange again, and with credentials configured sends a new token
    request. *)
Theorem short_lived_token_not_reused (P : Platform) (w : World)
    (creds : TatraPayCredentials) (r : HttpResponse) (td : TokenData) :
  (forall t, cachedToken w = Some t -> expiresAt t - 60000 <= clock w) ->
  fst (getCredentials w) = Ok creds ->
  network P (net w) (clock w)
    (token_request (TATRAPAY_CONFIG (isSandbox creds)) creds) = Responded r ->
  ok r = true ->
  JSON_parse_token P (http_text r) = Some td ->
  td_expires_in td <= 60 ->
  forall w2,
    cachedToken w2 = cachedToken (snd (getAccessToken P w)) ->
    clock (snd (getAccessToken P w)) <= clock w2 ->
    getAccessToken P w2 = requestAccessToken P w2
    /\ (forall creds2, fst (getCredentials w2) = Ok creds2 ->
          net (snd (getAccessToken P w2))
          = net w2 ++ [token_request (TATRAPAY_CONFIG (isSandbox creds2)) creds2]).
Proof.
  intros Hst Hc Hnet Hok Hparse Hshort w2 Hslot Hclk.
  rewrite (getAccessToken_stale P w Hst) in Hslot, Hclk.
  rewrite (requestAccessToken_run P w creds Hc), Hnet, Hok, Hparse in Hslot, Hclk.
  cbn [snd cachedToken clock] in Hslot, Hclk.
  assert (Hst2 : forall t, cachedToken w2 = Some t -> expiresAt t - 60000 <= clock w2).
  { intros t Ht. rewrite Hslot in Ht. inversion Ht; subst; clear Ht.
    cbn [expiresAt]. lia. }
  split; [now apply getAccessToken_stale|].
  intros creds2 Hc2.
  rewrite (getAccessToken_stale P w2 Hst2).
  rewrite (requestAccessToken_run P w2 creds2 Hc2).
  destruct (network P (net w2) (clock w2) _) as [r2 | dt]; [|reflexivity].
  destruct (ok r2); [|reflexivity].
  destruct (JSON_parse_token P (http_text r2)); reflexivity.
Qed.

Lemma short_lived_token_not_reused_witness :
  let P := Sample.gateway
             (Responded {| http_status := 200; http_text := $"short-token.json";
                           latency := 120 |})
             (Sample.answer 200 $"acsc.json") in
  List.length (net (snd (getAccessToken P (snd (getAccessToken P Sample.cold)))))
  = 2%nat.
Proof.
  intros P.
  destruct (short_lived_token_not_reused P Sample.cold Sample.credentials
              {| http_status := 200; http_text := $"short-token.json";
                 latency := 120 |}
              Sample.short_token)
    with (w2 := snd (getAccessToken P Sample.cold)) as [_ H].
  - intros t Ht. discriminate Ht.
  - reflexivity.
  - reflexivity.
  - reflexivity.
  - reflexivity.
  - cbn. lia.
  - reflexivity.
  - apply Z.le_refl.
  - rewrite (H Sample.credentials eq_refl). reflexivity.
Defined.
